(** * orderbook247: the order-book engine and its registry

    A shallow embedding of [src/models/PriceLevel.js], [src/models/OrderBook.js],
    [src/utils/validators.js], the [OrderBookManager] class, the routes of
    [src/server.js] that serve a book, and the reconnection and dispatch of
    the [BinanceWebSocket] class, followed by the properties of the
    specification that concern them and by further properties of the code.

    Modelling decisions, all of them visible in the definitions below:

    - A JavaScript number is a [number]: an exact rational, [NaN], or one of
      the two infinities.  Arithmetic follows IEEE 754 on the special values
      (absorbing [NaN], [Infinity - Infinity = NaN], [x / 0], ...) and is exact
      on finite values: rounding to the nearest double and the sign of zero
      are not represented.
    - A decoded JSON payload is a [value].
    - [Map] is a [gmap].  The key of a side is [price.toString()]; since
      [Number.prototype.toString] is injective on numbers, the key is taken to
      be the number itself.  A [Map] lists its values in insertion order, a
      [gmap] in key order: every reader of a side sorts the array first, and
      the sorted array of a well-formed side does not depend on that order
      ([getBids_insertion_order], [getAsks_insertion_order]).
    - [Date.now()] reads a clock that is threaded through every operation
      that consults it (monad [M]).
    - Update ids are integers on the wire and are kept in [Z]; the sums and
      differences the code forms of them are rounded as binary64 rounds them
      ([round_int]).
    - A route handler takes its path parameters as strings and a query
      parameter as an optional string ([None] when absent), and returns the
      reply it sends.
    - [setTimeout(() => this.connect(), delay)] in [handleReconnect] is the
      delay it returns ([None] when no reconnection is scheduled).
    - Calls to the logger have no effect on the state and are left out. *)

From Stdlib Require Import QArith Qcanon Ascii String DecimalString.
From stdpp Require Import base decidable numbers option list sorting
  countable gmap strings.

Local Open Scope Z_scope.

(** ** JavaScript numbers *)

Inductive number : Type :=
| NaN
| PInf
| NInf
| Fin (q : Qc).

Global Instance number_eq_dec : EqDecision number.
Proof. solve_decision. Defined.

Definition number_code (n : number) : nat + Qc :=
  match n with
  | NaN => inl 0%nat
  | PInf => inl 1%nat
  | NInf => inl 2%nat
  | Fin q => inr q
  end.

Definition number_decode (c : nat + Qc) : number :=
  match c with
  | inl 0%nat => NaN
  | inl 1%nat => PInf
  | inl _ => NInf
  | inr q => Fin q
  end.

Global Instance number_countable : Countable number.
Proof.
  refine (inj_countable' number_code number_decode _).
  intros n. destruct n; reflexivity.
Defined.

(** Literals: an integer, and a decimal fraction [z / d]. *)
Definition int (z : Z) : number := Fin (Q2Qc (inject_Z z)).
Definition frac (z : Z) (d : positive) : number := Fin (Q2Qc (z # d)).

(** The sign of a number that is not [NaN]: [-1], [0] or [1]. *)
Definition num_sgn (a : number) : Z :=
  match a with
  | NaN => 0
  | PInf => 1
  | NInf => -1
  | Fin x => if bool_decide (0 < x)%Qc then 1
             else if bool_decide (x < 0)%Qc then -1 else 0
  end.

Definition inf_of_sgn (s : Z) : number :=
  if 0 <? s then PInf else if s <? 0 then NInf else NaN.

Definition num_neg (a : number) : number :=
  match a with
  | NaN => NaN
  | PInf => NInf
  | NInf => PInf
  | Fin x => Fin (- x)%Qc
  end.

Definition num_add (a b : number) : number :=
  match a, b with
  | NaN, _ | _, NaN => NaN
  | PInf, NInf | NInf, PInf => NaN
  | PInf, _ | _, PInf => PInf
  | NInf, _ | _, NInf => NInf
  | Fin x, Fin y => Fin (x + y)%Qc
  end.

Definition num_sub (a b : number) : number := num_add a (num_neg b).

Definition num_mul (a b : number) : number :=
  match a, b with
  | NaN, _ | _, NaN => NaN
  | Fin x, Fin y => Fin (x * y)%Qc
  | _, _ => inf_of_sgn (num_sgn a * num_sgn b)
  end.

Definition num_div (a b : number) : number :=
  match a, b with
  | NaN, _ | _, NaN => NaN
  | Fin x, Fin y =>
      if bool_decide (y = 0%Qc) then inf_of_sgn (num_sgn a)
      else Fin (x / y)%Qc
  | Fin _, _ => Fin 0%Qc
  | _, Fin y => inf_of_sgn (num_sgn a * (if bool_decide (y < 0)%Qc then -1 else 1))
  | _, _ => NaN
  end.

(** [a < b]; false as soon as one side is [NaN]. *)
Definition num_ltb (a b : number) : bool :=
  match a, b with
  | NaN, _ | _, NaN => false
  | _, NInf => false
  | NInf, _ => true
  | PInf, _ => false
  | _, PInf => true
  | Fin x, Fin y => bool_decide (x < y)%Qc
  end.

(** [a <= b]. *)
Definition num_leb (a b : number) : bool :=
  match a, b with
  | NaN, _ | _, NaN => false
  | NInf, _ => true
  | _, NInf => false
  | _, PInf => true
  | PInf, _ => false
  | Fin x, Fin y => bool_decide (x <= y)%Qc
  end.

Definition num_gtb (a b : number) : bool := num_ltb b a.
Definition num_geb (a b : number) : bool := num_leb b a.

(** [a === b] on numbers. *)
Definition num_eqb (a b : number) : bool :=
  match a, b with
  | NaN, _ | _, NaN => false
  | _, _ => bool_decide (a = b)
  end.

Definition isNaN (a : number) : bool :=
  match a with NaN => true | _ => false end.

(** [Math.min(a, b)]. *)
Definition Math_min (a b : number) : number :=
  match a, b with
  | NaN, _ | _, NaN => NaN
  | _, _ => if num_leb a b then a else b
  end.

(** ToBoolean on a number. *)
Definition num_truthy (a : number) : bool :=
  match a with
  | NaN => false
  | Fin x => negb (bool_decide (x = 0%Qc))
  | _ => true
  end.

Declare Scope num_scope.
Delimit Scope num_scope with num.
Bind Scope num_scope with number.
Infix "+" := num_add : num_scope.
Infix "-" := num_sub : num_scope.
Infix "*" := num_mul : num_scope.
Infix "/" := num_div : num_scope.
Infix "<?" := num_ltb : num_scope.
Infix "<=?" := num_leb : num_scope.
Infix ">?" := num_gtb : num_scope.
Infix ">=?" := num_geb : num_scope.
Infix "===" := num_eqb (at level 70) : num_scope.

Definition finite (a : number) : Prop :=
  match a with Fin _ => True | _ => False end.

(** *** Integers held in a number

    An update id is an integer held in a binary64 number.  Comparing two of
    them is exact; adding or subtracting gives the integer nearest to the
    exact result that has a significand of 53 bits, ties going to the even
    significand: exact up to [2 ^ 53] in magnitude, rounded beyond
    ([2 ^ 53 + 1] is [2 ^ 53]).  Ids stay below [2 ^ 1024] in magnitude, where
    a number would be [Infinity]. *)
Definition round_int (z : Z) : Z :=
  let a := Z.abs z in
  let e := Z.log2 a - 52 in
  if e <=? 0 then z
  else
    let q := a / 2 ^ e in
    let r := a mod 2 ^ e in
    let half := 2 ^ (e - 1) in
    let q' := if r <? half then q
              else if half <? r then q + 1
              else if Z.even q then q else q + 1 in
    Z.sgn z * (q' * 2 ^ e).

(** ** Decoded JSON values *)

#[local] Set Warnings "-register-all".

Inductive value : Type :=
| Undefined
| Null
| Bool (b : bool)
| Num (n : number)
| Str (s : string)
| Arr (items : list value)
| Obj (fields : list (string * value)).

(** ToBoolean: what [v && ...] and [if (v)] test. *)
Definition truthy (v : value) : bool :=
  match v with
  | Undefined | Null => false
  | Bool b => b
  | Num n => num_truthy n
  | Str s => negb (String.eqb s "")
  | Arr _ | Obj _ => true
  end.

(** [typeof v === 'string'] *)
Definition is_string (v : value) : bool :=
  match v with Str _ => true | _ => false end.

(** [Array.isArray(v)] *)
Definition Array_isArray (v : value) : bool :=
  match v with Arr _ => true | _ => false end.

(** [v === s] for a string literal [s]. *)
Definition str_eqb (v : value) (s : string) : bool :=
  match v with Str s' => String.eqb s' s | _ => false end.

Fixpoint assoc (k : string) (fields : list (string * value)) : value :=
  match fields with
  | [] => Undefined
  | (k', v) :: rest => if String.eqb k k' then v else assoc k rest
  end.

(** [v.name], for the property names the program reads ([e], [s], [U], [u],
    [b], [a], [lastUpdateId], [bids], [asks]): only an object can carry them.
    The program never reads a property of [null] or [undefined]: every access
    is behind a truthiness test of the receiver. *)
Definition get_prop (v : value) (name : string) : value :=
  match v with
  | Obj fields => assoc name fields
  | _ => Undefined
  end.

Definition string_of_index (i : nat) : string :=
  DecimalString.NilZero.string_of_uint (Nat.to_uint i).

(** [v[i]]: an element of an array, a one-character string of a string, the
    property named by the decimal index of an object. *)
Definition get_index (v : value) (i : nat) : value :=
  match v with
  | Arr items => nth i items Undefined
  | Str s => match String.get i s with
             | Some c => Str (String c EmptyString)
             | None => Undefined
             end
  | Obj fields => assoc (string_of_index i) fields
  | _ => Undefined
  end.

(** *** parseFloat *)

Definition is_digit (c : ascii) : bool :=
  ((48 <=? nat_of_ascii c) && (nat_of_ascii c <=? 57))%nat.

Definition digit_val (c : ascii) : Z := Z.of_nat (nat_of_ascii c - 48).

(** The white space of the ASCII range (tab, line feed, vertical tab, form
    feed, carriage return, space). *)
Definition is_white_space (c : ascii) : bool :=
  match nat_of_ascii c with
  | 9%nat | 10%nat | 11%nat | 12%nat | 13%nat | 32%nat => true
  | _ => false
  end.

Fixpoint trim_start (s : string) : string :=
  match s with
  | String c s' => if is_white_space c then trim_start s' else s
  | EmptyString => s
  end.

(** The longest run of decimal digits at the head of [s], and what follows. *)
Fixpoint take_digits (s : string) : list Z * string :=
  match s with
  | String c s' =>
      if is_digit c then
        let '(ds, rest) := take_digits s' in (digit_val c :: ds, rest)
      else ([], s)
  | EmptyString => ([], s)
  end.

Definition digits_value (ds : list Z) : Z :=
  fold_left (fun acc d => 10 * acc + d) ds 0.

Definition pow10 (e : Z) : Qc :=
  if 0 <=? e then Q2Qc (inject_Z (10 ^ e))
  else Q2Qc (1 # Z.to_pos (10 ^ (- e))).

(** ExponentPart: [e] or [E], an optional sign and at least one digit;
    otherwise the exponent does not belong to the literal. *)
Definition parse_exponent (s : string) : Z :=
  match s with
  | String c rest =>
      if (Ascii.eqb c "e" || Ascii.eqb c "E")%bool then
        match rest with
        | String sg rest' =>
            if Ascii.eqb sg "-" then
              match take_digits rest' with
              | ([], _) => 0
              | (ds, _) => - digits_value ds
              end
            else if Ascii.eqb sg "+" then digits_value (take_digits rest').1
            else digits_value (take_digits rest).1
        | EmptyString => 0
        end
      else 0
  | EmptyString => 0
  end.

(** StrUnsignedDecimalLiteral: [Infinity], [digits . digits? exp?],
    [. digits exp?] or [digits exp?]; [None] when no prefix of [s] is one. *)
Definition parse_unsigned (s : string) : option number :=
  if String.prefix "Infinity" s then Some PInf
  else
    let '(ip, r1) := take_digits s in
    let '(fp, r2) :=
      match r1 with
      | String c r => if Ascii.eqb c "." then take_digits r else ([], r1)
      | EmptyString => ([], r1)
      end in
    match ip, fp with
    | [], [] => None
    | _, _ =>
        let mant :=
          (Q2Qc (inject_Z (digits_value ip))
           + Q2Qc (inject_Z (digits_value fp)) * pow10 (- Z.of_nat (length fp)))%Qc in
        Some (Fin (mant * pow10 (parse_exponent r2))%Qc)
    end.

(** [parseFloat] of a string: leading white space is skipped, then the
    longest prefix that is a decimal literal is read; [NaN] if there is none. *)
Definition parseFloat_string (s : string) : number :=
  match trim_start s with
  | String c rest =>
      if Ascii.eqb c "-" then
        match parse_unsigned rest with Some n => num_neg n | None => NaN end
      else if Ascii.eqb c "+" then
        match parse_unsigned rest with Some n => n | None => NaN end
      else
        match parse_unsigned (String c rest) with Some n => n | None => NaN end
  | EmptyString => NaN
  end.

(** [parseFloat(v)] converts [v] to a string first.  A number prints to a
    literal that reads back as itself.  [undefined], [null], booleans and
    objects print to text with no numeric prefix.  An array prints its
    elements separated by commas, so only its first element is read. *)
Fixpoint parseFloat (v : value) : number :=
  match v with
  | Str s => parseFloat_string s
  | Num n => n
  | Arr (x :: _) => parseFloat x
  | _ => NaN
  end.

(** *** parseInt

    [parseInt(s)] with no radix: leading white space is skipped, a sign is
    read, a [0x] or [0X] prefix selects base 16, and the longest run of digits
    of the base is the value; [None] is [NaN], returned when there is no
    digit.  The value is the integer the digits denote. *)

Definition is_hex_digit (c : ascii) : bool :=
  let n := nat_of_ascii c in
  (((48 <=? n) && (n <=? 57)) || ((65 <=? n) && (n <=? 70))
   || ((97 <=? n) && (n <=? 102)))%nat.

Definition hex_digit_val (c : ascii) : Z :=
  let n := nat_of_ascii c in
  if (n <=? 57)%nat then Z.of_nat (n - 48)
  else if (n <=? 70)%nat then Z.of_nat (n - 55)
  else Z.of_nat (n - 87).

Fixpoint take_hex_digits (s : string) : list Z :=
  match s with
  | String c s' => if is_hex_digit c then hex_digit_val c :: take_hex_digits s' else []
  | EmptyString => []
  end.

Definition parseInt_decimal (s : string) : option Z :=
  match (take_digits s).1 with
  | [] => None
  | ds => Some (digits_value ds)
  end.

Definition parseInt_unsigned (s : string) : option Z :=
  match s with
  | String z (String x rest) =>
      if (Ascii.eqb z "0" && (Ascii.eqb x "x" || Ascii.eqb x "X"))%bool then
        match take_hex_digits rest with
        | [] => None
        | ds => Some (fold_left (fun acc d => 16 * acc + d) ds 0)
        end
      else parseInt_decimal s
  | _ => parseInt_decimal s
  end.

Definition parseInt_string (s : string) : option Z :=
  match trim_start s with
  | String c rest =>
      if Ascii.eqb c "-" then Z.opp <$> parseInt_unsigned rest
      else if Ascii.eqb c "+" then parseInt_unsigned rest
      else parseInt_unsigned (String c rest)
  | EmptyString => None
  end.

(** ** validators.js *)

Module Validators.

Definition isValidPriceLevel (level : value) : bool :=
  truthy level &&
  is_string (get_index level 0) &&
  is_string (get_index level 1) &&
  negb (isNaN (parseFloat (get_index level 0))) &&
  negb (isNaN (parseFloat (get_index level 1))) &&
  (parseFloat (get_index level 0) >? int 0)%num &&
  (parseFloat (get_index level 1) >=? int 0)%num.

Definition every (p : value -> bool) (v : value) : bool :=
  match v with Arr items => forallb p items | _ => false end.

(** The [&&] chain yields its first falsy operand, or the last one; callers
    only branch on it, so its truthiness is what is modelled. *)
Definition isValidDepthUpdate (data : value) : bool :=
  truthy data &&
  str_eqb (get_prop data "e") "depthUpdate" &&
  truthy (get_prop data "s") &&
  truthy (get_prop data "u") &&
  truthy (get_prop data "U") &&
  Array_isArray (get_prop data "b") &&
  Array_isArray (get_prop data "a") &&
  every isValidPriceLevel (get_prop data "b") &&
  every isValidPriceLevel (get_prop data "a").

Definition isValidSnapshot (data : value) : bool :=
  truthy data &&
  truthy (get_prop data "lastUpdateId") &&
  Array_isArray (get_prop data "bids") &&
  Array_isArray (get_prop data "asks") &&
  every isValidPriceLevel (get_prop data "bids") &&
  every isValidPriceLevel (get_prop data "asks").

Definition validateSequenceNumber (currentId newFirstId newLastId : Z) : bool :=
  if (newFirstId <=? round_int (currentId + 1))
     && (newLastId >=? round_int (currentId + 1))
  then true
  else false.

Definition sanitizePriceLevel (level : value) : number * number :=
  (parseFloat (get_index level 0), parseFloat (get_index level 1)).

End Validators.


(** ** The clock

    [Date.now()] is the only source of time.  The [n]-th call returns
    [readings n]; the state counts the calls made so far. *)

Record Clock : Type := { readings : nat -> Z; reads : nat }.

Definition M (A : Type) : Type := Clock -> A * Clock.

Definition ret {A : Type} (a : A) : M A := fun c => (a, c).

Definition bind {A B : Type} (m : M A) (k : A -> M B) : M B :=
  fun c => let '(a, c') := m c in k a c'.

Notation "x <- m ;; k" := (bind m (fun x => k))
  (at level 100, m at next level, right associativity).

Definition Date_now : M Z :=
  fun c => (readings c (reads c),
            {| readings := readings c; reads := S (reads c) |}).

(** What an operation returns when run from the clock [c], and the clock it
    leaves. *)
Definition result {A : Type} (m : M A) (c : Clock) : A := (m c).1.
Definition clock_after {A : Type} (m : M A) (c : Clock) : Clock := (m c).2.

(** [for (const x of xs) s = body(x, s)] *)
Fixpoint for_of {A S : Type} (xs : list A) (body : A -> S -> M S) (s : S) : M S :=
  match xs with
  | [] => ret s
  | x :: rest => s' <- body x s ;; for_of rest body s'
  end.

(** ** PriceLevel.js *)

Module PriceLevel.

Record t : Type := {
  price : number;
  quantity : number;
  count : Z;
  timestamp : Z
}.

Global Instance eq_dec : EqDecision t.
Proof. solve_decision. Defined.

(** [new PriceLevel(price, quantity, count)].  The arguments are numbers:
    [parseFloat] gives them back, and [parseInt] is the identity on the
    integer [count]. *)
Definition new (p q : number) (cnt : Z) : M t :=
  now <- Date_now ;;
  ret {| price := parseFloat (Num p);
         quantity := parseFloat (Num q);
         count := cnt;
         timestamp := now |}.

Definition update (q : number) (cnt : Z) (this : t) : M t :=
  now <- Date_now ;;
  ret {| price := price this;
         quantity := parseFloat (Num q);
         count := cnt;
         timestamp := now |}.

Definition toJSON (this : t) : t :=
  {| price := price this;
     quantity := quantity this;
     count := count this;
     timestamp := timestamp this |}.

End PriceLevel.

(** ** Arrays *)

(** [arr.sort(cmp)]: a stable sort that puts [a] after [b] only when
    [cmp(a, b) > 0]. *)
Definition in_order {A : Type} (cmp : A -> A -> number) (a b : A) : Prop :=
  (cmp a b >? int 0)%num = false.

Global Instance in_order_dec {A : Type} (cmp : A -> A -> number) :
  RelDecision (in_order cmp).
Proof. intros a b. unfold in_order. apply _. Defined.

Definition Array_sort {A : Type} (cmp : A -> A -> number) (l : list A) : list A :=
  merge_sort (in_order cmp) l.

(** [arr.slice(0, n)]: a negative [n] counts from the end. *)
Definition Array_slice0 {A : Type} (n : Z) (l : list A) : list A :=
  if 0 <=? n then take (Z.to_nat n) l
  else take (length l - Z.to_nat (- n)) l.

(** [Array.from(map.values())] *)
Definition Map_values {K : Type} `{Countable K} {V : Type} (m : gmap K V) : list V :=
  (map_to_list m).*2.

(** ** OrderBook.js *)

Module OrderBook.

Record t : Type := {
  symbol : string;
  bids : gmap number PriceLevel.t;
  asks : gmap number PriceLevel.t;
  lastUpdateId : Z;
  lastUpdateTime : Z
}.

Definition new (sym : string) : M t :=
  now <- Date_now ;;
  ret {| symbol := sym; bids := ∅; asks := ∅;
         lastUpdateId := 0; lastUpdateTime := now |}.

Definition set_bids (m : gmap number PriceLevel.t) (this : t) : t :=
  {| symbol := symbol this; bids := m; asks := asks this;
     lastUpdateId := lastUpdateId this; lastUpdateTime := lastUpdateTime this |}.

Definition set_asks (m : gmap number PriceLevel.t) (this : t) : t :=
  {| symbol := symbol this; bids := bids this; asks := m;
     lastUpdateId := lastUpdateId this; lastUpdateTime := lastUpdateTime this |}.

(** [price.toString()], the key of a level. *)
Definition toString (p : number) : number := p.

Definition addBid (p q : number) (cnt : Z) (this : t) : M t :=
  let priceKey := toString p in
  if (q >? int 0)%num then
    lvl <- PriceLevel.new p q cnt ;;
    ret (set_bids (<[priceKey := lvl]> (bids this)) this)
  else
    ret (set_bids (delete priceKey (bids this)) this).

Definition addAsk (p q : number) (cnt : Z) (this : t) : M t :=
  let priceKey := toString p in
  if (q >? int 0)%num then
    lvl <- PriceLevel.new p q cnt ;;
    ret (set_asks (<[priceKey := lvl]> (asks this)) this)
  else
    ret (set_asks (delete priceKey (asks this)) this).

Definition updateBid (p q : number) (cnt : Z) (this : t) : M t :=
  let priceKey := toString p in
  match bids this !! priceKey with
  | Some level =>
      if (q >? int 0)%num then
        level' <- PriceLevel.update q cnt level ;;
        ret (set_bids (<[priceKey := level']> (bids this)) this)
      else
        ret (set_bids (delete priceKey (bids this)) this)
  | None => ret this
  end.

Definition updateAsk (p q : number) (cnt : Z) (this : t) : M t :=
  let priceKey := toString p in
  match asks this !! priceKey with
  | Some level =>
      if (q >? int 0)%num then
        level' <- PriceLevel.update q cnt level ;;
        ret (set_asks (<[priceKey := level']> (asks this)) this)
      else
        ret (set_asks (delete priceKey (asks this)) this)
  | None => ret this
  end.

(** The two comparators handed to [sort]. *)
Definition descending (a b : PriceLevel.t) : number :=
  (PriceLevel.price b - PriceLevel.price a)%num.

Definition ascending (a b : PriceLevel.t) : number :=
  (PriceLevel.price a - PriceLevel.price b)%num.

(** [if (limit)]: [null] and [0] are falsy. *)
Definition limit_truthy (limit : option Z) : option Z :=
  match limit with
  | Some n => if n =? 0 then None else Some n
  | None => None
  end.

Definition getBids (limit : option Z) (this : t) : list PriceLevel.t :=
  let sortedBids := Array_sort descending (Map_values (bids this)) in
  match limit_truthy limit with
  | Some n => map PriceLevel.toJSON (Array_slice0 n sortedBids)
  | None => map PriceLevel.toJSON sortedBids
  end.

Definition getAsks (limit : option Z) (this : t) : list PriceLevel.t :=
  let sortedAsks := Array_sort ascending (Map_values (asks this)) in
  match limit_truthy limit with
  | Some n => map PriceLevel.toJSON (Array_slice0 n sortedAsks)
  | None => map PriceLevel.toJSON sortedAsks
  end.

(** [null] is [None]. *)
Definition getSpread (this : t) : option number :=
  let bestBid := head (getBids (Some 1) this) in
  let bestAsk := head (getAsks (Some 1) this) in
  match bestBid, bestAsk with
  | Some bestBid, Some bestAsk =>
      Some (PriceLevel.price bestAsk - PriceLevel.price bestBid)%num
  | _, _ => None
  end.

Definition getMidPrice (this : t) : option number :=
  let bestBid := head (getBids (Some 1) this) in
  let bestAsk := head (getAsks (Some 1) this) in
  match bestBid, bestAsk with
  | Some bestBid, Some bestAsk =>
      Some ((PriceLevel.price bestBid + PriceLevel.price bestAsk) / int 2)%num
  | _, _ => None
  end.

Record Snapshot : Type := {
  snap_symbol : string;
  snap_lastUpdateId : Z;
  snap_lastUpdateTime : Z;
  snap_bids : list PriceLevel.t;
  snap_asks : list PriceLevel.t;
  snap_spread : option number;
  snap_midPrice : option number;
  snap_totalBids : nat;
  snap_totalAsks : nat
}.

Definition getSnapshot (limit : option Z) (this : t) : Snapshot :=
  {| snap_symbol := symbol this;
     snap_lastUpdateId := lastUpdateId this;
     snap_lastUpdateTime := lastUpdateTime this;
     snap_bids := getBids limit this;
     snap_asks := getAsks limit this;
     snap_spread := getSpread this;
     snap_midPrice := getMidPrice this;
     snap_totalBids := size (bids this);
     snap_totalAsks := size (asks this) |}.

Definition updateLastUpdateId (updateId : Z) (this : t) : M t :=
  now <- Date_now ;;
  ret {| symbol := symbol this; bids := bids this; asks := asks this;
         lastUpdateId := updateId; lastUpdateTime := now |}.

Definition clear (this : t) : M t :=
  now <- Date_now ;;
  ret {| symbol := symbol this; bids := ∅; asks := ∅;
         lastUpdateId := 0; lastUpdateTime := now |}.

(** *** Accumulated quantity to a price *)

Record AccSide : Type := {
  acc_quantity : number;
  acc_cost : number;
  acc_averagePrice : number
}.

Record Accumulated : Type := {
  acc_targetPrice : number;
  acc_bids : AccSide;
  acc_asks : AccSide;
  acc_total : AccSide
}.

(** The body of both [for] loops: add the level while it qualifies, [break]
    at the first level that does not. *)
Fixpoint accumulate (qualifies : PriceLevel.t -> bool)
    (levels : list PriceLevel.t) (accQty accCost : number) : number * number :=
  match levels with
  | [] => (accQty, accCost)
  | level :: rest =>
      if qualifies level then
        accumulate qualifies rest
          (accQty + PriceLevel.quantity level)%num
          (accCost + PriceLevel.quantity level * PriceLevel.price level)%num
      else (accQty, accCost)
  end.

Definition mkAccSide (qty cost : number) : AccSide :=
  {| acc_quantity := qty;
     acc_cost := cost;
     acc_averagePrice := if (qty >? int 0)%num then (cost / qty)%num else int 0 |}.

(** [side] is [None] when the argument is omitted: the default is ['both']. *)
Definition getAccumulatedQuantityToPrice (targetPrice : number)
    (side : option string) (this : t) : Accumulated :=
  let side := default "both"%string side in
  let '(accBidQty, accBidCost) :=
    if (String.eqb side "both" || String.eqb side "bids")%bool then
      let sortedBids := Array_sort descending (Map_values (bids this)) in
      accumulate (fun level => (PriceLevel.price level >=? targetPrice)%num)
        sortedBids (int 0) (int 0)
    else (int 0, int 0) in
  let '(accAskQty, accAskCost) :=
    if (String.eqb side "both" || String.eqb side "asks")%bool then
      let sortedAsks := Array_sort ascending (Map_values (asks this)) in
      accumulate (fun level => (PriceLevel.price level <=? targetPrice)%num)
        sortedAsks (int 0) (int 0)
    else (int 0, int 0) in
  {| acc_targetPrice := targetPrice;
     acc_bids := mkAccSide accBidQty accBidCost;
     acc_asks := mkAccSide accAskQty accAskCost;
     acc_total := mkAccSide (accBidQty + accAskQty)%num (accBidCost + accAskCost)%num |}.

(** *** Market impact *)

Record Consumed : Type := {
  c_price : number;
  c_quantity : number;
  c_cost : number
}.

Record Walk : Type := {
  w_remainingSize : number;
  w_totalCost : number;
  w_levelsConsumed : list Consumed;
  w_finalPrice : number
}.

(** The body of both [for] loops of [getMarketImpact]. *)
Fixpoint consume (levels : list PriceLevel.t) (st : Walk) : Walk :=
  match levels with
  | [] => st
  | level :: rest =>
      if (w_remainingSize st <=? int 0)%num then st
      else
        let consumed := Math_min (w_remainingSize st) (PriceLevel.quantity level) in
        consume rest
          {| w_remainingSize := (w_remainingSize st - consumed)%num;
             w_totalCost := (w_totalCost st + consumed * PriceLevel.price level)%num;
             w_levelsConsumed :=
               w_levelsConsumed st ++
               [{| c_price := PriceLevel.price level;
                   c_quantity := consumed;
                   c_cost := (consumed * PriceLevel.price level)%num |}];
             w_finalPrice := PriceLevel.price level |}
  end.

Record MarketImpact : Type := {
  orderSize : number;
  side : string;
  totalCost : number;
  averagePrice : number;
  finalPrice : number;
  remainingSize : number;
  filledSize : number;
  levelsConsumed : list Consumed;
  slippage : number;
  canFill : bool
}.

(** [levels[0]?.price] inside an arithmetic expression: [undefined] becomes
    [NaN]. *)
Definition best_price (levels : list PriceLevel.t) : number :=
  match head levels with
  | Some level => PriceLevel.price level
  | None => NaN
  end.

(** [side] is [None] when the argument is omitted: the default is ['buy'].
    The result is [None] for [null]. *)
Definition getMarketImpact (size : number) (side : option string) (this : t)
    : option MarketImpact :=
  let side := default "buy"%string side in
  if (size <=? int 0)%num then None
  else
    let start := {| w_remainingSize := size; w_totalCost := int 0;
                    w_levelsConsumed := []; w_finalPrice := int 0 |} in
    let final :=
      if String.eqb side "buy" then
        consume (Array_sort ascending (Map_values (asks this))) start
      else
        consume (Array_sort descending (Map_values (bids this))) start in
    let averagePrice := (w_totalCost final / (size - w_remainingSize final))%num in
    let slippage :=
      if String.eqb side "buy" then
        ((averagePrice - best_price (getAsks (Some 1) this))
         / best_price (getAsks (Some 1) this) * int 100)%num
      else
        ((best_price (getBids (Some 1) this) - averagePrice)
         / best_price (getBids (Some 1) this) * int 100)%num in
    Some {| orderSize := size;
            side := side;
            totalCost := w_totalCost final;
            averagePrice := averagePrice;
            finalPrice := w_finalPrice final;
            remainingSize := w_remainingSize final;
            filledSize := (size - w_remainingSize final)%num;
            levelsConsumed := w_levelsConsumed final;
            slippage := if num_truthy slippage then slippage else int 0;
            canFill := (w_remainingSize final === int 0)%num |}.

(** *** Liquidity profile *)

(** A rung: the fields of the level ([...level]) and the running totals. *)
Record Rung : Type := {
  r_price : number;
  r_quantity : number;
  r_count : Z;
  r_timestamp : Z;
  r_accumulatedQuantity : number;
  r_accumulatedCost : number;
  r_averagePrice : number
}.

Record LiquidityProfile : Type := {
  lp_bids : list Rung;
  lp_asks : list Rung;
  lp_timestamp : Z
}.

(** The body of both [for] loops of [getLiquidityProfile]. *)
Fixpoint rungs (levels : list PriceLevel.t) (accQty accCost : number) : list Rung :=
  match levels with
  | [] => []
  | level :: rest =>
      let accQty := (accQty + PriceLevel.quantity level)%num in
      let accCost := (accCost + PriceLevel.quantity level * PriceLevel.price level)%num in
      {| r_price := PriceLevel.price level;
         r_quantity := PriceLevel.quantity level;
         r_count := PriceLevel.count level;
         r_timestamp := PriceLevel.timestamp level;
         r_accumulatedQuantity := accQty;
         r_accumulatedCost := accCost;
         r_averagePrice := if (accQty >? int 0)%num then (accCost / accQty)%num else int 0 |}
      :: rungs rest accQty accCost
  end.

(** [levels] is [None] when the argument is omitted: the default is [10]. *)
Definition getLiquidityProfile (levels : option Z) (this : t) : M LiquidityProfile :=
  let levels := default 10 levels in
  let bids := getBids (Some levels) this in
  let asks := getAsks (Some levels) this in
  now <- Date_now ;;
  ret {| lp_bids := rungs bids (int 0) (int 0);
         lp_asks := rungs asks (int 0) (int 0);
         lp_timestamp := now |}.

End OrderBook.

(** ** OrderBookManager *)

(** A depth update and a snapshot as they come off the wire, and the JSON
    value each one is. *)
Module DepthData.

Record t : Type := {
  e : string;
  s : string;
  U : Z;
  u : Z;
  b : list value;
  a : list value
}.

Definition to_value (d : t) : value :=
  Obj [("e"%string, Str (e d)); ("s"%string, Str (s d));
       ("U"%string, Num (int (U d))); ("u"%string, Num (int (u d)));
       ("b"%string, Arr (b d)); ("a"%string, Arr (a d))].

End DepthData.

Module SnapshotData.

Record t : Type := {
  lastUpdateId : Z;
  bids : list value;
  asks : list value
}.

Definition to_value (d : t) : value :=
  Obj [("lastUpdateId"%string, Num (int (lastUpdateId d)));
       ("bids"%string, Arr (bids d)); ("asks"%string, Arr (asks d))].

End SnapshotData.

Module OrderBookManager.

(** A subscriber socket: its identity, its [readyState], and whether its
    [send] throws. *)
Record WebSocket : Type := {
  ws_id : nat;
  readyState : Z;
  send_throws : bool
}.

Definition OPEN : Z := 1.

Record Message : Type := {
  msg_type : string;
  msg_symbol : string;
  msg_data : OrderBook.Snapshot;
  msg_timestamp : Z
}.

(** What was handed to [ws.send], and to which socket. *)
Definition Sent : Type := nat * Message.

Record t : Type := {
  orderbooks : gmap string OrderBook.t;
  subscribers : list WebSocket
}.

Definition new : t := {| orderbooks := ∅; subscribers := [] |}.

Definition createOrderBook (symbol : string) (this : t) : M (OrderBook.t * t) :=
  orderbook <- OrderBook.new symbol ;;
  ret (orderbook,
       {| orderbooks := <[symbol := orderbook]> (orderbooks this);
          subscribers := subscribers this |}).

Definition getOrderBook (symbol : string) (this : t) : option OrderBook.t :=
  orderbooks this !! symbol.

(** The book is an object held by the map: a change to it is a change to the
    entry. *)
Definition store (symbol : string) (orderbook : OrderBook.t) (this : t) : t :=
  {| orderbooks := <[symbol := orderbook]> (orderbooks this);
     subscribers := subscribers this |}.

Definition addSubscriber (ws : WebSocket) (this : t) : t :=
  {| orderbooks := orderbooks this;
     subscribers :=
       if bool_decide (ws_id ws ∈ map ws_id (subscribers this))
       then subscribers this else subscribers this ++ [ws] |}.

Definition removeSubscriber (ws : WebSocket) (this : t) : t :=
  {| orderbooks := orderbooks this;
     subscribers :=
       filter (fun w => ws_id w <> ws_id ws) (subscribers this) |}.

(** The body of the loop of [broadcastUpdate]: one subscriber. *)
Definition send_to (message : Message) (ws : WebSocket) (st : t * list Sent)
    : M (t * list Sent) :=
  let '(this, sent) := st in
  if readyState ws =? OPEN then
    if send_throws ws then ret (removeSubscriber ws this, sent)
    else ret (this, sent ++ [(ws_id ws, message)])
  else ret (removeSubscriber ws this, sent).

Definition broadcastUpdate (symbol : string) (snapshot : OrderBook.Snapshot)
    (this : t) : M (t * list Sent) :=
  now <- Date_now ;;
  let message := {| msg_type := "orderbook_update"; msg_symbol := symbol;
                    msg_data := snapshot; msg_timestamp := now |} in
  for_of (subscribers this) (send_to message) (this, []).

(** The two loops over the levels of a message. *)
Definition apply_bids (levels : list value) (orderbook : OrderBook.t) : M OrderBook.t :=
  for_of levels
    (fun level orderbook =>
       if Validators.isValidPriceLevel level then
         let '(price, quantity) := Validators.sanitizePriceLevel level in
         OrderBook.addBid price quantity 1 orderbook
       else ret orderbook)
    orderbook.

Definition apply_asks (levels : list value) (orderbook : OrderBook.t) : M OrderBook.t :=
  for_of levels
    (fun level orderbook =>
       if Validators.isValidPriceLevel level then
         let '(price, quantity) := Validators.sanitizePriceLevel level in
         OrderBook.addAsk price quantity 1 orderbook
       else ret orderbook)
    orderbook.

(** Everything after the sequence check of [updateOrderBook]. *)
Definition apply_update (symbol : string) (depthData : DepthData.t)
    (orderbook : OrderBook.t) (this : t) : M (bool * t * list Sent) :=
  orderbook <- apply_bids (DepthData.b depthData) orderbook ;;
  orderbook <- apply_asks (DepthData.a depthData) orderbook ;;
  orderbook <- OrderBook.updateLastUpdateId (DepthData.u depthData) orderbook ;;
  let this := store symbol orderbook this in
  r <- broadcastUpdate symbol (OrderBook.getSnapshot None orderbook) this ;;
  ret (true, r.1, r.2).

Definition updateOrderBook (symbol : string) (depthData : DepthData.t) (this : t)
    : M (bool * t * list Sent) :=
  r <- match getOrderBook symbol this with
       | Some orderbook => ret (orderbook, this)
       | None => createOrderBook symbol this
       end ;;
  let '(orderbook, this) := r in
  if OrderBook.lastUpdateId orderbook =? 0 then
    orderbook <- OrderBook.updateLastUpdateId (DepthData.u depthData) orderbook ;;
    apply_update symbol depthData orderbook this
  else
    let sequenceGap :=
      round_int (DepthData.U depthData - OrderBook.lastUpdateId orderbook) in
    if sequenceGap >? 1000 then
      orderbook <- OrderBook.updateLastUpdateId (DepthData.u depthData) orderbook ;;
      apply_update symbol depthData orderbook this
    else
      if negb (Validators.validateSequenceNumber
                 (OrderBook.lastUpdateId orderbook) (DepthData.U depthData) (DepthData.u depthData))
      then ret (false, this, [])
      else apply_update symbol depthData orderbook this.

Definition setSnapshot (symbol : string) (snapshotData : SnapshotData.t) (this : t)
    : M (bool * t) :=
  if negb (Validators.isValidSnapshot (SnapshotData.to_value snapshotData)) then
    ret (false, this)
  else
    r <- match getOrderBook symbol this with
         | Some orderbook => ret (orderbook, this)
         | None => createOrderBook symbol this
         end ;;
    let '(orderbook, this) := r in
    orderbook <- OrderBook.clear orderbook ;;
    orderbook <- apply_bids (SnapshotData.bids snapshotData) orderbook ;;
    orderbook <- apply_asks (SnapshotData.asks snapshotData) orderbook ;;
    orderbook <- OrderBook.updateLastUpdateId (SnapshotData.lastUpdateId snapshotData) orderbook ;;
    ret (true, store symbol orderbook this).

(** [getAllOrderBooks]: the object that maps each symbol to the snapshot of
    its book. *)
Definition getAllOrderBooks (this : t) : gmap string OrderBook.Snapshot :=
  OrderBook.getSnapshot None <$> orderbooks this.

End OrderBookManager.

(** ** server.js: the routes that serve a book *)

Module Server.

(** [s.toLowerCase()], on the letters of the ASCII range. *)
Definition lower (c : ascii) : ascii :=
  let n := nat_of_ascii c in
  if ((65 <=? n) && (n <=? 90))%nat then ascii_of_nat (n + 32) else c.

Fixpoint toLowerCase (s : string) : string :=
  match s with
  | EmptyString => EmptyString
  | String c rest => String (lower c) (toLowerCase rest)
  end.

Inductive Response : Type :=
| Status404 (error : string)
| Status400 (error : string)
| Json200 (data : option OrderBook.MarketImpact) (timestamp : Z).

(** [GET /api/orderbooks/:symbol/market-impact/:size?side=...]: [symbol] and
    [size] are the path parameters, [side] the query parameter ([None] when
    absent). *)
Definition marketImpact (symbol size : string) (side : option string)
    (orderbookManager : OrderBookManager.t) : M Response :=
  let symbol := toLowerCase symbol in
  let orderSize := parseFloat (Str size) in
  let side := match side with
              | Some s => if truthy (Str s) then s else "buy"%string
              | None => "buy"%string
              end in
  match OrderBookManager.getOrderBook symbol orderbookManager with
  | None => ret (Status404 ("Orderbook not found for symbol: " ++ symbol))
  | Some orderbook =>
      if (isNaN orderSize || (orderSize <=? int 0)%num)%bool then
        ret (Status400 "Invalid order size parameter")
      else
        let marketImpact := OrderBook.getMarketImpact orderSize (Some side) orderbook in
        now <- Date_now ;;
        ret (Json200 marketImpact now)
  end.

(** The replies of the other data routes: [data] is what the route computes. *)
Inductive Reply (A : Type) : Type :=
| Reply404 (error : string)
| Reply400 (error : string)
| Reply200 (data : A) (timestamp : Z).

Arguments Reply404 {A} error.
Arguments Reply400 {A} error.
Arguments Reply200 {A} data timestamp.

(** [GET /api/orderbooks/:symbol] *)
Definition orderbook (symbol : string) (orderbookManager : OrderBookManager.t)
    : M (Reply OrderBook.Snapshot) :=
  let symbol := toLowerCase symbol in
  match OrderBookManager.getOrderBook symbol orderbookManager with
  | None => ret (Reply404 ("Orderbook not found for symbol: " ++ symbol))
  | Some orderbook =>
      let data := OrderBook.getSnapshot None orderbook in
      now <- Date_now ;;
      ret (Reply200 data now)
  end.

(** [GET /api/orderbooks/:symbol/limit/:limit] *)
Definition orderbookLimit (symbol limit : string) (orderbookManager : OrderBookManager.t)
    : M (Reply OrderBook.Snapshot) :=
  let symbol := toLowerCase symbol in
  let limit := parseInt_string limit in
  match OrderBookManager.getOrderBook symbol orderbookManager with
  | None => ret (Reply404 ("Orderbook not found for symbol: " ++ symbol))
  | Some orderbook =>
      match limit with
      | None => ret (Reply400 "Invalid limit parameter")
      | Some limit =>
          if limit <? 1 then ret (Reply400 "Invalid limit parameter")
          else
            let data := OrderBook.getSnapshot (Some limit) orderbook in
            now <- Date_now ;;
            ret (Reply200 data now)
      end
  end.

(** [GET /api/orderbooks/:symbol/acc-qty/:price?side=...] *)
Definition accQty (symbol price : string) (side : option string)
    (orderbookManager : OrderBookManager.t) : M (Reply OrderBook.Accumulated) :=
  let symbol := toLowerCase symbol in
  let targetPrice := parseFloat (Str price) in
  let side := match side with
              | Some s => if truthy (Str s) then s else "both"%string
              | None => "both"%string
              end in
  match OrderBookManager.getOrderBook symbol orderbookManager with
  | None => ret (Reply404 ("Orderbook not found for symbol: " ++ symbol))
  | Some orderbook =>
      if (isNaN targetPrice || (targetPrice <=? int 0)%num)%bool then
        ret (Reply400 "Invalid price parameter")
      else
        let accQty := OrderBook.getAccumulatedQuantityToPrice targetPrice (Some side) orderbook in
        now <- Date_now ;;
        ret (Reply200 accQty now)
  end.

(** [GET /api/orderbooks/:symbol/liquidity-profile?levels=...]:
    [parseInt(req.query.levels) || 10], where [parseInt(undefined)] is [NaN];
    after [|| 10] the value is a number, so [isNaN(levels)] is false. *)
Definition liquidityProfile (symbol : string) (levels : option string)
    (orderbookManager : OrderBookManager.t) : M (Reply OrderBook.LiquidityProfile) :=
  let symbol := toLowerCase symbol in
  let levels := match levels ≫= parseInt_string with
                | Some n => if n =? 0 then 10 else n
                | None => 10
                end in
  match OrderBookManager.getOrderBook symbol orderbookManager with
  | None => ret (Reply404 ("Orderbook not found for symbol: " ++ symbol))
  | Some orderbook =>
      if ((levels <? 1) || (levels >? 100))%bool then
        ret (Reply400 "Invalid levels parameter (1-100)")
      else
        liquidityProfile <- OrderBook.getLiquidityProfile (Some levels) orderbook ;;
        now <- Date_now ;;
        ret (Reply200 liquidityProfile now)
  end.

End Server.

(** ** BinanceWebSocket: reconnection and dispatch of depth updates *)

Module BinanceWebSocket.

Record t : Type := {
  isConnected : bool;
  reconnectAttempts : nat;
  maxReconnectAttempts : nat;
  reconnectDelay : Z
}.

Definition new : t :=
  {| isConnected := false; reconnectAttempts := 0;
     maxReconnectAttempts := 10; reconnectDelay := 1000 |}.

(** [handleReconnect]: the delay after which [connect] is scheduled, or
    [None] when the attempts are used up. *)
Definition handleReconnect (this : t) : t * option Z :=
  if (maxReconnectAttempts this <=? reconnectAttempts this)%nat then (this, None)
  else
    let this := {| isConnected := isConnected this;
                   reconnectAttempts := S (reconnectAttempts this);
                   maxReconnectAttempts := maxReconnectAttempts this;
                   reconnectDelay := reconnectDelay this |} in
    let delay := reconnectDelay this * 2 ^ (Z.of_nat (reconnectAttempts this) - 1) in
    (this, Some delay).

(** The handlers of the socket's ['open'], ['close'] and ['error'] events,
    as far as they change these fields: the subscription to the streams that
    ['open'] also starts is left out. *)
Definition on_open (this : t) : t :=
  {| isConnected := true; reconnectAttempts := 0;
     maxReconnectAttempts := maxReconnectAttempts this;
     reconnectDelay := reconnectDelay this |}.

Definition on_close (this : t) : t * option Z :=
  handleReconnect
    {| isConnected := false; reconnectAttempts := reconnectAttempts this;
       maxReconnectAttempts := maxReconnectAttempts this;
       reconnectDelay := reconnectDelay this |}.

Definition on_error (this : t) : t :=
  {| isConnected := false; reconnectAttempts := reconnectAttempts this;
     maxReconnectAttempts := maxReconnectAttempts this;
     reconnectDelay := reconnectDelay this |}.

(** [handleDepthUpdate]: the registry after the message and what was sent
    to the subscribers. *)
Definition handleDepthUpdate (data : DepthData.t) (orderbookManager : OrderBookManager.t)
    : M (OrderBookManager.t * list OrderBookManager.Sent) :=
  if negb (Validators.isValidDepthUpdate (DepthData.to_value data)) then
    ret (orderbookManager, [])
  else
    let symbol := Server.toLowerCase (DepthData.s data) in
    r <- OrderBookManager.updateOrderBook symbol data orderbookManager ;;
    ret (r.1.2, r.2).

End BinanceWebSocket.

(** * Specification-level notions *)

(** ** Books the registry can hold

    A level sits under the key of its own price, that price is a number, and
    its quantity is positive: what [addBid] and [addAsk] establish for every
    level they store when the price they are given is not [NaN]. *)

Definition level_ok (k : number) (l : PriceLevel.t) : Prop :=
  PriceLevel.price l = k /\ k <> NaN /\
  (PriceLevel.quantity l >? int 0)%num = true.

Definition side_ok (m : gmap number PriceLevel.t) : Prop :=
  map_Forall level_ok m.

Definition book_ok (ob : OrderBook.t) : Prop :=
  side_ok (OrderBook.bids ob) /\ side_ok (OrderBook.asks ob).

Definition manager_ok (mgr : OrderBookManager.t) : Prop :=
  map_Forall (fun _ ob => book_ok ob) (OrderBookManager.orderbooks mgr).

Global Instance level_ok_dec k l : Decision (level_ok k l).
Proof. unfold level_ok. apply _. Defined.

Global Instance side_ok_dec m : Decision (side_ok m).
Proof. unfold side_ok. apply _. Defined.

Global Instance book_ok_dec ob : Decision (book_ok ob).
Proof. unfold book_ok. apply _. Defined.

(** Strictly decreasing and strictly increasing prices. *)
Definition price_gt (x y : PriceLevel.t) : Prop :=
  (PriceLevel.price y <? PriceLevel.price x)%num = true.

Definition price_lt (x y : PriceLevel.t) : Prop :=
  (PriceLevel.price x <? PriceLevel.price y)%num = true.

(** A bid of highest price, an ask of lowest price. *)
Definition best_bid (ob : OrderBook.t) (l : PriceLevel.t) : Prop :=
  l ∈ Map_values (OrderBook.bids ob) /\
  forall l', l' ∈ Map_values (OrderBook.bids ob) ->
    (PriceLevel.price l' <=? PriceLevel.price l)%num = true.

Definition best_ask (ob : OrderBook.t) (l : PriceLevel.t) : Prop :=
  l ∈ Map_values (OrderBook.asks ob) /\
  forall l', l' ∈ Map_values (OrderBook.asks ob) ->
    (PriceLevel.price l <=? PriceLevel.price l')%num = true.

(** The sum of a list of numbers. *)
Definition sum (l : list number) : number := foldr num_add (int 0) l.

(** [average_price = cost / quantity] when the quantity is positive, else 0. *)
Definition average_ok (s : OrderBook.AccSide) : Prop :=
  OrderBook.acc_averagePrice s
  = if (OrderBook.acc_quantity s >? int 0)%num
    then (OrderBook.acc_cost s / OrderBook.acc_quantity s)%num else int 0.

(** The (price, quantity) pair of a level. *)
Definition pq (l : PriceLevel.t) : number * number :=
  (PriceLevel.price l, PriceLevel.quantity l).

(** ** Sequences of [addBid] and [addAsk] *)

Inductive Op : Type :=
| AddBid (p q : number) (cnt : Z)
| AddAsk (p q : number) (cnt : Z).

Definition run_op (o : Op) (ob : OrderBook.t) : M OrderBook.t :=
  match o with
  | AddBid p q cnt => OrderBook.addBid p q cnt ob
  | AddAsk p q cnt => OrderBook.addAsk p q cnt ob
  end.

Definition run_ops (ops : list Op) (ob : OrderBook.t) : M OrderBook.t :=
  for_of ops run_op ob.

(** The quantity given by the most recent change at price [p] in a list of
    (price, quantity) changes, oldest first. *)
Fixpoint last_change (changes : list (number * number)) (p : number) : option number :=
  match changes with
  | [] => None
  | (p', q) :: rest =>
      match last_change rest p with
      | Some q' => Some q'
      | None => if bool_decide (p' = p) then Some q else None
      end
  end.

Definition bid_changes (ops : list Op) : list (number * number) :=
  omap (fun o => match o with AddBid p q _ => Some (p, q) | AddAsk _ _ _ => None end) ops.

Definition ask_changes (ops : list Op) : list (number * number) :=
  omap (fun o => match o with AddAsk p q _ => Some (p, q) | AddBid _ _ _ => None end) ops.

(** The changes a list of wire levels amounts to: the levels that pass
    [isValidPriceLevel], parsed. *)
Definition changes_of (levels : list value) : list (number * number) :=
  map Validators.sanitizePriceLevel (filter (fun l => Validators.isValidPriceLevel l = true) levels).

(** What a list of changes makes of a side: at a price the changes name, the
    last change decides (a level of that price and quantity, or none when the
    quantity is not positive); at any other price the side is as before. *)
Definition side_after (changes : list (number * number))
    (before after : gmap number PriceLevel.t) : Prop :=
  forall p,
    match last_change changes p with
    | Some q => pq <$> after !! p = if (q >? int 0)%num then Some (p, q) else None
    | None => after !! p = before !! p
    end.

(** The operations the registry performs for a list of changes. *)
Definition bid_op (ch : number * number) : Op := AddBid ch.1 ch.2 1.
Definition ask_op (ch : number * number) : Op := AddAsk ch.1 ch.2 1.

Definition op_price (o : Op) : number :=
  match o with AddBid p _ _ | AddAsk p _ _ => p end.

(** What it means for a diff to have been applied to a book. *)
Definition applied (d : DepthData.t) (before after : OrderBook.t) : Prop :=
  side_after (changes_of (DepthData.b d)) (OrderBook.bids before) (OrderBook.bids after) /\
  side_after (changes_of (DepthData.a d)) (OrderBook.asks before) (OrderBook.asks after) /\
  OrderBook.lastUpdateId after = DepthData.u d.

(** ** The walk of a market order, as the specification words it

    [walk levels remaining consumed left]: starting with [remaining] to fill,
    an order that meets [levels] in this order takes
    [min(remaining, level.quantity)] at each level until nothing remains or
    the levels run out; [consumed] is what it took and [left] what remains. *)
Inductive walk : list PriceLevel.t -> number -> list OrderBook.Consumed -> number -> Prop :=
| walk_filled levels remaining :
    (remaining <=? int 0)%num = true ->
    walk levels remaining [] remaining
| walk_exhausted remaining :
    walk [] remaining [] remaining
| walk_step level levels remaining consumed left :
    (remaining <=? int 0)%num = false ->
    walk levels
      (remaining - Math_min remaining (PriceLevel.quantity level))%num consumed left ->
    walk (level :: levels) remaining
      ({| OrderBook.c_price := PriceLevel.price level;
          OrderBook.c_quantity := Math_min remaining (PriceLevel.quantity level);
          OrderBook.c_cost :=
            (Math_min remaining (PriceLevel.quantity level) * PriceLevel.price level)%num |}
       :: consumed) left.

(** The variables of [getMarketImpact] before its loop. *)
Definition start (size : number) : OrderBook.Walk :=
  {| OrderBook.w_remainingSize := size; OrderBook.w_totalCost := int 0;
     OrderBook.w_levelsConsumed := []; OrderBook.w_finalPrice := int 0 |}.

Global Instance consumed_eq_dec : EqDecision OrderBook.Consumed.
Proof. solve_decision. Defined.

(** ** [is_valid_snapshot] as the specification words it *)

Definition spec_is_valid_snapshot (msg : value) : bool :=
  match get_prop msg "lastUpdateId" with
  | Num id => (id >? int 0)%num
  | _ => false
  end &&
  match get_prop msg "bids", get_prop msg "asks" with
  | Arr bids, Arr asks =>
      forallb Validators.isValidPriceLevel bids &&
      forallb Validators.isValidPriceLevel asks
  | _, _ => false
  end.

(** A result with its [side] field replaced. *)
Definition with_side (sd : string) (r : OrderBook.MarketImpact) : OrderBook.MarketImpact :=
  {| OrderBook.orderSize := OrderBook.orderSize r;
     OrderBook.side := sd;
     OrderBook.totalCost := OrderBook.totalCost r;
     OrderBook.averagePrice := OrderBook.averagePrice r;
     OrderBook.finalPrice := OrderBook.finalPrice r;
     OrderBook.remainingSize := OrderBook.remainingSize r;
     OrderBook.filledSize := OrderBook.filledSize r;
     OrderBook.levelsConsumed := OrderBook.levelsConsumed r;
     OrderBook.slippage := OrderBook.slippage r;
     OrderBook.canFill := OrderBook.canFill r |}.

(** A response with the [side] field of its result replaced. *)
Definition response_with_side (sd : string) (r : Server.Response) : Server.Response :=
  match r with
  | Server.Json200 data timestamp => Server.Json200 (with_side sd <$> data) timestamp
  | _ => r
  end.

(** ** Reachable registries

    What the program does to a registry: it starts empty, and books enter
    and change only through these operations. *)
Inductive reachable : OrderBookManager.t -> Prop :=
| reach_new :
    reachable OrderBookManager.new
| reach_create symbol mgr c :
    reachable mgr ->
    reachable (result (OrderBookManager.createOrderBook symbol mgr) c).2
| reach_update symbol d mgr c :
    reachable mgr ->
    reachable (result (OrderBookManager.updateOrderBook symbol d mgr) c).1.2
| reach_snapshot symbol sd mgr c :
    reachable mgr ->
    reachable (result (OrderBookManager.setSnapshot symbol sd mgr) c).2
| reach_subscribe ws mgr :
    reachable mgr ->
    reachable (OrderBookManager.addSubscriber ws mgr)
| reach_unsubscribe ws mgr :
    reachable mgr ->
    reachable (OrderBookManager.removeSubscriber ws mgr).

(** ** The registry the program keeps

    Besides well-formed books, a registry the program has built keeps each
    book under the key of its own symbol, holds positive prices only, and
    has no socket subscribed twice. *)

Definition keys_positive (m : gmap number PriceLevel.t) : Prop :=
  map_Forall (fun k _ => (k >? int 0)%num = true) m.

Definition book_strict (key : string) (ob : OrderBook.t) : Prop :=
  OrderBook.symbol ob = key /\
  keys_positive (OrderBook.bids ob) /\ keys_positive (OrderBook.asks ob).

Definition manager_strict (mgr : OrderBookManager.t) : Prop :=
  manager_ok mgr /\
  map_Forall book_strict (OrderBookManager.orderbooks mgr) /\
  NoDup (map OrderBookManager.ws_id (OrderBookManager.subscribers mgr)).

(** A level a client may be shown: positive price, positive quantity. *)
Definition positive_level (l : PriceLevel.t) : Prop :=
  (PriceLevel.price l >? int 0)%num = true /\
  (PriceLevel.quantity l >? int 0)%num = true.

(** ** Subscribers and broadcasts *)

(** A subscriber that takes a message: its socket is open and [send] does
    not throw. *)
Definition live (ws : OrderBookManager.WebSocket) : bool :=
  (OrderBookManager.readyState ws =? OrderBookManager.OPEN)
  && negb (OrderBookManager.send_throws ws).

(** The subscribers a broadcast leaves: those whose socket is not the socket
    of a subscriber that failed to take the message. *)
Definition pruned (subs : list OrderBookManager.WebSocket) : list OrderBookManager.WebSocket :=
  filter (fun w => OrderBookManager.ws_id w
                   ∉ map OrderBookManager.ws_id (filter (fun w => live w = false) subs)) subs.

(** The book [updateOrderBook] and [setSnapshot] start from: the one the
    registry holds, or a fresh one. *)
Definition book_before (symbol : string) (mgr : OrderBookManager.t) (c : Clock) : OrderBook.t :=
  default (result (OrderBook.new symbol) c) (OrderBookManager.getOrderBook symbol mgr).

(** ** Reconnection *)

(** [k] consecutive ['close'] events, with no ['open'] between them. *)
Definition closes (k : nat) (s : BinanceWebSocket.t) : BinanceWebSocket.t :=
  Nat.iter k (fun s => (BinanceWebSocket.on_close s).1) s.

(** ** Concrete inputs *)

Definition clock0 : Clock :=
  {| readings := fun n => 1700000000000 + Z.of_nat n; reads := 0 |}.

(** Asks 100 x 2, 101 x 3, 102 x 10 and bids 99 x 1, 98 x 2, 97 x 5. *)
Definition book1 : OrderBook.t :=
  result (ob <- OrderBook.new "btcusdt" ;;
          run_ops [AddAsk (int 100) (int 2) 1; AddAsk (int 102) (int 10) 1;
                   AddAsk (int 101) (int 3) 1; AddBid (int 98) (int 2) 1;
                   AddBid (int 99) (int 1) 1; AddBid (int 97) (int 5) 1] ob) clock0.

(** A crossed book: the best bid is above the best ask. *)
Definition book_crossed : OrderBook.t :=
  result (ob <- OrderBook.new "btcusdt" ;;
          run_ops [AddBid (int 101) (int 1) 1; AddAsk (int 100) (int 2) 1] ob) clock0.

(** A book at update id 100, in a registry with one open and one closed
    subscriber. *)
Definition ob100 : OrderBook.t :=
  result (ob <- OrderBook.new "btcusdt" ;;
          ob <- OrderBook.addBid (int 50000) (frac 3 2) 1 ob ;;
          ob <- OrderBook.addAsk (int 50001) (int 2) 1 ob ;;
          OrderBook.updateLastUpdateId 100 ob) clock0.

Definition ws_open : OrderBookManager.WebSocket :=
  {| OrderBookManager.ws_id := 1; OrderBookManager.readyState := 1;
     OrderBookManager.send_throws := false |}.

Definition ws_closed : OrderBookManager.WebSocket :=
  {| OrderBookManager.ws_id := 2; OrderBookManager.readyState := 3;
     OrderBookManager.send_throws := false |}.

Definition mgr100 : OrderBookManager.t :=
  {| OrderBookManager.orderbooks := <["btcusdt"%string := ob100]> ∅;
     OrderBookManager.subscribers := [ws_open; ws_closed] |}.

Definition diff_next : DepthData.t :=
  {| DepthData.e := "depthUpdate"; DepthData.s := "BTCUSDT";
     DepthData.U := 101; DepthData.u := 105;
     DepthData.b := [Arr [Str "50000"; Str "0"]; Arr [Str "49999"; Str "3"]];
     DepthData.a := [Arr [Str "50001"; Str "2.5"]] |}.

Definition diff_stale : DepthData.t :=
  {| DepthData.e := "depthUpdate"; DepthData.s := "BTCUSDT";
     DepthData.U := 90; DepthData.u := 95;
     DepthData.b := [Arr [Str "50000"; Str "0"]];
     DepthData.a := [] |}.

Definition diff_jump : DepthData.t :=
  {| DepthData.e := "depthUpdate"; DepthData.s := "BTCUSDT";
     DepthData.U := 5000; DepthData.u := 5010;
     DepthData.b := [Arr [Str "50000"; Str "0"]];
     DepthData.a := [] |}.

(** A book at update id [2 ^ 53], and a diff that ends at that same id. *)
Definition ob_2_53 : OrderBook.t :=
  result (ob <- OrderBook.new "btcusdt" ;;
          OrderBook.updateLastUpdateId (2 ^ 53) ob) clock0.

Definition mgr_2_53 : OrderBookManager.t :=
  {| OrderBookManager.orderbooks := <["btcusdt"%string := ob_2_53]> ∅;
     OrderBookManager.subscribers := [] |}.

Definition diff_2_53 : DepthData.t :=
  {| DepthData.e := "depthUpdate"; DepthData.s := "BTCUSDT";
     DepthData.U := 2 ^ 53; DepthData.u := 2 ^ 53;
     DepthData.b := [Arr [Str "50000"; Str "1"]];
     DepthData.a := [] |}.

Definition mgr1 : OrderBookManager.t :=
  {| OrderBookManager.orderbooks := <["btcusdt"%string := book1]> ∅;
     OrderBookManager.subscribers := [] |}.

Definition snapshot_ok : SnapshotData.t :=
  {| SnapshotData.lastUpdateId := 100;
     SnapshotData.bids := [Arr [Str "50000"; Str "1.5"]; Arr [Str "49999"; Str "3"]];
     SnapshotData.asks := [Arr [Str "50001"; Str "2.0"]] |}.

Definition snapshot_zero : SnapshotData.t :=
  {| SnapshotData.lastUpdateId := 100;
     SnapshotData.bids := [Arr [Str "50000"; Str "0"]];
     SnapshotData.asks := [] |}.

Definition msg_negative_id : value :=
  Obj [("lastUpdateId"%string, Num (int (-1)));
       ("bids"%string, Arr []); ("asks"%string, Arr [])].

(** * Properties *)

(** ** The clock monad *)

Lemma result_bind {A B} (m : M A) (k : A -> M B) c :
  result (bind m k) c = result (k (result m c)) (clock_after m c).
Proof. unfold result, clock_after, bind. by destruct (m c). Qed.

Lemma clock_after_bind {A B} (m : M A) (k : A -> M B) c :
  clock_after (bind m k) c = clock_after (k (result m c)) (clock_after m c).
Proof. unfold result, clock_after, bind. by destruct (m c). Qed.

Lemma result_ret {A} (x : A) c : result (ret x) c = x.
Proof. reflexivity. Qed.

Lemma clock_after_ret {A} (x : A) c : clock_after (ret x) c = c.
Proof. reflexivity. Qed.

(** ** Integers held in a number *)

Example round_int_samples :
  round_int (2 ^ 53) = 2 ^ 53 /\ round_int (2 ^ 53 + 1) = 2 ^ 53 /\
  round_int (2 ^ 53 + 2) = 2 ^ 53 + 2 /\ round_int (2 ^ 53 + 3) = 2 ^ 53 + 4 /\
  round_int (2 ^ 54 + 2) = 2 ^ 54 /\ round_int (2 ^ 54 + 6) = 2 ^ 54 + 8 /\
  round_int (2 ^ 54 + 3) = 2 ^ 54 + 4 /\
  round_int (- (2 ^ 53 + 1)) = - 2 ^ 53 /\ round_int 0 = 0 /\ round_int (-7) = -7 /\
  round_int (2 ^ 54 - 1) = 2 ^ 54 /\
  round_int 9007199254740993 = 9007199254740992 /\
  round_int 123456789012345678901234567890 = 123456789012345677877719597056.
Proof. vm_compute. repeat split. Qed.

Lemma round_int_exact z : Z.abs z <= 2 ^ 53 -> round_int z = z.
Proof.
  intros Hz. destruct (Z.eq_dec (Z.abs z) (2 ^ 53)) as [Ha|Ha].
  - assert (z = 2 ^ 53 \/ z = - 2 ^ 53) as [-> | ->] by lia; vm_compute; reflexivity.
  - unfold round_int.
    destruct (Z.leb_spec (Z.log2 (Z.abs z) - 52) 0) as [|He]; [done|].
    assert (0 < Z.abs z) as Hpos.
    { destruct (Z.eq_dec (Z.abs z) 0) as [E|E]; [rewrite E in He; cbn in He; lia|lia]. }
    destruct (Z.log2_spec _ Hpos) as [Hlo _].
    assert (2 ^ 53 <= 2 ^ Z.log2 (Z.abs z)) by (apply Z.pow_le_mono_r; lia). lia.
Qed.

Lemma round_int_large z :
  2 ^ 53 <= Z.abs z -> 2 ^ 53 <= Z.abs (round_int z) /\ Z.sgn (round_int z) = Z.sgn z.
Proof.
  intros Hz. unfold round_int.
  assert (0 < Z.abs z) as Hpos by lia.
  destruct (Z.log2_spec _ Hpos) as [Hlo Hhi].
  destruct (Z.leb_spec (Z.log2 (Z.abs z) - 52) 0) as [He|He]; [done|].
  set (e := Z.log2 (Z.abs z) - 52) in *.
  assert (0 < 2 ^ e) as Hpe by (apply Z.pow_pos_nonneg; lia).
  assert (2 <= 2 ^ e) as Hpe2.
  { change 2 with (2 ^ 1) at 1. apply Z.pow_le_mono_r; lia. }
  assert (2 ^ Z.log2 (Z.abs z) = 2 ^ 52 * 2 ^ e) as Hsplit.
  { rewrite <- Z.pow_add_r by lia. f_equal. lia. }
  assert (2 ^ 52 <= Z.abs z / 2 ^ e) as Hq.
  { apply Z.div_le_lower_bound; lia. }
  set (q := Z.abs z / 2 ^ e) in *.
  set (q' := if Z.abs z mod 2 ^ e <? 2 ^ (e - 1) then q
             else if 2 ^ (e - 1) <? Z.abs z mod 2 ^ e then q + 1
             else if Z.even q then q else q + 1).
  assert (q <= q') as Hq'.
  { subst q'. repeat destruct (_ <? _); try destruct (Z.even q); lia. }
  assert (2 ^ 53 <= q' * 2 ^ e) as Hbig.
  { change (2 ^ 53) with (2 ^ 52 * 2). nia. }
  destruct (Z.lt_trichotomy z 0) as [Hneg|[Hzero|Hpos']]; [|lia|].
  - rewrite (Z.sgn_neg z) by lia. split; [lia|]. apply Z.sgn_neg. lia.
  - rewrite (Z.sgn_pos z) by lia. split; [lia|]. apply Z.sgn_pos. lia.
Qed.

Lemma round_int_gtb z : (round_int z >? 1000) = (z >? 1000).
Proof.
  destruct (Z.le_gt_cases (Z.abs z) (2 ^ 53)) as [H|H].
  - by rewrite round_int_exact.
  - destruct (round_int_large z ltac:(lia)) as [Habs Hsgn].
    assert (1000 < 2 ^ 53) by (vm_compute; reflexivity).
    destruct (Z.lt_trichotomy z 0) as [Hz|[Hz|Hz]]; [|lia|].
    + rewrite (Z.sgn_neg z) in Hsgn by lia.
      assert (round_int z < 0) by (apply Z.sgn_neg_iff; lia).
      destruct (Z.gtb_spec (round_int z) 1000), (Z.gtb_spec z 1000); lia.
    + rewrite (Z.sgn_pos z) in Hsgn by lia.
      assert (0 < round_int z) by (apply Z.sgn_pos_iff; lia).
      destruct (Z.gtb_spec (round_int z) 1000), (Z.gtb_spec z 1000); lia.
Qed.

(** ** Order and arithmetic on numbers *)

Lemma num_gtb_sub a b : (b - a >? int 0)%num = (a <? b)%num.
Proof.
  destruct a as [| | |x], b as [| | |y]; try reflexivity.
  unfold num_gtb, num_sub, num_ltb; simpl.
  apply bool_decide_ext. rewrite (Qclt_minus_iff x y). done.
Qed.

Lemma num_ltb_irrefl a : (a <? a)%num = false.
Proof.
  destruct a as [| | |x]; try reflexivity. simpl.
  apply bool_decide_eq_false. intros H. by apply Qclt_not_eq in H.
Qed.

Lemma num_ltb_asym a b : (a <? b)%num = true -> (b <? a)%num = false.
Proof.
  destruct a as [| | |x], b as [| | |y]; simpl; try done.
  rewrite bool_decide_eq_true, bool_decide_eq_false.
  intros H1 H2. apply (Qclt_not_le _ _ H1). by apply Qclt_le_weak.
Qed.

Lemma num_ltb_false_leb a b :
  a <> NaN -> b <> NaN -> (a <? b)%num = false -> (b <=? a)%num = true.
Proof.
  destruct a as [| | |x], b as [| | |y]; simpl; try done.
  rewrite bool_decide_eq_true, bool_decide_eq_false. intros _ _. apply Qcnot_lt_le.
Qed.

Lemma num_leb_not_NaN a b : (a <=? b)%num = true -> a <> NaN /\ b <> NaN.
Proof. by destruct a, b. Qed.

Lemma num_ltb_not_NaN a b : (a <? b)%num = true -> a <> NaN /\ b <> NaN.
Proof. by destruct a, b. Qed.

Lemma num_leb_trans a b c :
  (a <=? b)%num = true -> (b <=? c)%num = true -> (a <=? c)%num = true.
Proof.
  destruct a as [| | |x], b as [| | |y], c as [| | |z]; simpl; try done.
  rewrite !bool_decide_eq_true. apply Qcle_trans.
Qed.

Lemma num_leb_antisym a b :
  (a <=? b)%num = true -> (b <=? a)%num = true -> a = b.
Proof.
  destruct a as [| | |x], b as [| | |y]; simpl; try done.
  rewrite !bool_decide_eq_true. intros. f_equal. by apply Qcle_antisym.
Qed.

Lemma num_leb_ltb a b :
  (a <=? b)%num = true -> a <> b -> (a <? b)%num = true.
Proof.
  destruct a as [| | |x], b as [| | |y]; simpl; try done.
  rewrite !bool_decide_eq_true. intros Hle Hne.
  destruct (Qcle_lt_or_eq _ _ Hle) as [Hlt|Heq]; [done|]. by subst.
Qed.

Lemma num_ltb_leb a b : (a <? b)%num = true -> (a <=? b)%num = true.
Proof.
  destruct a as [| | |x], b as [| | |y]; simpl; try done.
  rewrite !bool_decide_eq_true. apply Qclt_le_weak.
Qed.

Lemma num_leb_ltb_false a b : (a <=? b)%num = true -> (b <? a)%num = false.
Proof.
  destruct a as [| | |x], b as [| | |y]; simpl; try done.
  rewrite bool_decide_eq_true, bool_decide_eq_false. apply Qcle_not_lt.
Qed.

Lemma num_add_comm a b : (a + b)%num = (b + a)%num.
Proof.
  destruct a as [| | |x], b as [| | |y]; simpl; try done.
  f_equal. ring.
Qed.

Lemma num_add_assoc a b c : (a + (b + c))%num = (a + b + c)%num.
Proof.
  destruct a as [| | |x], b as [| | |y], c as [| | |z]; simpl; try done.
  f_equal. ring.
Qed.

Lemma num_add_0_l a : (int 0 + a)%num = a.
Proof.
  destruct a as [| | |x]; try done.
  change (Fin (0 + x)%Qc = Fin x). f_equal. ring.
Qed.

Lemma num_add_0_r a : (a + int 0)%num = a.
Proof. by rewrite num_add_comm, num_add_0_l. Qed.

Lemma num_ltb_trans a b c :
  (a <? b)%num = true -> (b <? c)%num = true -> (a <? c)%num = true.
Proof.
  destruct a as [| | |x], b as [| | |y], c as [| | |z]; simpl; try done.
  rewrite !bool_decide_eq_true. apply Qclt_trans.
Qed.

Lemma num_ltb_total a b :
  a <> NaN -> b <> NaN -> a <> b -> (a <? b)%num = true \/ (b <? a)%num = true.
Proof.
  destruct a as [| | |x], b as [| | |y]; simpl; try done; auto.
  rewrite !bool_decide_eq_true. intros _ _ Hne.
  destruct (Qc_dec x y) as [[?|?]|?]; auto. by subst.
Qed.

Lemma not_positive_iff x :
  (isNaN x || (x <=? int 0)%num)%bool = negb (x >? int 0)%num.
Proof.
  change (int 0) with (Fin 0%Qc). destruct x as [| | |q]; try done.
  unfold num_gtb. cbn. destruct (bool_decide (q <= 0)%Qc) eqn:E.
  - apply bool_decide_eq_true in E. symmetry. apply negb_true_iff, bool_decide_eq_false.
    by apply Qcle_not_lt.
  - apply bool_decide_eq_false in E. symmetry. apply negb_false_iff, bool_decide_eq_true.
    by apply Qcnot_le_lt.
Qed.

(** ** Sorted sides *)

Lemma toJSON_id l : PriceLevel.toJSON l = l.
Proof. by destruct l. Qed.

Lemma map_toJSON l : map PriceLevel.toJSON l = l.
Proof. induction l as [|x l IH]; simpl; [done|]. by rewrite toJSON_id, IH. Qed.

Section strict_sort.
Context (cmp : PriceLevel.t -> PriceLevel.t -> number).
Context (before : number -> number -> bool).
Hypothesis cmp_before : forall x y,
  (cmp x y >? int 0)%num = before (PriceLevel.price y) (PriceLevel.price x).
Hypothesis before_asym : forall x y, before x y = true -> before y x = false.
Hypothesis before_trans : forall x y z,
  before x y = true -> before y z = true -> before x z = true.
Hypothesis before_total : forall x y,
  x <> NaN -> y <> NaN -> x <> y -> before x y = true \/ before y x = true.

Let strictly (x y : PriceLevel.t) : Prop :=
  before (PriceLevel.price x) (PriceLevel.price y) = true.

#[local] Instance in_order_total : Total (in_order cmp).
Proof.
  intros x y. unfold in_order. rewrite !cmp_before.
  destruct (before (PriceLevel.price y) (PriceLevel.price x)) eqn:E; auto.
Qed.

Lemma Sorted_in_order_strict l :
  Sorted (in_order cmp) l ->
  Forall (fun x => PriceLevel.price x <> NaN) l ->
  NoDup (map PriceLevel.price l) ->
  StronglySorted strictly l.
Proof.
  induction 1 as [|x l Hs IH Hhd]; intros Hnan Hnd; [constructor|].
  inversion Hnan as [|? ? Hx Hl]; subst.
  inversion Hnd as [|? ? Hnotin Hnd']; subst.
  specialize (IH Hl Hnd').
  constructor; [done|].
  destruct Hhd as [|y l' Hxy]; [constructor|].
  assert (strictly x y) as Hlt.
  { unfold strictly. unfold in_order in Hxy. rewrite cmp_before in Hxy.
    inversion Hl; subst.
    destruct (before_total (PriceLevel.price x) (PriceLevel.price y)) as [?|E];
      [done|done| |done|congruence].
    intros Heq. apply Hnotin. rewrite Heq. simpl. left. }
  constructor; [done|].
  inversion IH as [|? ? _ Hall]; subst.
  eapply Forall_impl; [exact Hall|].
  intros z Hz. unfold strictly in *. by eapply before_trans.
Qed.

Lemma side_ok_values m :
  side_ok m ->
  Forall (fun x => PriceLevel.price x <> NaN) (Map_values m) /\
  NoDup (map PriceLevel.price (Map_values m)).
Proof.
  intros Hok. unfold Map_values.
  assert (Forall (fun kl => PriceLevel.price kl.2 = kl.1 /\ kl.1 <> NaN) (map_to_list m)) as HF.
  { apply Forall_forall. intros [k l] Hin. apply elem_of_map_to_list in Hin.
    destruct (Hok k l Hin) as (? & ? & _). done. }
  split.
  - apply Forall_fmap. eapply Forall_impl; [exact HF|]. simpl. intros [k l] [-> ?]. done.
  - assert (map PriceLevel.price (map_to_list m).*2 = (map_to_list m).*1) as ->.
    { clear Hok. induction HF as [|[k l] rest [Hp _] _ IH]; simpl; [done|].
      simpl in Hp. rewrite Hp. f_equal. exact IH. }
    apply NoDup_fst_map_to_list.
Qed.

Lemma Array_sort_list_strict l :
  Forall (fun x => PriceLevel.price x <> NaN) l ->
  NoDup (map PriceLevel.price l) ->
  StronglySorted strictly (Array_sort cmp l).
Proof.
  intros Hnan Hnd. unfold Array_sort.
  pose proof (merge_sort_Permutation (in_order cmp) l) as Hp.
  apply Sorted_in_order_strict.
  - apply Sorted_merge_sort, _.
  - by rewrite Hp.
  - by rewrite Hp.
Qed.

Lemma Array_sort_strict m :
  side_ok m -> StronglySorted strictly (Array_sort cmp (Map_values m)).
Proof.
  intros Hok. destruct (side_ok_values m Hok) as [Hnan Hnd].
  by apply Array_sort_list_strict.
Qed.

(** [Array.from(map.values())] lists the levels in the order they were
    inserted, the [gmap] in the order of its keys.  Sorting makes the
    difference vanish: whatever the order of the array, the sorted array of
    a well-formed side is the same. *)
Lemma Array_sort_any_order m l :
  side_ok m -> l ≡ₚ Map_values m ->
  Array_sort cmp l = Array_sort cmp (Map_values m).
Proof.
  intros Hok Hp. destruct (side_ok_values m Hok) as [Hnan Hnd].
  apply (StronglySorted_unique_strong strictly).
  - intros x y _ _ Hxy Hyx. unfold strictly in *.
    apply before_asym in Hxy. congruence.
  - apply Array_sort_list_strict; by rewrite Hp.
  - by apply Array_sort_strict.
  - unfold Array_sort. by rewrite !merge_sort_Permutation.
Qed.
End strict_sort.

Lemma descending_before x y :
  (OrderBook.descending x y >? int 0)%num
  = (fun a b => (b <? a)%num) (PriceLevel.price y) (PriceLevel.price x).
Proof. unfold OrderBook.descending. apply num_gtb_sub. Qed.

Lemma ascending_before x y :
  (OrderBook.ascending x y >? int 0)%num
  = num_ltb (PriceLevel.price y) (PriceLevel.price x).
Proof. unfold OrderBook.ascending. apply num_gtb_sub. Qed.

Lemma sorted_bids_strict m :
  side_ok m -> StronglySorted price_gt (Array_sort OrderBook.descending (Map_values m)).
Proof.
  intros Hok.
  apply (Array_sort_strict OrderBook.descending (fun a b => (b <? a)%num)); try done.
  - apply descending_before.
  - intros x y. apply num_ltb_asym.
  - intros x y z H1 H2. by eapply num_ltb_trans.
  - intros x y Hx Hy Hne. destruct (num_ltb_total x y Hx Hy Hne); auto.
Qed.

Lemma sorted_asks_strict m :
  side_ok m -> StronglySorted price_lt (Array_sort OrderBook.ascending (Map_values m)).
Proof.
  intros Hok.
  apply (Array_sort_strict OrderBook.ascending num_ltb); try done.
  - apply ascending_before.
  - apply num_ltb_asym.
  - apply num_ltb_trans.
  - apply num_ltb_total.
Qed.

Lemma getBids_insertion_order ob l :
  side_ok (OrderBook.bids ob) -> l ≡ₚ Map_values (OrderBook.bids ob) ->
  Array_sort OrderBook.descending l
  = Array_sort OrderBook.descending (Map_values (OrderBook.bids ob)).
Proof.
  intros Hok Hp.
  apply (Array_sort_any_order OrderBook.descending (fun a b => (b <? a)%num)); try done.
  - apply descending_before.
  - intros x y. apply num_ltb_asym.
  - intros x y z H1 H2. by eapply num_ltb_trans.
  - intros x y Hx Hy Hne. destruct (num_ltb_total x y Hx Hy Hne); auto.
Qed.

Lemma getAsks_insertion_order ob l :
  side_ok (OrderBook.asks ob) -> l ≡ₚ Map_values (OrderBook.asks ob) ->
  Array_sort OrderBook.ascending l
  = Array_sort OrderBook.ascending (Map_values (OrderBook.asks ob)).
Proof.
  intros Hok Hp.
  apply (Array_sort_any_order OrderBook.ascending num_ltb); try done.
  - apply ascending_before.
  - apply num_ltb_asym.
  - apply num_ltb_trans.
  - apply num_ltb_total.
Qed.

Lemma Array_sort_perm {A} (cmp : A -> A -> number) l : Array_sort cmp l ≡ₚ l.
Proof. apply merge_sort_Permutation. Qed.

(** ** [getBids] and [getAsks] *)

Lemma Map_values_length (m : gmap number PriceLevel.t) : length (Map_values m) = size m.
Proof. unfold Map_values. rewrite length_fmap. apply length_map_to_list. Qed.

Lemma take_min {A} (n : Z) (l : list A) :
  0 <= n ->
  take (Z.to_nat (Z.min n (Z.of_nat (length l)))) l = take (Z.to_nat n) l.
Proof.
  intros Hn. destruct (Z.le_gt_cases n (Z.of_nat (length l))) as [Hle|Hgt].
  - by rewrite Z.min_l.
  - rewrite Z.min_r by lia. rewrite Nat2Z.id, firstn_all.
    symmetry. apply take_ge. lia.
Qed.

Lemma getBids_limit ob n :
  1 <= n ->
  OrderBook.getBids (Some n) ob
  = take (Z.to_nat (Z.min n (Z.of_nat (size (OrderBook.bids ob))))) (OrderBook.getBids None ob).
Proof.
  intros Hn. unfold OrderBook.getBids, OrderBook.limit_truthy, Array_slice0.
  destruct (Z.eqb_spec n 0) as [->|_]; [lia|].
  destruct (Z.leb_spec 0 n); [|lia].
  rewrite !map_toJSON.
  rewrite <- Map_values_length, <- (Permutation_length (Array_sort_perm OrderBook.descending _)).
  by rewrite take_min by lia.
Qed.

Lemma getAsks_limit ob n :
  1 <= n ->
  OrderBook.getAsks (Some n) ob
  = take (Z.to_nat (Z.min n (Z.of_nat (size (OrderBook.asks ob))))) (OrderBook.getAsks None ob).
Proof.
  intros Hn. unfold OrderBook.getAsks, OrderBook.limit_truthy, Array_slice0.
  destruct (Z.eqb_spec n 0) as [->|_]; [lia|].
  destruct (Z.leb_spec 0 n); [|lia].
  rewrite !map_toJSON.
  rewrite <- Map_values_length, <- (Permutation_length (Array_sort_perm OrderBook.ascending _)).
  by rewrite take_min by lia.
Qed.

Lemma getBids_all ob :
  OrderBook.getBids None ob = Array_sort OrderBook.descending (Map_values (OrderBook.bids ob)).
Proof. unfold OrderBook.getBids. simpl. apply map_toJSON. Qed.

Lemma getAsks_all ob :
  OrderBook.getAsks None ob = Array_sort OrderBook.ascending (Map_values (OrderBook.asks ob)).
Proof. unfold OrderBook.getAsks. simpl. apply map_toJSON. Qed.

(** Claim C6.  In a book the registry can hold, [getBids()] lists the bid
    levels in strictly decreasing price order and [getAsks()] the ask levels in
    strictly increasing price order; without a limit each one is the entire
    side (a permutation of the levels of the map), and with a limit [n >= 1]
    each one is exactly the first [min(n, side size)] levels of that order. *)
Theorem bids_asks_ordered (ob : OrderBook.t) (n : Z) :
  book_ok ob -> 1 <= n ->
  StronglySorted price_gt (OrderBook.getBids None ob) /\
  StronglySorted price_lt (OrderBook.getAsks None ob) /\
  OrderBook.getBids None ob ≡ₚ Map_values (OrderBook.bids ob) /\
  OrderBook.getAsks None ob ≡ₚ Map_values (OrderBook.asks ob) /\
  OrderBook.getBids (Some n) ob
  = take (Z.to_nat (Z.min n (Z.of_nat (size (OrderBook.bids ob))))) (OrderBook.getBids None ob) /\
  OrderBook.getAsks (Some n) ob
  = take (Z.to_nat (Z.min n (Z.of_nat (size (OrderBook.asks ob))))) (OrderBook.getAsks None ob).
Proof.
  intros [Hb Ha] Hn. rewrite getBids_limit, getAsks_limit by done.
  rewrite getBids_all, getAsks_all.
  split; [by apply sorted_bids_strict|].
  split; [by apply sorted_asks_strict|].
  split; [apply Array_sort_perm|].
  split; [apply Array_sort_perm|done].
Qed.

(** ** Spread and mid price *)

Lemma num_leb_refl a : a <> NaN -> (a <=? a)%num = true.
Proof.
  destruct a as [| | |x]; simpl; try done.
  intros _. apply bool_decide_eq_true. apply Qcle_refl.
Qed.

Lemma num_sub_neg a b : (a <? b)%num = true -> (a - b <? int 0)%num = true.
Proof.
  destruct a as [| | |x], b as [| | |y]; simpl; try done.
  rewrite !bool_decide_eq_true. intros H.
  apply (Qcplus_lt_mono_r x y (- y)%Qc) in H.
  by rewrite Qcplus_opp_r in H.
Qed.

Lemma Map_values_nil {V} (m : gmap number V) : Map_values m = [] <-> m = ∅.
Proof.
  unfold Map_values. split.
  - intros H. apply fmap_nil_inv in H. by apply map_to_list_empty_iff.
  - intros ->. by rewrite map_to_list_empty.
Qed.

Lemma Array_sort_nil {A} (cmp : A -> A -> number) l : Array_sort cmp l = [] <-> l = [].
Proof.
  split.
  - intros H. pose proof (Array_sort_perm cmp l) as Hp. rewrite H in Hp.
    symmetry in Hp. by apply Permutation_nil_r in Hp.
  - intros ->. reflexivity.
Qed.

Lemma head_getBids_1 ob :
  head (OrderBook.getBids (Some 1) ob) = head (OrderBook.getBids None ob).
Proof.
  rewrite getBids_limit by lia. destruct (OrderBook.getBids None ob) as [|x l] eqn:E; [by rewrite take_nil|].
  assert (size (OrderBook.bids ob) <> 0%nat) as Hsz.
  { intros Hsz. apply map_size_empty_iff in Hsz.
    rewrite getBids_all in E. apply (f_equal length) in E.
    rewrite (Permutation_length (Array_sort_perm _ _)), Map_values_length, Hsz in E. done. }
  replace (Z.to_nat (1 `min` Z.of_nat (size (OrderBook.bids ob)))) with 1%nat by lia.
  done.
Qed.

Lemma head_getAsks_1 ob :
  head (OrderBook.getAsks (Some 1) ob) = head (OrderBook.getAsks None ob).
Proof.
  rewrite getAsks_limit by lia. destruct (OrderBook.getAsks None ob) as [|x l] eqn:E; [by rewrite take_nil|].
  assert (size (OrderBook.asks ob) <> 0%nat) as Hsz.
  { intros Hsz. apply map_size_empty_iff in Hsz.
    rewrite getAsks_all in E. apply (f_equal length) in E.
    rewrite (Permutation_length (Array_sort_perm _ _)), Map_values_length, Hsz in E. done. }
  replace (Z.to_nat (1 `min` Z.of_nat (size (OrderBook.asks ob)))) with 1%nat by lia.
  done.
Qed.

Lemma head_bids_best ob :
  side_ok (OrderBook.bids ob) ->
  match head (OrderBook.getBids None ob) with
  | Some l => best_bid ob l
  | None => OrderBook.bids ob = ∅
  end.
Proof.
  intros Hok. rewrite getBids_all.
  pose proof (sorted_bids_strict _ Hok) as Hs.
  pose proof (Array_sort_perm OrderBook.descending (Map_values (OrderBook.bids ob))) as Hp.
  destruct (side_ok_values _ Hok) as [Hnan _].
  destruct (Array_sort _ _) as [|x l] eqn:E; simpl.
  - apply Map_values_nil. symmetry in Hp. by apply Permutation_nil_r in Hp.
  - split.
    + rewrite <- Hp. left.
    + intros l' Hl'. rewrite <- Hp in Hl'. inversion Hs as [|? ? _ Hall]; subst.
      apply elem_of_cons in Hl' as [->|Hin].
      * apply num_leb_refl. rewrite <- Hp in Hnan. by inversion Hnan.
      * apply num_ltb_leb. rewrite Forall_forall in Hall. by apply Hall.
Qed.

Lemma head_asks_best ob :
  side_ok (OrderBook.asks ob) ->
  match head (OrderBook.getAsks None ob) with
  | Some l => best_ask ob l
  | None => OrderBook.asks ob = ∅
  end.
Proof.
  intros Hok. rewrite getAsks_all.
  pose proof (sorted_asks_strict _ Hok) as Hs.
  pose proof (Array_sort_perm OrderBook.ascending (Map_values (OrderBook.asks ob))) as Hp.
  destruct (side_ok_values _ Hok) as [Hnan _].
  destruct (Array_sort _ _) as [|x l] eqn:E; simpl.
  - apply Map_values_nil. symmetry in Hp. by apply Permutation_nil_r in Hp.
  - split.
    + rewrite <- Hp. left.
    + intros l' Hl'. rewrite <- Hp in Hl'. inversion Hs as [|? ? _ Hall]; subst.
      apply elem_of_cons in Hl' as [->|Hin].
      * apply num_leb_refl. rewrite <- Hp in Hnan. by inversion Hnan.
      * apply num_ltb_leb. rewrite Forall_forall in Hall. by apply Hall.
Qed.

Lemma head_bids_empty ob :
  OrderBook.bids ob = ∅ -> head (OrderBook.getBids None ob) = None.
Proof.
  intros H. rewrite getBids_all, H.
  replace (Map_values (∅ : gmap number PriceLevel.t)) with (@nil PriceLevel.t); [done|].
  symmetry. by apply Map_values_nil.
Qed.

Lemma head_asks_empty ob :
  OrderBook.asks ob = ∅ -> head (OrderBook.getAsks None ob) = None.
Proof.
  intros H. rewrite getAsks_all, H.
  replace (Map_values (∅ : gmap number PriceLevel.t)) with (@nil PriceLevel.t); [done|].
  symmetry. by apply Map_values_nil.
Qed.

(** Claim C7.  In a book the registry can hold: if either side is empty,
    [getSpread] and [getMidPrice] are both [null]; if both sides are non-empty,
    the spread is [bestAsk.price - bestBid.price] and the mid price is
    [(bestBid.price + bestAsk.price) / 2], where [bestBid] is a bid of highest
    price and [bestAsk] an ask of lowest price; when the book is crossed the
    spread is still returned, and it is negative.  The only division is by
    the constant 2. *)
Theorem spread_and_mid_price (ob : OrderBook.t) :
  book_ok ob ->
  (OrderBook.bids ob = ∅ \/ OrderBook.asks ob = ∅ ->
     OrderBook.getSpread ob = None /\ OrderBook.getMidPrice ob = None) /\
  (OrderBook.bids ob <> ∅ -> OrderBook.asks ob <> ∅ ->
     exists bestBid bestAsk,
       best_bid ob bestBid /\ best_ask ob bestAsk /\
       OrderBook.getSpread ob
       = Some (PriceLevel.price bestAsk - PriceLevel.price bestBid)%num /\
       OrderBook.getMidPrice ob
       = Some ((PriceLevel.price bestBid + PriceLevel.price bestAsk) / int 2)%num /\
       ((PriceLevel.price bestAsk <? PriceLevel.price bestBid)%num = true ->
        exists sp, OrderBook.getSpread ob = Some sp /\ (sp <? int 0)%num = true)).
Proof.
  intros [Hb Ha].
  unfold OrderBook.getSpread, OrderBook.getMidPrice.
  rewrite head_getBids_1, head_getAsks_1.
  split.
  - intros [H|H].
    + by rewrite (head_bids_empty _ H).
    + rewrite (head_asks_empty _ H). by destruct (head (OrderBook.getBids None ob)).
  - intros Hbne Hane.
    pose proof (head_bids_best ob Hb) as HB.
    pose proof (head_asks_best ob Ha) as HA.
    destruct (head (OrderBook.getBids None ob)) as [bb|]; [|done].
    destruct (head (OrderBook.getAsks None ob)) as [ba|]; [|done].
    exists bb, ba. repeat split; try apply HB; try apply HA.
    intros Hx. eexists. split; [done|]. by apply num_sub_neg.
Qed.

Lemma num_mul_comm a b : (a * b)%num = (b * a)%num.
Proof.
  destruct a as [| | |x], b as [| | |y]; simpl; try done;
    try (unfold num_mul; simpl; by rewrite Z.mul_comm).
  f_equal. ring.
Qed.

(** ** Accumulated quantity to a price *)

Arguments int : simpl never.
Arguments sum : simpl never.

Lemma sum_nil : sum [] = int 0.
Proof. reflexivity. Qed.

Lemma sum_cons x l : sum (x :: l) = (x + sum l)%num.
Proof. reflexivity. Qed.

Lemma sum_perm l l' : l ≡ₚ l' -> sum l = sum l'.
Proof.
  induction 1 as [|x l l' _ IH|x y l|l l' l'' _ IH1 _ IH2].
  - done.
  - by rewrite !sum_cons, IH.
  - by rewrite !sum_cons, !num_add_assoc, (num_add_comm y x).
  - by rewrite IH1.
Qed.

Lemma sum_app l l' : sum (l ++ l') = (sum l + sum l')%num.
Proof.
  induction l as [|x l IH]; cbn [app].
  - by rewrite sum_nil, num_add_0_l.
  - by rewrite !sum_cons, IH, num_add_assoc.
Qed.

Lemma filter_none {A} (P : A -> Prop) `{forall x, Decision (P x)} (l : list A) :
  Forall (fun x => ~ P x) l -> filter P l = [].
Proof.
  induction 1 as [|x l Hx _ IH]; [done|].
  by rewrite filter_cons_False.
Qed.

Section accumulate.
Context (R : PriceLevel.t -> PriceLevel.t -> Prop) (P : PriceLevel.t -> bool).
Hypothesis closed : forall x y, R x y -> P x = false -> P y = false.

Lemma accumulate_sorted l q c :
  StronglySorted R l ->
  OrderBook.accumulate P l q c
  = ((q + sum (map PriceLevel.quantity (filter (fun x => P x = true) l)))%num,
     (c + sum (map (fun x => PriceLevel.quantity x * PriceLevel.price x)%num
                   (filter (fun x => P x = true) l)))%num).
Proof.
  intros Hs. revert q c.
  induction Hs as [|x l Hs IH Hall]; intros q c; cbn [OrderBook.accumulate].
  - rewrite filter_nil. cbn [map]. by rewrite !sum_nil, !num_add_0_r.
  - destruct (P x) eqn:E.
    + rewrite IH. rewrite filter_cons_True by done. cbn [map].
      by rewrite !sum_cons, !num_add_assoc.
    + rewrite filter_cons_False by congruence.
      assert (filter (fun x => P x = true) l = []) as ->.
      { apply filter_none.
        eapply Forall_impl; [exact Hall|]. intros y Hy. cbn beta.
        rewrite (closed x y Hy E). done. }
      cbn [map]. by rewrite !sum_nil, !num_add_0_r.
Qed.
End accumulate.

Lemma accumulate_bids m target :
  side_ok m ->
  OrderBook.accumulate (fun level => (PriceLevel.price level >=? target)%num)
    (Array_sort OrderBook.descending (Map_values m)) (int 0) (int 0)
  = (sum (map PriceLevel.quantity
            (filter (fun l => (PriceLevel.price l >=? target)%num = true) (Map_values m))),
     sum (map (fun l => PriceLevel.price l * PriceLevel.quantity l)%num
            (filter (fun l => (PriceLevel.price l >=? target)%num = true) (Map_values m)))).
Proof.
  intros Hok.
  rewrite (accumulate_sorted price_gt).
  - rewrite !num_add_0_l.
    pose proof (Array_sort_perm OrderBook.descending (Map_values m)) as Hp.
    f_equal; apply sum_perm.
    + by rewrite Hp.
    + rewrite Hp. erewrite map_ext; [done|]. intros l. apply num_mul_comm.
  - intros x y Hxy Hx. unfold price_gt, num_geb in *.
    destruct (target <=? PriceLevel.price y)%num eqn:E; [|done].
    rewrite <- Hx. symmetry. eapply num_leb_trans; [exact E|]. by apply num_ltb_leb.
  - by apply sorted_bids_strict.
Qed.

Lemma accumulate_asks m target :
  side_ok m ->
  OrderBook.accumulate (fun level => (PriceLevel.price level <=? target)%num)
    (Array_sort OrderBook.ascending (Map_values m)) (int 0) (int 0)
  = (sum (map PriceLevel.quantity
            (filter (fun l => (PriceLevel.price l <=? target)%num = true) (Map_values m))),
     sum (map (fun l => PriceLevel.price l * PriceLevel.quantity l)%num
            (filter (fun l => (PriceLevel.price l <=? target)%num = true) (Map_values m)))).
Proof.
  intros Hok.
  rewrite (accumulate_sorted price_lt).
  - rewrite !num_add_0_l.
    pose proof (Array_sort_perm OrderBook.ascending (Map_values m)) as Hp.
    f_equal; apply sum_perm.
    + by rewrite Hp.
    + rewrite Hp. erewrite map_ext; [done|]. intros l. apply num_mul_comm.
  - intros x y Hxy Hx. unfold price_lt in *.
    destruct (PriceLevel.price y <=? target)%num eqn:E; [|done].
    rewrite <- Hx. symmetry. eapply num_leb_trans; [|exact E]. by apply num_ltb_leb.
  - by apply sorted_asks_strict.
Qed.


(** ** Market impact *)

Lemma consume_walk levels st :
  exists cs,
    OrderBook.w_levelsConsumed (OrderBook.consume levels st)
    = OrderBook.w_levelsConsumed st ++ cs /\
    walk levels (OrderBook.w_remainingSize st) cs
      (OrderBook.w_remainingSize (OrderBook.consume levels st)) /\
    OrderBook.w_totalCost (OrderBook.consume levels st)
    = fold_left num_add (map OrderBook.c_cost cs) (OrderBook.w_totalCost st).
Proof.
  revert st. induction levels as [|level levels IH]; intros st; cbn [OrderBook.consume].
  - exists []. rewrite app_nil_r. split; [done|]. split; [apply walk_exhausted|done].
  - destruct (OrderBook.w_remainingSize st <=? int 0)%num eqn:E.
    + exists []. rewrite app_nil_r. split; [done|]. split; [by apply walk_filled|done].
    + match goal with |- context [OrderBook.consume levels ?s] => destruct (IH s) as (cs & H1 & H2 & H3) end.
      cbn [OrderBook.w_levelsConsumed OrderBook.w_remainingSize OrderBook.w_totalCost] in H1, H2, H3.
      eexists (_ :: cs). split; [|split].
      * rewrite H1, <- app_assoc. reflexivity.
      * by apply walk_step.
      * rewrite H3. reflexivity.
Qed.

Lemma side_ok_quantities m :
  side_ok m ->
  Forall (fun l => (PriceLevel.quantity l >? int 0)%num = true) (Map_values m).
Proof.
  intros Hok. unfold Map_values. apply Forall_fmap, Forall_forall.
  intros [k l] Hin. apply elem_of_map_to_list in Hin.
  by destruct (Hok k l Hin) as (_ & _ & ?).
Qed.

Lemma num_eqb_zero a : (a === int 0)%num = true <-> a = int 0.
Proof.
  destruct a as [| | |x]; try done. unfold num_eqb. apply bool_decide_eq_true.
Qed.

Lemma consume_from_start levels size :
  let final := OrderBook.consume levels (start size) in
  walk levels size (OrderBook.w_levelsConsumed final) (OrderBook.w_remainingSize final) /\
  OrderBook.w_totalCost final
  = fold_left num_add (map OrderBook.c_cost (OrderBook.w_levelsConsumed final)) (int 0) /\
  ((OrderBook.w_remainingSize final === int 0)%num = true
   <-> OrderBook.w_remainingSize final = int 0).
Proof.
  intros final.
  destruct (consume_walk levels (start size)) as (cs & H1 & H2 & H3).
  fold final in H1, H2, H3.
  cbn [start OrderBook.w_levelsConsumed OrderBook.w_remainingSize OrderBook.w_totalCost app]
    in H1, H2, H3.
  split; [by rewrite H1|].
  split; [by rewrite H3, H1|].
  apply num_eqb_zero.
Qed.

(** Claim C3, as amended.  In a book the registry can hold: for every
    [orderSize <= 0] the result is [null]; for every [orderSize > 0] and side
    ['buy'] or ['sell'] there is a result, and in it the levels consumed are
    those of a walk over the opposite side in price order (asks strictly
    increasing for ['buy'], bids strictly decreasing for ['sell']) that takes
    [min(remaining, level.quantity)] at each level until nothing remains or the
    side is exhausted; [filledSize] is [orderSize - remainingSize], the
    difference as the code computes it; [totalCost] is the sum of the costs of
    the levels consumed, added up in their order; and [canFill] holds if and
    only if [remainingSize] is [0]. *)
Theorem market_impact_walk (ob : OrderBook.t) :
  book_ok ob ->
  (forall size sd, (size <=? int 0)%num = true ->
     OrderBook.getMarketImpact size sd ob = None) /\
  (forall size sd, (size >? int 0)%num = true ->
     sd = "buy"%string \/ sd = "sell"%string ->
     exists r levels,
       OrderBook.getMarketImpact size (Some sd) ob = Some r /\
       levels = (if String.eqb sd "buy" then OrderBook.getAsks None ob
                 else OrderBook.getBids None ob) /\
       (sd = "buy"%string ->
          StronglySorted price_lt levels /\ levels ≡ₚ Map_values (OrderBook.asks ob)) /\
       (sd = "sell"%string ->
          StronglySorted price_gt levels /\ levels ≡ₚ Map_values (OrderBook.bids ob)) /\
       walk levels size (OrderBook.levelsConsumed r) (OrderBook.remainingSize r) /\
       OrderBook.filledSize r = (size - OrderBook.remainingSize r)%num /\
       OrderBook.totalCost r
       = fold_left num_add (map OrderBook.c_cost (OrderBook.levelsConsumed r)) (int 0) /\
       (OrderBook.canFill r = true <-> OrderBook.remainingSize r = int 0)).
Proof.
  intros [Hb Ha]. split.
  - intros size sd Hle. unfold OrderBook.getMarketImpact. by rewrite Hle.
  - intros size sd Hpos Hsd.
    unfold OrderBook.getMarketImpact. cbn [default].
    assert ((size <=? int 0)%num = false) as ->.
    { unfold num_gtb in *.
      destruct (size <=? int 0)%num eqn:E; [|done].
      apply num_leb_ltb_false in E. congruence. }
    fold (start size).
    destruct Hsd as [-> | ->].
    + change (String.eqb "buy" "buy") with true. cbv iota.
      destruct (consume_from_start
                  (Array_sort OrderBook.ascending (Map_values (OrderBook.asks ob))) size)
        as (H1 & H3 & H4).
      eexists _, _. split; [reflexivity|].
      cbn [OrderBook.levelsConsumed OrderBook.remainingSize OrderBook.filledSize
           OrderBook.totalCost OrderBook.canFill].
      rewrite getAsks_all.
      split; [done|]. split; [|split; [done|]].
      * intros _. split; [by apply sorted_asks_strict|apply Array_sort_perm].
      * done.
    + change (String.eqb "sell" "buy") with false. cbv iota.
      destruct (consume_from_start
                  (Array_sort OrderBook.descending (Map_values (OrderBook.bids ob))) size)
        as (H1 & H3 & H4).
      eexists _, _. split; [reflexivity|].
      cbn [OrderBook.levelsConsumed OrderBook.remainingSize OrderBook.filledSize
           OrderBook.totalCost OrderBook.canFill].
      rewrite getBids_all.
      split; [done|]. split; [done|]. split; [|done].
      intros _. split; [by apply sorted_bids_strict|apply Array_sort_perm].
Qed.


(** ** Sequences of changes *)

Lemma side_after_nil m : side_after [] m m.
Proof. intros p. done. Qed.

Lemma side_after_cons p q changes before mid after :
  pq <$> mid !! p = (if (q >? int 0)%num then Some (p, q) else None) ->
  (forall p', p <> p' -> mid !! p' = before !! p') ->
  side_after changes mid after ->
  side_after ((p, q) :: changes) before after.
Proof.
  intros Hp Hother Hrest p'. specialize (Hrest p'). cbn [last_change].
  destruct (last_change changes p') as [q'|]; [done|].
  case_bool_decide as E.
  - subst p'. by rewrite Hrest.
  - rewrite Hrest. by apply Hother.
Qed.

Lemma addBid_spec p q cnt ob c :
  let ob' := result (OrderBook.addBid p q cnt ob) c in
  pq <$> OrderBook.bids ob' !! p = (if (q >? int 0)%num then Some (p, q) else None) /\
  (forall p', p <> p' -> OrderBook.bids ob' !! p' = OrderBook.bids ob !! p') /\
  OrderBook.asks ob' = OrderBook.asks ob /\
  OrderBook.lastUpdateId ob' = OrderBook.lastUpdateId ob /\
  OrderBook.lastUpdateTime ob' = OrderBook.lastUpdateTime ob /\
  OrderBook.symbol ob' = OrderBook.symbol ob.
Proof.
  unfold result, OrderBook.addBid, OrderBook.toString.
  destruct (q >? int 0)%num; cbn.
  - rewrite lookup_insert_eq. repeat split; try done.
    intros p' Hne. by rewrite lookup_insert_ne.
  - rewrite lookup_delete_eq. repeat split; try done.
    intros p' Hne. by rewrite lookup_delete_ne.
Qed.

Lemma addAsk_spec p q cnt ob c :
  let ob' := result (OrderBook.addAsk p q cnt ob) c in
  pq <$> OrderBook.asks ob' !! p = (if (q >? int 0)%num then Some (p, q) else None) /\
  (forall p', p <> p' -> OrderBook.asks ob' !! p' = OrderBook.asks ob !! p') /\
  OrderBook.bids ob' = OrderBook.bids ob /\
  OrderBook.lastUpdateId ob' = OrderBook.lastUpdateId ob /\
  OrderBook.lastUpdateTime ob' = OrderBook.lastUpdateTime ob /\
  OrderBook.symbol ob' = OrderBook.symbol ob.
Proof.
  unfold result, OrderBook.addAsk, OrderBook.toString.
  destruct (q >? int 0)%num; cbn.
  - rewrite lookup_insert_eq. repeat split; try done.
    intros p' Hne. by rewrite lookup_insert_ne.
  - rewrite lookup_delete_eq. repeat split; try done.
    intros p' Hne. by rewrite lookup_delete_ne.
Qed.

Lemma run_ops_cons o ops ob c :
  result (run_ops (o :: ops) ob) c
  = result (run_ops ops (result (run_op o ob) c)) (clock_after (run_op o ob) c).
Proof. unfold run_ops. cbn [for_of]. apply result_bind. Qed.

Lemma run_ops_spec ops ob c :
  let ob' := result (run_ops ops ob) c in
  side_after (bid_changes ops) (OrderBook.bids ob) (OrderBook.bids ob') /\
  side_after (ask_changes ops) (OrderBook.asks ob) (OrderBook.asks ob') /\
  OrderBook.lastUpdateId ob' = OrderBook.lastUpdateId ob /\
  OrderBook.lastUpdateTime ob' = OrderBook.lastUpdateTime ob /\
  OrderBook.symbol ob' = OrderBook.symbol ob.
Proof.
  revert ob c. induction ops as [|o ops IH]; intros ob c; cbn zeta.
  - repeat split; try done; apply side_after_nil.
  - rewrite run_ops_cons.
    destruct (IH (result (run_op o ob) c) (clock_after (run_op o ob) c))
      as (Hb & Ha & Hid & Htime & Hsym).
    destruct o as [p q cnt|p q cnt]; cbn [run_op bid_changes ask_changes omap] in *.
    + destruct (addBid_spec p q cnt ob c) as (H1 & H2 & H3 & H4 & H5 & H6).
      split; [by eapply side_after_cons|].
      split; [by rewrite <- H3|].
      split; [by rewrite Hid|]. split; [by rewrite Htime|by rewrite Hsym].
    + destruct (addAsk_spec p q cnt ob c) as (H1 & H2 & H3 & H4 & H5 & H6).
      split; [by rewrite <- H3|].
      split; [by eapply side_after_cons|].
      split; [by rewrite Hid|]. split; [by rewrite Htime|by rewrite Hsym].
Qed.

Lemma side_after_empty changes after p :
  side_after changes ∅ after ->
  is_Some (after !! p)
  <-> exists q, last_change changes p = Some q /\ (q >? int 0)%num = true.
Proof.
  intros H. specialize (H p). destruct (last_change changes p) as [q|].
  - destruct (q >? int 0)%num eqn:E.
    + split; [eauto|]. intros _. destruct (after !! p); [done|]. done.
    + split.
      * intros [l Hl]. by rewrite Hl in H.
      * intros (q' & [= <-] & Hq). congruence.
  - rewrite H, lookup_empty. split; [by intros []|]. by intros (q & ? & _).
Qed.

Lemma set_bids_id ob : OrderBook.set_bids (OrderBook.bids ob) ob = ob.
Proof. by destruct ob. Qed.

Lemma set_asks_id ob : OrderBook.set_asks (OrderBook.asks ob) ob = ob.
Proof. by destruct ob. Qed.

Lemma zero_not_positive : (int 0 >? int 0)%num = false.
Proof. vm_compute. reflexivity. Qed.

(** Claim C5.  After any finite sequence of [addBid] and [addAsk] on a fresh
    book, a side holds a level at price [p] if and only if the most recent
    operation of that side at [p] had a quantity [> 0].  An operation with
    quantity [0] leaves no level at its price, and changes nothing (book and
    clock) when there was none. *)
Theorem level_present_iff_last_positive (sym : string) (ops : list Op) (c : Clock) (p : number) :
  let ob := result (fresh <- OrderBook.new sym ;; run_ops ops fresh) c in
  (is_Some (OrderBook.bids ob !! OrderBook.toString p)
   <-> exists q, last_change (bid_changes ops) p = Some q /\ (q >? int 0)%num = true) /\
  (is_Some (OrderBook.asks ob !! OrderBook.toString p)
   <-> exists q, last_change (ask_changes ops) p = Some q /\ (q >? int 0)%num = true) /\
  (forall book cnt c',
     OrderBook.bids (result (OrderBook.addBid p (int 0) cnt book) c')
       !! OrderBook.toString p = None /\
     OrderBook.asks (result (OrderBook.addAsk p (int 0) cnt book) c')
       !! OrderBook.toString p = None) /\
  (forall book cnt c',
     (OrderBook.bids book !! OrderBook.toString p = None ->
      OrderBook.addBid p (int 0) cnt book c' = (book, c')) /\
     (OrderBook.asks book !! OrderBook.toString p = None ->
      OrderBook.addAsk p (int 0) cnt book c' = (book, c'))).
Proof.
  cbn zeta. rewrite result_bind.
  destruct (run_ops_spec ops (result (OrderBook.new sym) c) (clock_after (OrderBook.new sym) c))
    as (Hb & Ha & _).
  unfold OrderBook.toString.
  split; [by apply side_after_empty|].
  split; [by apply side_after_empty|].
  split.
  - intros book cnt c'. unfold result, OrderBook.addBid, OrderBook.addAsk, OrderBook.toString.
    rewrite zero_not_positive. cbn. by rewrite !lookup_delete_eq.
  - intros book cnt c'. unfold OrderBook.addBid, OrderBook.addAsk, OrderBook.toString.
    rewrite zero_not_positive. split; intros H; unfold ret.
    + by rewrite delete_id, set_bids_id.
    + by rewrite delete_id, set_asks_id.
Qed.

(** ** The registry: applying a diff *)

Lemma apply_bids_run_ops levels ob c :
  OrderBookManager.apply_bids levels ob c
  = run_ops (map bid_op (changes_of levels)) ob c.
Proof.
  unfold OrderBookManager.apply_bids, run_ops, changes_of.
  revert ob c. induction levels as [|level levels IH]; intros ob c; [done|].
  cbn [for_of]. destruct (Validators.isValidPriceLevel level) eqn:E.
  - rewrite filter_cons_True by done. cbn [map for_of].
    unfold bind. cbn [run_op bid_op fst snd Validators.sanitizePriceLevel].
    destruct (OrderBook.addBid _ _ 1 ob c) as [ob1 c1]. apply IH.
  - rewrite filter_cons_False by congruence. unfold bind, ret. apply IH.
Qed.

Lemma apply_asks_run_ops levels ob c :
  OrderBookManager.apply_asks levels ob c
  = run_ops (map ask_op (changes_of levels)) ob c.
Proof.
  unfold OrderBookManager.apply_asks, run_ops, changes_of.
  revert ob c. induction levels as [|level levels IH]; intros ob c; [done|].
  cbn [for_of]. destruct (Validators.isValidPriceLevel level) eqn:E.
  - rewrite filter_cons_True by done. cbn [map for_of].
    unfold bind. cbn [run_op ask_op fst snd Validators.sanitizePriceLevel].
    destruct (OrderBook.addAsk _ _ 1 ob c) as [ob1 c1]. apply IH.
  - rewrite filter_cons_False by congruence. unfold bind, ret. apply IH.
Qed.

Lemma bid_changes_bid_ops chg : bid_changes (map bid_op chg) = chg.
Proof. unfold bid_changes. induction chg as [|[p q] chg IH]; [done|]. cbn. by f_equal. Qed.

Lemma ask_changes_bid_ops chg : ask_changes (map bid_op chg) = [].
Proof. unfold ask_changes. induction chg as [|[p q] chg IH]; [done|]. cbn. exact IH. Qed.

Lemma ask_changes_ask_ops chg : ask_changes (map ask_op chg) = chg.
Proof. unfold ask_changes. induction chg as [|[p q] chg IH]; [done|]. cbn. by f_equal. Qed.

Lemma bid_changes_ask_ops chg : bid_changes (map ask_op chg) = [].
Proof. unfold bid_changes. induction chg as [|[p q] chg IH]; [done|]. cbn. exact IH. Qed.

Lemma side_after_nil_eq (m m' : gmap number PriceLevel.t) : side_after [] m m' -> m' = m.
Proof. intros H. apply map_eq. intros p. apply (H p). Qed.

Lemma apply_bids_spec levels ob c :
  let ob' := result (OrderBookManager.apply_bids levels ob) c in
  side_after (changes_of levels) (OrderBook.bids ob) (OrderBook.bids ob') /\
  OrderBook.asks ob' = OrderBook.asks ob /\
  OrderBook.lastUpdateId ob' = OrderBook.lastUpdateId ob /\
  OrderBook.lastUpdateTime ob' = OrderBook.lastUpdateTime ob /\
  OrderBook.symbol ob' = OrderBook.symbol ob.
Proof.
  cbn zeta. unfold result. rewrite apply_bids_run_ops.
  destruct (run_ops_spec (map bid_op (changes_of levels)) ob c) as (Hb & Ha & Hrest).
  rewrite bid_changes_bid_ops in Hb. rewrite ask_changes_bid_ops in Ha.
  split; [done|]. split; [by apply side_after_nil_eq|done].
Qed.

Lemma apply_asks_spec levels ob c :
  let ob' := result (OrderBookManager.apply_asks levels ob) c in
  side_after (changes_of levels) (OrderBook.asks ob) (OrderBook.asks ob') /\
  OrderBook.bids ob' = OrderBook.bids ob /\
  OrderBook.lastUpdateId ob' = OrderBook.lastUpdateId ob /\
  OrderBook.lastUpdateTime ob' = OrderBook.lastUpdateTime ob /\
  OrderBook.symbol ob' = OrderBook.symbol ob.
Proof.
  cbn zeta. unfold result. rewrite apply_asks_run_ops.
  destruct (run_ops_spec (map ask_op (changes_of levels)) ob c) as (Hb & Ha & Hrest).
  rewrite bid_changes_ask_ops in Hb. rewrite ask_changes_ask_ops in Ha.
  split; [done|]. split; [by apply side_after_nil_eq|done].
Qed.

Lemma broadcast_loop_orderbooks message subs st c :
  OrderBookManager.orderbooks
    (result (for_of subs (OrderBookManager.send_to message) st) c).1
  = OrderBookManager.orderbooks st.1.
Proof.
  revert st c. induction subs as [|ws subs IH]; intros [this sent] c; [done|].
  cbn [for_of]. rewrite result_bind, IH. unfold OrderBookManager.send_to.
  destruct (OrderBookManager.readyState ws =? OrderBookManager.OPEN);
    [destruct (OrderBookManager.send_throws ws)|]; done.
Qed.

Lemma broadcastUpdate_orderbooks symbol snapshot this c :
  OrderBookManager.orderbooks
    (result (OrderBookManager.broadcastUpdate symbol snapshot this) c).1
  = OrderBookManager.orderbooks this.
Proof.
  unfold OrderBookManager.broadcastUpdate. rewrite result_bind.
  by rewrite broadcast_loop_orderbooks.
Qed.

Lemma apply_update_spec symbol d ob0 mgr c :
  exists mgr' sent ob',
    result (OrderBookManager.apply_update symbol d ob0 mgr) c = (true, mgr', sent) /\
    OrderBookManager.getOrderBook symbol mgr' = Some ob' /\
    applied d ob0 ob'.
Proof.
  unfold OrderBookManager.apply_update.
  repeat (rewrite result_bind; cbn beta). rewrite result_ret.
  set (c1 := clock_after (OrderBookManager.apply_bids (DepthData.b d) ob0) c).
  set (ob1 := result (OrderBookManager.apply_bids (DepthData.b d) ob0) c).
  set (c2 := clock_after (OrderBookManager.apply_asks (DepthData.a d) ob1) c1).
  set (ob2 := result (OrderBookManager.apply_asks (DepthData.a d) ob1) c1).
  set (c3 := clock_after (OrderBook.updateLastUpdateId (DepthData.u d) ob2) c2).
  set (ob3 := result (OrderBook.updateLastUpdateId (DepthData.u d) ob2) c2).
  eexists _, _, ob3. split; [reflexivity|].
  split.
  - unfold OrderBookManager.getOrderBook. rewrite broadcastUpdate_orderbooks.
    cbn. apply lookup_insert_eq.
  - destruct (apply_bids_spec (DepthData.b d) ob0 c) as (Hb1 & Ha1 & _).
    destruct (apply_asks_spec (DepthData.a d) ob1 c1) as (Ha2 & Hb2 & _).
    fold ob1 in Hb1, Ha1. fold ob2 in Ha2, Hb2.
    unfold applied. subst ob3. cbn. rewrite Hb2. rewrite <- Ha1. done.
Qed.

Lemma updateOrderBook_known symbol d mgr ob :
  OrderBookManager.getOrderBook symbol mgr = Some ob ->
  OrderBookManager.updateOrderBook symbol d mgr
  = if OrderBook.lastUpdateId ob =? 0 then
      orderbook <- OrderBook.updateLastUpdateId (DepthData.u d) ob ;;
      OrderBookManager.apply_update symbol d orderbook mgr
    else if DepthData.U d - OrderBook.lastUpdateId ob >? 1000 then
      orderbook <- OrderBook.updateLastUpdateId (DepthData.u d) ob ;;
      OrderBookManager.apply_update symbol d orderbook mgr
    else if negb (Validators.validateSequenceNumber
                    (OrderBook.lastUpdateId ob) (DepthData.U d) (DepthData.u d))
    then ret (false, mgr, [])
    else OrderBookManager.apply_update symbol d ob mgr.
Proof.
  intros H. rewrite <- (round_int_gtb (DepthData.U d - OrderBook.lastUpdateId ob)).
  unfold OrderBookManager.updateOrderBook. rewrite H. reflexivity.
Qed.

Lemma validateSequenceNumber_iff L U u :
  Validators.validateSequenceNumber L U u = true
  <-> U <= round_int (L + 1) /\ u >= round_int (L + 1).
Proof.
  unfold Validators.validateSequenceNumber.
  destruct (Z.leb_spec U (round_int (L + 1))), (Z.geb_spec u (round_int (L + 1)));
    cbn; split; try done; lia.
Qed.

Lemma next_id_exact L : - 2 ^ 53 <= L < 2 ^ 53 -> round_int (L + 1) = L + 1.
Proof. intros HL. apply round_int_exact. lia. Qed.

(** Claim C1, as amended.  For a book with [lastUpdateId = L > 0] and a diff
    with [U - L <= 1000], [updateOrderBook] returns true if and only if
    [U <= next] and [u >= next], where [next] is [L + 1] as the code's addition
    computes it: [L + 1] itself while [L < 2 ^ 53], and [L + 1] rounded beyond.
    When it returns true the diff's valid bid and ask changes have been
    applied to the book and its [lastUpdateId] is [u]; when it returns false
    the registry (hence the book: both sides, [lastUpdateId],
    [lastUpdateTime]) is unchanged, nothing was sent to any subscriber, and
    the clock was not read. *)
Theorem diff_sequence_gate (symbol : string) (d : DepthData.t)
    (mgr : OrderBookManager.t) (ob : OrderBook.t) (c : Clock) :
  OrderBookManager.getOrderBook symbol mgr = Some ob ->
  0 < OrderBook.lastUpdateId ob ->
  DepthData.U d - OrderBook.lastUpdateId ob <= 1000 ->
  let next := round_int (OrderBook.lastUpdateId ob + 1) in
  (OrderBook.lastUpdateId ob < 2 ^ 53 -> next = OrderBook.lastUpdateId ob + 1) /\
  exists ok mgr' sent,
    result (OrderBookManager.updateOrderBook symbol d mgr) c = (ok, mgr', sent) /\
    (ok = true <-> DepthData.U d <= next /\ DepthData.u d >= next) /\
    (ok = true ->
       exists ob', OrderBookManager.getOrderBook symbol mgr' = Some ob' /\ applied d ob ob') /\
    (ok = false ->
       mgr' = mgr /\ sent = [] /\
       clock_after (OrderBookManager.updateOrderBook symbol d mgr) c = c).
Proof.
  intros Hob HL Hgap. cbn zeta. split.
  { intros Hsafe. apply next_id_exact. lia. }
  rewrite (updateOrderBook_known _ _ _ _ Hob).
  destruct (Z.eqb_spec (OrderBook.lastUpdateId ob) 0) as [E|_]; [lia|].
  destruct (Z.gtb_spec (DepthData.U d - OrderBook.lastUpdateId ob) 1000) as [E|_]; [lia|].
  destruct (Validators.validateSequenceNumber _ _ _) eqn:Hseq; cbn [negb].
  - destruct (apply_update_spec symbol d ob mgr c) as (mgr' & sent & ob' & Hr & Hget & Happ).
    exists true, mgr', sent. split; [done|].
    split; [by rewrite <- validateSequenceNumber_iff|].
    split; [eauto|done].
  - exists false, mgr, []. split; [done|].
    split; [|split; [done|]].
    + rewrite <- validateSequenceNumber_iff, Hseq. done.
    + done.
Qed.

(** Claim C2.  For a book with [lastUpdateId = 0], or with
    [lastUpdateId = L > 0] and [U - L > 1000], [updateOrderBook] returns true,
    every bid and ask change of the diff that passes [isValidPriceLevel] has
    been applied, and the book's [lastUpdateId] is [u]. *)
Theorem diff_accepted_unconditionally (symbol : string) (d : DepthData.t)
    (mgr : OrderBookManager.t) (ob : OrderBook.t) (c : Clock) :
  OrderBookManager.getOrderBook symbol mgr = Some ob ->
  OrderBook.lastUpdateId ob = 0 \/
  (0 < OrderBook.lastUpdateId ob /\ DepthData.U d - OrderBook.lastUpdateId ob > 1000) ->
  exists mgr' sent ob',
    result (OrderBookManager.updateOrderBook symbol d mgr) c = (true, mgr', sent) /\
    OrderBookManager.getOrderBook symbol mgr' = Some ob' /\
    applied d ob ob'.
Proof.
  intros Hob Hcase. rewrite (updateOrderBook_known _ _ _ _ Hob).
  assert (exists mgr' sent ob',
    result (orderbook <- OrderBook.updateLastUpdateId (DepthData.u d) ob ;;
            OrderBookManager.apply_update symbol d orderbook mgr) c = (true, mgr', sent) /\
    OrderBookManager.getOrderBook symbol mgr' = Some ob' /\ applied d ob ob') as Hgo.
  { rewrite result_bind.
    destruct (apply_update_spec symbol d
                (result (OrderBook.updateLastUpdateId (DepthData.u d) ob) c) mgr
                (clock_after (OrderBook.updateLastUpdateId (DepthData.u d) ob) c))
      as (mgr' & sent & ob' & Hr & Hget & Happ).
    by exists mgr', sent, ob'. }
  destruct Hcase as [E|[HL Hgap]].
  - rewrite E. done.
  - destruct (Z.eqb_spec (OrderBook.lastUpdateId ob) 0) as [E|_]; [lia|].
    destruct (Z.gtb_spec (DepthData.U d - OrderBook.lastUpdateId ob) 1000) as [_|E]; [done|lia].
Qed.

(** ** The registry: applying a snapshot *)

Lemma elem_of_Map_values (m : gmap number PriceLevel.t) l :
  l ∈ Map_values m <-> exists k, m !! k = Some l.
Proof.
  unfold Map_values. rewrite list_elem_of_fmap. split.
  - intros ([k l'] & -> & Hin). exists k. by apply elem_of_map_to_list.
  - intros [k Hk]. exists (k, l). split; [done|]. by apply elem_of_map_to_list.
Qed.

Lemma side_after_empty_pq changes m p q :
  side_after changes ∅ m ->
  (p, q) ∈ map pq (Map_values m)
  <-> last_change changes p = Some q /\ (q >? int 0)%num = true.
Proof.
  intros H. split.
  - intros Hin. apply list_elem_of_fmap in Hin as (l & Hpq & Hl).
    apply elem_of_Map_values in Hl as [k Hk].
    specialize (H k). destruct (last_change changes k) as [q'|] eqn:E.
    + rewrite Hk in H. cbn in H. destruct (q' >? int 0)%num eqn:Hq'; [|done].
      assert (pq l = (k, q')) as Hl by congruence.
      rewrite Hl in Hpq. by injection Hpq as -> ->.
    + by rewrite Hk, lookup_empty in H.
  - intros [Hlast Hq]. specialize (H p). rewrite Hlast, Hq in H.
    destruct (m !! p) as [l|] eqn:E; [|done].
    assert (pq l = (p, q)) as Hl by (cbn in H; congruence).
    apply list_elem_of_fmap. exists l. split; [done|].
    apply elem_of_Map_values. eauto.
Qed.

Lemma last_change_elem changes p q :
  last_change changes p = Some q -> (p, q) ∈ changes.
Proof.
  induction changes as [|[p' q'] changes IH]; [done|]. cbn [last_change].
  destruct (last_change changes p) as [q''|].
  - intros [= ->]. right. by apply IH.
  - case_bool_decide; [|done]. intros [= ->]. subst. left.
Qed.

Lemma last_change_NoDup changes p q :
  NoDup changes.*1 -> last_change changes p = Some q <-> (p, q) ∈ changes.
Proof.
  intros Hnd. split; [apply last_change_elem|].
  induction changes as [|[p' q'] changes IH]; [by intros ?%elem_of_nil|].
  inversion Hnd as [|? ? Hnotin Hnd']; subst.
  intros Hin. cbn [last_change]. apply elem_of_cons in Hin as [[= -> ->]|Hin].
  - destruct (last_change changes p') as [q''|] eqn:E.
    + apply last_change_elem in E. destruct Hnotin.
      apply list_elem_of_fmap. by exists (p', q'').
    + by rewrite bool_decide_eq_true_2.
  - by rewrite (IH Hnd' Hin).
Qed.

Lemma changes_of_all_valid levels :
  forallb Validators.isValidPriceLevel levels = true ->
  changes_of levels = map Validators.sanitizePriceLevel levels.
Proof.
  unfold changes_of. induction levels as [|l levels IH]; [done|].
  cbn [forallb]. intros [Hl Hrest]%andb_true_iff.
  rewrite filter_cons_True by done. cbn [map]. by rewrite IH.
Qed.

Lemma isValidSnapshot_levels sd :
  Validators.isValidSnapshot (SnapshotData.to_value sd) = true ->
  forallb Validators.isValidPriceLevel (SnapshotData.bids sd) = true /\
  forallb Validators.isValidPriceLevel (SnapshotData.asks sd) = true.
Proof.
  unfold Validators.isValidSnapshot, SnapshotData.to_value. cbn.
  rewrite !andb_true_iff. tauto.
Qed.

Lemma setSnapshot_spec symbol sd mgr c :
  Validators.isValidSnapshot (SnapshotData.to_value sd) = true ->
  exists mgr' ob',
    result (OrderBookManager.setSnapshot symbol sd mgr) c = (true, mgr') /\
    OrderBookManager.getOrderBook symbol mgr' = Some ob' /\
    side_after (changes_of (SnapshotData.bids sd)) ∅ (OrderBook.bids ob') /\
    side_after (changes_of (SnapshotData.asks sd)) ∅ (OrderBook.asks ob') /\
    OrderBook.lastUpdateId ob' = SnapshotData.lastUpdateId sd.
Proof.
  intros Hvalid. unfold OrderBookManager.setSnapshot. rewrite Hvalid. cbn [negb].
  rewrite result_bind. cbn beta.
  set (r := result (match OrderBookManager.getOrderBook symbol mgr with
                    | Some orderbook => ret (orderbook, mgr)
                    | None => OrderBookManager.createOrderBook symbol mgr
                    end) c).
  set (c0 := clock_after _ c).
  destruct r as [ob0 mgr0].
  repeat (rewrite result_bind; cbn beta). rewrite result_ret.
  set (ob1 := result (OrderBook.clear ob0) c0).
  set (c1 := clock_after (OrderBook.clear ob0) c0).
  set (ob2 := result (OrderBookManager.apply_bids (SnapshotData.bids sd) ob1) c1).
  set (c2 := clock_after (OrderBookManager.apply_bids (SnapshotData.bids sd) ob1) c1).
  set (ob3 := result (OrderBookManager.apply_asks (SnapshotData.asks sd) ob2) c2).
  set (c3 := clock_after (OrderBookManager.apply_asks (SnapshotData.asks sd) ob2) c2).
  eexists _, _. split; [reflexivity|].
  split; [apply lookup_insert_eq|].
  destruct (apply_bids_spec (SnapshotData.bids sd) ob1 c1) as (Hb1 & Ha1 & _).
  destruct (apply_asks_spec (SnapshotData.asks sd) ob2 c2) as (Ha2 & Hb2 & _).
  fold ob2 in Hb1, Ha1. fold ob3 in Ha2, Hb2.
  cbn. rewrite Hb2. rewrite Ha1 in Ha2. done.
Qed.

(** Claim C8, as amended.  For every snapshot envelope accepted by
    [isValidSnapshot], [setSnapshot] returns true and the [getSnapshot()] of the
    book has the envelope's [lastUpdateId]; its bids (and likewise its asks)
    are, as a set of (price, quantity) pairs, the envelope's parsed levels whose
    quantity is [> 0], each price with the quantity of its last entry.  When
    all quantities of the envelope's side are positive and its prices are
    distinct, that set is the set of the envelope's parsed levels. *)
Theorem snapshot_round_trip (symbol : string) (sd : SnapshotData.t)
    (mgr : OrderBookManager.t) (c : Clock) :
  Validators.isValidSnapshot (SnapshotData.to_value sd) = true ->
  exists mgr' ob,
    result (OrderBookManager.setSnapshot symbol sd mgr) c = (true, mgr') /\
    OrderBookManager.getOrderBook symbol mgr' = Some ob /\
    let snap := OrderBook.getSnapshot None ob in
    let bids := map Validators.sanitizePriceLevel (SnapshotData.bids sd) in
    let asks := map Validators.sanitizePriceLevel (SnapshotData.asks sd) in
    OrderBook.snap_lastUpdateId snap = SnapshotData.lastUpdateId sd /\
    (forall p q, (p, q) ∈ map pq (OrderBook.snap_bids snap)
       <-> last_change bids p = Some q /\ (q >? int 0)%num = true) /\
    (forall p q, (p, q) ∈ map pq (OrderBook.snap_asks snap)
       <-> last_change asks p = Some q /\ (q >? int 0)%num = true) /\
    (Forall (fun ch => (ch.2 >? int 0)%num = true) bids -> NoDup bids.*1 ->
       forall p q, (p, q) ∈ map pq (OrderBook.snap_bids snap) <-> (p, q) ∈ bids) /\
    (Forall (fun ch => (ch.2 >? int 0)%num = true) asks -> NoDup asks.*1 ->
       forall p q, (p, q) ∈ map pq (OrderBook.snap_asks snap) <-> (p, q) ∈ asks).
Proof.
  intros Hvalid.
  destruct (setSnapshot_spec symbol sd mgr c Hvalid) as (mgr' & ob & Hr & Hget & Hb & Ha & Hid).
  destruct (isValidSnapshot_levels sd Hvalid) as [Hvb Hva].
  rewrite (changes_of_all_valid _ Hvb) in Hb. rewrite (changes_of_all_valid _ Hva) in Ha.
  exists mgr', ob. split; [done|]. split; [done|]. cbn zeta.
  cbn [OrderBook.getSnapshot OrderBook.snap_lastUpdateId OrderBook.snap_bids OrderBook.snap_asks].
  assert (forall p q, (p, q) ∈ map pq (OrderBook.getBids None ob)
            <-> last_change (map Validators.sanitizePriceLevel (SnapshotData.bids sd)) p = Some q
                /\ (q >? int 0)%num = true) as HB.
  { intros p q. rewrite getBids_all, (Array_sort_perm _ _). by apply side_after_empty_pq. }
  assert (forall p q, (p, q) ∈ map pq (OrderBook.getAsks None ob)
            <-> last_change (map Validators.sanitizePriceLevel (SnapshotData.asks sd)) p = Some q
                /\ (q >? int 0)%num = true) as HA.
  { intros p q. rewrite getAsks_all, (Array_sort_perm _ _). by apply side_after_empty_pq. }
  split; [done|]. split; [done|]. split; [done|]. split.
  - intros Hpos Hnd p q. rewrite HB, (last_change_NoDup _ _ _ Hnd). split; [tauto|].
    intros Hin. split; [done|]. rewrite Forall_forall in Hpos. by apply (Hpos (p, q)).
  - intros Hpos Hnd p q. rewrite HA, (last_change_NoDup _ _ _ Hnd). split; [tauto|].
    intros Hin. split; [done|]. rewrite Forall_forall in Hpos. by apply (Hpos (p, q)).
Qed.

(** ** The validators *)

Lemma isNaN_false a : isNaN a = false <-> a <> NaN.
Proof. by destruct a. Qed.

Lemma get_index_string_truthy level s :
  get_index level 0 = Str s -> truthy level = true.
Proof. destruct level as [| | | |[|c s']| |]; done. Qed.

Lemma isValidPriceLevel_iff level :
  Validators.isValidPriceLevel level = true
  <-> exists sp sq,
        get_index level 0 = Str sp /\ get_index level 1 = Str sq /\
        (parseFloat_string sp >? int 0)%num = true /\
        (parseFloat_string sq >=? int 0)%num = true.
Proof.
  unfold Validators.isValidPriceLevel. rewrite !andb_true_iff. split.
  - intros ((((((_ & H0) & H1) & _) & _) & Hp) & Hq).
    destruct (get_index level 0) as [| | | |sp| |]; try done.
    destruct (get_index level 1) as [| | | |sq| |]; try done.
    by exists sp, sq.
  - intros (sp & sq & H0 & H1 & Hp & Hq).
    rewrite (get_index_string_truthy _ _ H0), H0, H1. cbn [is_string parseFloat].
    rewrite Hp, Hq.
    destruct (num_ltb_not_NaN _ _ Hp) as [_ Hp'].
    destruct (num_leb_not_NaN _ _ Hq) as [_ Hq'].
    apply isNaN_false in Hp', Hq'. rewrite Hp', Hq'. done.
Qed.

Lemma num_truthy_iff id : num_truthy id = true <-> id <> NaN /\ id <> int 0.
Proof.
  destruct id as [| | |x]; cbn [num_truthy].
  - split; [done|]. by intros [? _].
  - done.
  - done.
  - rewrite negb_true_iff, bool_decide_eq_false. split.
    + intros Hx. split; [done|]. intros [= ->]. by apply Hx.
    + intros [_ Hx] ->. by apply Hx.
Qed.

Lemma forallb_Forall {A} (f : A -> bool) l :
  forallb f l = true <-> Forall (fun x => f x = true) l.
Proof.
  induction l as [|x l IH]; cbn [forallb]; [done|].
  rewrite andb_true_iff, Forall_cons, IH. done.
Qed.

Lemma isValidSnapshot_iff msg :
  Validators.isValidSnapshot msg = true
  <-> exists fields bids asks,
        msg = Obj fields /\
        truthy (assoc "lastUpdateId" fields) = true /\
        assoc "bids" fields = Arr bids /\
        assoc "asks" fields = Arr asks /\
        Forall (fun l => Validators.isValidPriceLevel l = true) bids /\
        Forall (fun l => Validators.isValidPriceLevel l = true) asks.
Proof.
  unfold Validators.isValidSnapshot. rewrite !andb_true_iff. split.
  - intros (((((_ & Hid) & Hb) & Ha) & Hbv) & Hav).
    destruct msg as [| | | | | |fields]; try done. cbn [get_prop] in *.
    destruct (assoc "bids" fields) as [| | | | |bids|] eqn:Eb; try done.
    destruct (assoc "asks" fields) as [| | | | |asks|] eqn:Ea; try done.
    exists fields, bids, asks. cbn [Validators.every] in *.
    rewrite forallb_Forall in Hbv, Hav. done.
  - intros (fields & bids & asks & -> & Hid & Hb & Ha & Hbv & Hav).
    cbn [get_prop truthy]. rewrite Hid, Hb, Ha. cbn [Array_isArray Validators.every].
    rewrite <- forallb_Forall in Hbv, Hav. by rewrite Hbv, Hav.
Qed.

(** Claim C9, as amended.  [isValidSnapshot(msg)] is truthy if and only if
    [msg] is an object whose [lastUpdateId] is truthy and whose [bids] and
    [asks] are arrays of elements that all pass [isValidPriceLevel]; a numeric
    [lastUpdateId] is truthy when it is neither [NaN] nor [0], so every message
    the specification's wording accepts ([lastUpdateId > 0]) is accepted.  A
    level passes [isValidPriceLevel] if and only if its entries [0] and [1] are
    strings, the first parsing to a number [> 0] and the second to a number
    [>= 0]. *)
Theorem is_valid_snapshot_truthy_id (msg : value) :
  (Validators.isValidSnapshot msg = true
   <-> exists fields bids asks,
         msg = Obj fields /\
         truthy (assoc "lastUpdateId" fields) = true /\
         assoc "bids" fields = Arr bids /\
         assoc "asks" fields = Arr asks /\
         Forall (fun l => Validators.isValidPriceLevel l = true) bids /\
         Forall (fun l => Validators.isValidPriceLevel l = true) asks) /\
  (forall id, truthy (Num id) = true <-> id <> NaN /\ id <> int 0) /\
  (spec_is_valid_snapshot msg = true -> Validators.isValidSnapshot msg = true) /\
  (forall level,
     Validators.isValidPriceLevel level = true
     <-> exists sp sq,
           get_index level 0 = Str sp /\ get_index level 1 = Str sq /\
           (parseFloat_string sp >? int 0)%num = true /\
           (parseFloat_string sq >=? int 0)%num = true).
Proof.
  split; [apply isValidSnapshot_iff|].
  split; [intros id; apply num_truthy_iff|].
  split; [|apply isValidPriceLevel_iff].
  unfold spec_is_valid_snapshot, Validators.isValidSnapshot.
  rewrite !andb_true_iff. intros [Hid Hlv].
  destruct msg as [| | | | | |fields]; try done. cbn [get_prop truthy] in *.
  destruct (assoc "lastUpdateId" fields) as [| | |id| | |]; try done.
  destruct (assoc "bids" fields) as [| | | | |bids|]; try done.
  destruct (assoc "asks" fields) as [| | | | |asks|]; try done.
  apply andb_true_iff in Hlv as [Hb Ha].
  cbn [truthy Array_isArray Validators.every]. rewrite Hb, Ha.
  repeat split. apply num_truthy_iff.
  unfold num_gtb in Hid.
  destruct (num_ltb_not_NaN _ _ Hid) as [_ Hn]. split; [done|].
  intros ->. by rewrite num_ltb_irrefl in Hid.
Qed.

Lemma book1_ok : book_ok book1.
Proof. apply (bool_decide_unpack _). vm_compute. exact I. Qed.

(** ** The invariant is what the registry maintains *)

Lemma new_book_ok sym c : book_ok (result (OrderBook.new sym) c).
Proof. split; apply map_Forall_empty. Qed.

Lemma addBid_ok p q cnt ob c :
  p <> NaN -> book_ok ob -> book_ok (result (OrderBook.addBid p q cnt ob) c).
Proof.
  intros Hp [Hb Ha]. unfold result, OrderBook.addBid, OrderBook.toString.
  destruct (q >? int 0)%num eqn:Hq; cbn; (split; [|done]).
  - by apply map_Forall_insert_2.
  - by apply map_Forall_delete.
Qed.

Lemma addAsk_ok p q cnt ob c :
  p <> NaN -> book_ok ob -> book_ok (result (OrderBook.addAsk p q cnt ob) c).
Proof.
  intros Hp [Hb Ha]. unfold result, OrderBook.addAsk, OrderBook.toString.
  destruct (q >? int 0)%num eqn:Hq; cbn; (split; [done|]).
  - by apply map_Forall_insert_2.
  - by apply map_Forall_delete.
Qed.

Lemma run_ops_ok ops ob c :
  Forall (fun o => op_price o <> NaN) ops ->
  book_ok ob -> book_ok (result (run_ops ops ob) c).
Proof.
  intros Hops. revert ob c. induction Hops as [|o ops Ho _ IH]; intros ob c Hok; [done|].
  rewrite run_ops_cons. apply IH.
  destruct o; cbn [run_op op_price] in *; [by apply addBid_ok|by apply addAsk_ok].
Qed.

Lemma valid_price_not_NaN level :
  Validators.isValidPriceLevel level = true ->
  (Validators.sanitizePriceLevel level).1 <> NaN.
Proof.
  intros (sp & sq & H0 & _ & Hp & _)%isValidPriceLevel_iff.
  unfold Validators.sanitizePriceLevel. cbn [fst]. rewrite H0. cbn [parseFloat].
  by destruct (num_ltb_not_NaN _ _ Hp).
Qed.

Lemma changes_of_prices levels :
  Forall (fun ch => ch.1 <> NaN) (changes_of levels).
Proof.
  unfold changes_of. apply Forall_fmap, Forall_forall.
  intros level [Hv _]%list_elem_of_filter. by apply valid_price_not_NaN.
Qed.

Lemma apply_bids_ok levels ob c :
  book_ok ob -> book_ok (result (OrderBookManager.apply_bids levels ob) c).
Proof.
  intros Hok. unfold result. rewrite apply_bids_run_ops. apply run_ops_ok; [|done].
  apply Forall_fmap. eapply Forall_impl; [apply changes_of_prices|]. by intros [p q].
Qed.

Lemma apply_asks_ok levels ob c :
  book_ok ob -> book_ok (result (OrderBookManager.apply_asks levels ob) c).
Proof.
  intros Hok. unfold result. rewrite apply_asks_run_ops. apply run_ops_ok; [|done].
  apply Forall_fmap. eapply Forall_impl; [apply changes_of_prices|]. by intros [p q].
Qed.

Lemma updateLastUpdateId_ok id ob c :
  book_ok ob -> book_ok (result (OrderBook.updateLastUpdateId id ob) c).
Proof. done. Qed.

Lemma clear_ok ob c : book_ok (result (OrderBook.clear ob) c).
Proof. split; apply map_Forall_empty. Qed.

Lemma store_ok symbol ob mgr :
  book_ok ob -> manager_ok mgr -> manager_ok (OrderBookManager.store symbol ob mgr).
Proof. intros Hob Hmgr. by apply map_Forall_insert_2. Qed.

Lemma lookup_or_create_ok symbol mgr c :
  manager_ok mgr ->
  let r := result (match OrderBookManager.getOrderBook symbol mgr with
                   | Some orderbook => ret (orderbook, mgr)
                   | None => OrderBookManager.createOrderBook symbol mgr
                   end) c in
  book_ok r.1 /\ manager_ok r.2.
Proof.
  intros Hmgr. cbn zeta. unfold OrderBookManager.getOrderBook.
  destruct (OrderBookManager.orderbooks mgr !! symbol) as [ob|] eqn:E.
  - split; [|done]. by apply (Hmgr symbol ob).
  - split; [apply new_book_ok|]. apply map_Forall_insert_2; [apply new_book_ok|done].
Qed.

Lemma apply_update_ok symbol d ob0 mgr c :
  book_ok ob0 -> manager_ok mgr ->
  manager_ok (result (OrderBookManager.apply_update symbol d ob0 mgr) c).1.2.
Proof.
  intros Hob Hmgr. unfold OrderBookManager.apply_update.
  repeat (rewrite result_bind; cbn beta). rewrite result_ret. cbn [fst snd].
  unfold manager_ok. rewrite broadcastUpdate_orderbooks.
  apply store_ok; [|done].
  by apply updateLastUpdateId_ok, apply_asks_ok, apply_bids_ok.
Qed.

(** Every book of the registry stays well formed across [updateOrderBook]. *)
Theorem updateOrderBook_ok symbol d mgr c :
  manager_ok mgr ->
  manager_ok (result (OrderBookManager.updateOrderBook symbol d mgr) c).1.2.
Proof.
  intros Hmgr. unfold OrderBookManager.updateOrderBook.
  rewrite result_bind. cbn beta.
  destruct (lookup_or_create_ok symbol mgr c Hmgr) as [Hob Hmgr'].
  destruct (result _ c) as [ob0 mgr0]. cbn [fst snd] in Hob, Hmgr'.
  destruct (OrderBook.lastUpdateId ob0 =? 0).
  { rewrite result_bind. by apply apply_update_ok. }
  destruct (_ >? 1000).
  { rewrite result_bind. by apply apply_update_ok. }
  destruct (negb _); [done|]. by apply apply_update_ok.
Qed.

(** Every book of the registry stays well formed across [setSnapshot]. *)
Theorem setSnapshot_ok symbol sd mgr c :
  manager_ok mgr ->
  manager_ok (result (OrderBookManager.setSnapshot symbol sd mgr) c).2.
Proof.
  intros Hmgr. unfold OrderBookManager.setSnapshot.
  destruct (negb _); [done|].
  rewrite result_bind. cbn beta.
  destruct (lookup_or_create_ok symbol mgr c Hmgr) as [Hob Hmgr'].
  destruct (result _ c) as [ob0 mgr0]. cbn [fst snd] in Hob, Hmgr'.
  repeat (rewrite result_bind; cbn beta). rewrite result_ret. cbn [snd].
  apply store_ok; [|done].
  apply updateLastUpdateId_ok, apply_asks_ok, apply_bids_ok, clear_ok.
Qed.

(** Every book of a registry the program can reach is well formed: this is
    the sense of "every order book" in the properties above. *)
Theorem reachable_ok mgr : reachable mgr -> manager_ok mgr.
Proof.
  induction 1 as [|symbol mgr c _ IH|symbol d mgr c _ IH|symbol sd mgr c _ IH
                  |ws mgr _ IH|ws mgr _ IH].
  - apply map_Forall_empty.
  - unfold OrderBookManager.createOrderBook. rewrite result_bind, result_ret.
    apply map_Forall_insert_2; [apply new_book_ok|done].
  - by apply updateOrderBook_ok.
  - by apply setSnapshot_ok.
  - done.
  - done.
Qed.

(** ** The properties at concrete inputs *)

Ltac by_compute := cbv zeta; apply (bool_decide_unpack _); vm_compute; exact I.

(** An in-sequence diff (101..105 on a book at 100) is applied; a stale one
    (90..95) is dropped and leaves the registry as it was. *)
Lemma diff_sequence_gate_witness :
  OrderBookManager.getOrderBook "btcusdt" mgr100 = Some ob100 /\
  0 < OrderBook.lastUpdateId ob100 /\
  DepthData.U diff_next - OrderBook.lastUpdateId ob100 <= 1000 /\
  DepthData.U diff_stale - OrderBook.lastUpdateId ob100 <= 1000 /\
  (exists mgr' sent ob',
     result (OrderBookManager.updateOrderBook "btcusdt" diff_next mgr100) clock0
     = (true, mgr', sent) /\
     OrderBookManager.getOrderBook "btcusdt" mgr' = Some ob' /\
     OrderBook.lastUpdateId ob' = 105) /\
  result (OrderBookManager.updateOrderBook "btcusdt" diff_stale mgr100) clock0
  = (false, mgr100, []).
Proof.
  assert (OrderBookManager.getOrderBook "btcusdt" mgr100 = Some ob100) as H1
    by apply lookup_insert_eq.
  assert (0 < OrderBook.lastUpdateId ob100) as H2 by (vm_compute; reflexivity).
  assert (DepthData.U diff_next - OrderBook.lastUpdateId ob100 <= 1000) as H3
    by (vm_compute; discriminate).
  assert (DepthData.U diff_stale - OrderBook.lastUpdateId ob100 <= 1000) as H4
    by (vm_compute; discriminate).
  split; [exact H1|]. split; [exact H2|]. split; [exact H3|]. split; [exact H4|]. split.
  - destruct (diff_sequence_gate "btcusdt" diff_next mgr100 ob100 clock0 H1 H2 H3)
      as (_ & ok & mgr' & sent & Hr & Hiff & Hyes & _).
    assert (ok = true) as Hok.
    { apply Hiff. split; vm_compute; discriminate. }
    destruct (Hyes Hok) as (ob' & Hget & _ & _ & Hid).
    exists mgr', sent, ob'. rewrite Hr, Hok. done.
  - destruct (diff_sequence_gate "btcusdt" diff_stale mgr100 ob100 clock0 H1 H2 H4)
      as (_ & ok & mgr' & sent & Hr & Hiff & _ & Hno).
    assert (ok = false) as Hok.
    { destruct ok; [|done]. destruct Hiff as [Hiff _].
      destruct (Hiff eq_refl) as [_ Hu]. vm_compute in Hu. by destruct Hu. }
    destruct (Hno Hok) as (-> & -> & _). by rewrite Hr, Hok.
Defined.

(** Claim C1 as stated fails from [L = 2 ^ 53] on: there the code's [L + 1]
    is [L] again, so a valid diff that ends at the book's own id, [u = L],
    passes the check and is applied, although [u >= L + 1] does not hold. *)
Lemma diff_sequence_gate_beyond_2_53 :
  OrderBookManager.getOrderBook "btcusdt" mgr_2_53 = Some ob_2_53 /\
  Validators.isValidDepthUpdate (DepthData.to_value diff_2_53) = true /\
  0 < OrderBook.lastUpdateId ob_2_53 /\
  DepthData.U diff_2_53 - OrderBook.lastUpdateId ob_2_53 <= 1000 /\
  ~ (DepthData.U diff_2_53 <= OrderBook.lastUpdateId ob_2_53 + 1 /\
     DepthData.u diff_2_53 >= OrderBook.lastUpdateId ob_2_53 + 1) /\
  exists mgr' sent ob',
    result (OrderBookManager.updateOrderBook "btcusdt" diff_2_53 mgr_2_53) clock0
    = (true, mgr', sent) /\
    OrderBookManager.getOrderBook "btcusdt" mgr' = Some ob' /\
    pq <$> OrderBook.bids ob' !! int 50000 = Some (int 50000, int 1).
Proof.
  split; [apply lookup_insert_eq|].
  split; [vm_compute; reflexivity|].
  split; [vm_compute; reflexivity|].
  split; [vm_compute; discriminate|].
  split.
  { intros [_ Hu]. vm_compute in Hu. by destruct Hu. }
  eexists _, _, _. split; [vm_compute; reflexivity|].
  split; vm_compute; reflexivity.
Qed.

(** A diff 4900 ids ahead of the book is applied. *)
Lemma diff_accepted_unconditionally_witness :
  OrderBookManager.getOrderBook "btcusdt" mgr100 = Some ob100 /\
  (OrderBook.lastUpdateId ob100 = 0 \/
   (0 < OrderBook.lastUpdateId ob100 /\
    DepthData.U diff_jump - OrderBook.lastUpdateId ob100 > 1000)) /\
  exists mgr' sent ob',
    result (OrderBookManager.updateOrderBook "btcusdt" diff_jump mgr100) clock0
    = (true, mgr', sent) /\
    OrderBookManager.getOrderBook "btcusdt" mgr' = Some ob' /\
    OrderBook.lastUpdateId ob' = 5010.
Proof.
  assert (OrderBookManager.getOrderBook "btcusdt" mgr100 = Some ob100) as H1
    by apply lookup_insert_eq.
  assert (OrderBook.lastUpdateId ob100 = 0 \/
          (0 < OrderBook.lastUpdateId ob100 /\
           DepthData.U diff_jump - OrderBook.lastUpdateId ob100 > 1000)) as H2
    by (right; split; vm_compute; reflexivity).
  split; [exact H1|]. split; [exact H2|].
  destruct (diff_accepted_unconditionally "btcusdt" diff_jump mgr100 ob100 clock0 H1 H2)
    as (mgr' & sent & ob' & Hr & Hget & _ & _ & Hid).
  by exists mgr', sent, ob'.
Defined.

(** A buy of 4 against asks 100 x 2, 101 x 3, 102 x 10. *)
Lemma market_impact_walk_witness :
  book_ok book1 /\ (int 4 >? int 0)%num = true /\
  exists r,
    OrderBook.getMarketImpact (int 4) (Some "buy"%string) book1 = Some r /\
    walk (OrderBook.getAsks None book1) (int 4)
      (OrderBook.levelsConsumed r) (OrderBook.remainingSize r) /\
    OrderBook.filledSize r = (int 4 - OrderBook.remainingSize r)%num /\
    OrderBook.totalCost r
    = fold_left num_add (map OrderBook.c_cost (OrderBook.levelsConsumed r)) (int 0).
Proof.
  assert (book_ok book1) as H1 by (apply (bool_decide_unpack _); vm_compute; exact I).
  assert ((int 4 >? int 0)%num = true) as H2 by (vm_compute; reflexivity).
  split; [exact H1|]. split; [exact H2|].
  destruct (market_impact_walk book1 H1) as [_ Hpos].
  destruct (Hpos (int 4) "buy"%string H2 (or_introl eq_refl))
    as (r & levels & Hr & -> & _ & _ & Hwalk & Hsum & Hcost & _).
  exists r. done.
Defined.

(** Claim C3 as stated fails for [orderSize = Infinity], which is [> 0]:
    what is subtracted from it leaves it as it is, [filledSize] is
    [Infinity - Infinity = NaN], and [filledSize + remainingSize] is not the
    order size.  The route lets such a size through:
    [parseFloat("Infinity")] is neither [NaN] nor [<= 0]. *)
Lemma market_impact_infinite_size :
  book_ok book1 /\ (PInf >? int 0)%num = true /\
  exists r,
    OrderBook.getMarketImpact PInf (Some "buy"%string) book1 = Some r /\
    OrderBook.remainingSize r = PInf /\
    OrderBook.filledSize r = NaN /\
    (OrderBook.filledSize r + OrderBook.remainingSize r)%num <> PInf /\
    exists now,
      result (Server.marketImpact "BTCUSDT" "Infinity" (Some "buy"%string) mgr1) clock0
      = Server.Json200 (Some r) now.
Proof.
  split; [apply (bool_decide_unpack _); vm_compute; exact I|].
  split; [reflexivity|].
  eexists. split; [reflexivity|]. split; [reflexivity|]. split; [reflexivity|].
  split; [discriminate|]. eexists. reflexivity.
Qed.


(** The two sides of a six-level book, and its top two bids. *)
Lemma bids_asks_ordered_witness :
  book_ok book1 /\ 1 <= 2 /\
  StronglySorted price_gt (OrderBook.getBids None book1) /\
  StronglySorted price_lt (OrderBook.getAsks None book1) /\
  OrderBook.getBids (Some 2) book1
  = take (Z.to_nat (Z.min 2 (Z.of_nat (size (OrderBook.bids book1)))))
      (OrderBook.getBids None book1).
Proof.
  assert (book_ok book1) as H1 by (apply (bool_decide_unpack _); vm_compute; exact I).
  assert (1 <= 2) as H2 by lia.
  split; [exact H1|]. split; [exact H2|].
  destruct (bids_asks_ordered book1 2 H1 H2) as (Hb & Ha & _ & _ & Hl & _).
  done.
Defined.

(** Spread of a book with both sides. *)
Lemma spread_and_mid_price_witness :
  book_ok book1 /\ OrderBook.bids book1 <> ∅ /\ OrderBook.asks book1 <> ∅ /\
  exists bestBid bestAsk,
    best_bid book1 bestBid /\ best_ask book1 bestAsk /\
    OrderBook.getSpread book1
    = Some (PriceLevel.price bestAsk - PriceLevel.price bestBid)%num.
Proof.
  assert (book_ok book1) as H1 by (apply (bool_decide_unpack _); vm_compute; exact I).
  assert (OrderBook.bids book1 <> ∅) as H2.
  { intros H. apply (f_equal size) in H. vm_compute in H. discriminate. }
  assert (OrderBook.asks book1 <> ∅) as H3.
  { intros H. apply (f_equal size) in H. vm_compute in H. discriminate. }
  split; [exact H1|]. split; [exact H2|]. split; [exact H3|].
  destruct (spread_and_mid_price book1 H1) as [_ Hboth].
  destruct (Hboth H2 H3) as (bb & ba & Hbb & Hba & Hs & _).
  by exists bb, ba.
Defined.

(** A snapshot with two bids and one ask, applied to an empty registry. *)
Lemma snapshot_round_trip_witness :
  Validators.isValidSnapshot (SnapshotData.to_value snapshot_ok) = true /\
  exists mgr' ob,
    result (OrderBookManager.setSnapshot "btcusdt" snapshot_ok OrderBookManager.new) clock0
    = (true, mgr') /\
    OrderBookManager.getOrderBook "btcusdt" mgr' = Some ob /\
    OrderBook.snap_lastUpdateId (OrderBook.getSnapshot None ob) = 100.
Proof.
  assert (Validators.isValidSnapshot (SnapshotData.to_value snapshot_ok) = true) as H1
    by (vm_compute; reflexivity).
  split; [exact H1|].
  destruct (snapshot_round_trip "btcusdt" snapshot_ok OrderBookManager.new clock0 H1)
    as (mgr' & ob & Hr & Hget & Hid & _).
  by exists mgr', ob.
Defined.

(** Claim C8 as stated fails for an accepted envelope with a level of
    quantity ["0"]: [addBid] deletes instead of inserting, so the snapshot has
    no bid although the envelope has one. *)
Lemma snapshot_round_trip_drops_zero :
  Validators.isValidSnapshot (SnapshotData.to_value snapshot_zero) = true /\
  map Validators.sanitizePriceLevel (SnapshotData.bids snapshot_zero)
  = [(int 50000, int 0)] /\
  exists mgr' ob,
    result (OrderBookManager.setSnapshot "btcusdt" snapshot_zero OrderBookManager.new) clock0
    = (true, mgr') /\
    OrderBookManager.getOrderBook "btcusdt" mgr' = Some ob /\
    OrderBook.snap_bids (OrderBook.getSnapshot None ob) = [] /\
    ~ (forall p q,
         (p, q) ∈ map pq (OrderBook.snap_bids (OrderBook.getSnapshot None ob))
         <-> (p, q) ∈ map Validators.sanitizePriceLevel (SnapshotData.bids snapshot_zero)).
Proof.
  split; [vm_compute; reflexivity|].
  split; [by_compute|].
  eexists _, _. split; [reflexivity|]. split; [vm_compute; reflexivity|].
  assert (forall l, l = [] -> l = [] /\
            ~ (forall p q, (p, q) ∈ map pq l
               <-> (p, q) ∈ map Validators.sanitizePriceLevel (SnapshotData.bids snapshot_zero)))
    as Hgen.
  { intros l ->. split; [done|]. intros H.
    destruct (H (parseFloat (Str "50000")) (parseFloat (Str "0"))) as [_ Hin].
    cbn [map] in Hin. apply elem_of_nil in Hin; [done|]. left. }
  apply Hgen. vm_compute. reflexivity.
Qed.

(** Claim C9 as stated fails for a negative [lastUpdateId]: the validator
    tests truthiness, not positivity. *)
Lemma is_valid_snapshot_negative_id :
  Validators.isValidSnapshot msg_negative_id = true /\
  get_prop msg_negative_id "lastUpdateId" = Num (int (-1)) /\
  (int (-1) >? int 0)%num = false /\
  spec_is_valid_snapshot msg_negative_id = false.
Proof. repeat split; vm_compute; reflexivity. Qed.


(** ** The scenarios of the specification *)

Example parseFloat_samples :
  parseFloat_string "50000.5" = frac 100001 2 /\
  parseFloat_string "  -1.5e2xyz" = int (-150) /\
  parseFloat_string ".5" = frac 1 2 /\
  parseFloat_string "5." = int 5 /\
  parseFloat_string "1e" = int 1 /\
  parseFloat_string "0.00" = int 0 /\
  parseFloat_string "abc" = NaN /\
  parseFloat_string "." = NaN /\
  parseFloat_string "-Infinity" = NInf.
Proof. by_compute. Qed.

Example scenario_empty_book :
  let ob := result (OrderBook.new "btcusdt") clock0 in
  OrderBook.getSpread ob = None /\ OrderBook.getMidPrice ob = None /\
  OrderBook.getBids None ob = [] /\ OrderBook.getAsks None ob = [] /\
  (OrderBook.filledSize <$> OrderBook.getMarketImpact (int 10) (Some "buy"%string) ob)
  = Some (int 0) /\
  (OrderBook.canFill <$> OrderBook.getMarketImpact (int 10) (Some "buy"%string) ob)
  = Some false /\
  (OrderBook.averagePrice <$> OrderBook.getMarketImpact (int 10) (Some "buy"%string) ob)
  = Some NaN.
Proof. by_compute. Qed.

Example scenario_sorted_sides :
  map PriceLevel.price (OrderBook.getBids None book1) = [int 99; int 98; int 97] /\
  map PriceLevel.price (OrderBook.getAsks None book1) = [int 100; int 101; int 102] /\
  map PriceLevel.price (OrderBook.getAsks (Some 2) book1) = [int 100; int 101] /\
  OrderBook.getSpread book1 = Some (int 1) /\
  OrderBook.getMidPrice book1 = Some (frac 199 2).
Proof. by_compute. Qed.

Example scenario_market_impact :
  let r := OrderBook.getMarketImpact (int 4) (Some "buy"%string) book1 in
  (OrderBook.levelsConsumed <$> r)
  = Some [ {| OrderBook.c_price := int 100; OrderBook.c_quantity := int 2;
              OrderBook.c_cost := int 200 |};
           {| OrderBook.c_price := int 101; OrderBook.c_quantity := int 2;
              OrderBook.c_cost := int 202 |} ] /\
  (OrderBook.totalCost <$> r) = Some (int 402) /\
  (OrderBook.averagePrice <$> r) = Some (frac 201 2) /\
  (OrderBook.finalPrice <$> r) = Some (int 101) /\
  (OrderBook.slippage <$> r) = Some (frac 1 2) /\
  (OrderBook.canFill <$> r) = Some true.
Proof. by_compute. Qed.

Example scenario_accumulated_to_price :
  let r := OrderBook.getAccumulatedQuantityToPrice (int 98) (Some "bids"%string) book1 in
  OrderBook.acc_quantity (OrderBook.acc_bids r) = int 3 /\
  OrderBook.acc_cost (OrderBook.acc_bids r) = int 295 /\
  OrderBook.acc_averagePrice (OrderBook.acc_bids r) = frac 295 3.
Proof. by_compute. Qed.

Example scenario_crossed_book :
  OrderBook.getSpread book_crossed = Some (int (-1)) /\
  OrderBook.getMidPrice book_crossed = Some (frac 201 2).
Proof. by_compute. Qed.

Example scenario_valid_messages :
  Validators.isValidDepthUpdate (DepthData.to_value diff_next) = true /\
  Validators.isValidDepthUpdate (DepthData.to_value diff_stale) = true /\
  Validators.isValidDepthUpdate (DepthData.to_value diff_jump) = true /\
  Validators.isValidSnapshot (SnapshotData.to_value snapshot_ok) = true /\
  Validators.isValidPriceLevel (Arr [Str "50000"; Str "abc"]) = false /\
  Validators.isValidPriceLevel (Arr [Str "0"; Str "1"]) = false /\
  Validators.isValidPriceLevel (Arr [Num (int 50000); Num (int 1)]) = false.
Proof. by_compute. Qed.

Example scenario_sequence :
  let r1 := result (OrderBookManager.updateOrderBook "btcusdt" diff_next mgr100) clock0 in
  r1.1.1 = true /\
  (OrderBook.lastUpdateId <$> OrderBookManager.getOrderBook "btcusdt" r1.1.2) = Some 105 /\
  map fst r1.2 = [1%nat] /\
  map OrderBookManager.ws_id (OrderBookManager.subscribers r1.1.2) = [1%nat] /\
  let later := {| DepthData.e := "depthUpdate"; DepthData.s := "BTCUSDT";
                  DepthData.U := 103; DepthData.u := 104;
                  DepthData.b := []; DepthData.a := [] |} in
  let r2 := result (OrderBookManager.updateOrderBook "btcusdt" later r1.1.2) clock0 in
  r2.1.1 = false /\
  (OrderBook.lastUpdateId <$> OrderBookManager.getOrderBook "btcusdt" r2.1.2) = Some 105.
Proof. by_compute. Qed.

(** * Further properties of the code *)

(** ** Updating a level in place *)

(** [updateBid] and [updateAsk] never add a price: every price of the side
    afterwards was there before, the other side is untouched, a price the
    side does not hold leaves the book and the clock exactly as they were
    (where [addBid] would have stored a level), and a well-formed book stays
    well formed. *)
Theorem update_never_adds (p q : number) (cnt : Z) (ob : OrderBook.t) (c : Clock) :
  let ob1 := result (OrderBook.updateBid p q cnt ob) c in
  let ob2 := result (OrderBook.updateAsk p q cnt ob) c in
  (forall k, is_Some (OrderBook.bids ob1 !! k) -> is_Some (OrderBook.bids ob !! k)) /\
  OrderBook.asks ob1 = OrderBook.asks ob /\
  (forall k, is_Some (OrderBook.asks ob2 !! k) -> is_Some (OrderBook.asks ob !! k)) /\
  OrderBook.bids ob2 = OrderBook.bids ob /\
  (OrderBook.bids ob !! OrderBook.toString p = None ->
     OrderBook.updateBid p q cnt ob c = (ob, c)) /\
  (OrderBook.asks ob !! OrderBook.toString p = None ->
     OrderBook.updateAsk p q cnt ob c = (ob, c)) /\
  (book_ok ob -> book_ok ob1 /\ book_ok ob2).
Proof.
  cbn zeta. unfold result, OrderBook.updateBid, OrderBook.updateAsk, OrderBook.toString.
  split; [|split; [|split; [|split; [|split; [|split]]]]].
  - intros k. destruct (OrderBook.bids ob !! p) as [l|] eqn:E; [|done].
    destruct (q >? int 0)%num; cbn.
    + destruct (decide (k = p)) as [->|Hk]; [by rewrite E|].
      by rewrite lookup_insert_ne.
    + destruct (decide (k = p)) as [->|Hk]; [by rewrite E|].
      by rewrite lookup_delete_ne.
  - destruct (OrderBook.bids ob !! p); [|done]. by destruct (q >? int 0)%num.
  - intros k. destruct (OrderBook.asks ob !! p) as [l|] eqn:E; [|done].
    destruct (q >? int 0)%num; cbn.
    + destruct (decide (k = p)) as [->|Hk]; [by rewrite E|].
      by rewrite lookup_insert_ne.
    + destruct (decide (k = p)) as [->|Hk]; [by rewrite E|].
      by rewrite lookup_delete_ne.
  - destruct (OrderBook.asks ob !! p); [|done]. by destruct (q >? int 0)%num.
  - by intros ->.
  - by intros ->.
  - intros [Hb Ha]. split.
    + destruct (OrderBook.bids ob !! p) as [l|] eqn:E; [|done].
      destruct (Hb p l E) as (Hp & Hnan & _).
      destruct (q >? int 0)%num eqn:Hq; cbn; (split; [|done]).
      * by apply map_Forall_insert_2.
      * by apply map_Forall_delete.
    + destruct (OrderBook.asks ob !! p) as [l|] eqn:E; [|done].
      destruct (Ha p l E) as (Hp & Hnan & _).
      destruct (q >? int 0)%num eqn:Hq; cbn; (split; [done|]).
      * by apply map_Forall_insert_2.
      * by apply map_Forall_delete.
Qed.

(** On a price the side holds, [updateBid] does what [addBid] does, and
    [updateAsk] what [addAsk] does: the same book and the same clock. *)
Theorem update_present_is_add (p q : number) (cnt : Z) (ob : OrderBook.t) (c : Clock) :
  book_ok ob ->
  (is_Some (OrderBook.bids ob !! OrderBook.toString p) ->
     OrderBook.updateBid p q cnt ob c = OrderBook.addBid p q cnt ob c) /\
  (is_Some (OrderBook.asks ob !! OrderBook.toString p) ->
     OrderBook.updateAsk p q cnt ob c = OrderBook.addAsk p q cnt ob c).
Proof.
  intros [Hb Ha]. unfold OrderBook.updateBid, OrderBook.updateAsk, OrderBook.addBid,
    OrderBook.addAsk, OrderBook.toString.
  split; intros [l Hl]; rewrite Hl.
  - destruct (Hb p l Hl) as [Hp _]. destruct (q >? int 0)%num; [|done].
    unfold PriceLevel.update, PriceLevel.new, bind, ret, Date_now. cbn. by rewrite Hp.
  - destruct (Ha p l Hl) as [Hp _]. destruct (q >? int 0)%num; [|done].
    unfold PriceLevel.update, PriceLevel.new, bind, ret, Date_now. cbn. by rewrite Hp.
Qed.

(** The ask at 100 of [book1], set to 7. *)
Lemma update_present_is_add_witness :
  book_ok book1 /\
  OrderBook.updateAsk (int 100) (int 7) 1 book1 clock0
  = OrderBook.addAsk (int 100) (int 7) 1 book1 clock0.
Proof.
  assert (book_ok book1) as H1 by by_compute.
  split; [exact H1|].
  apply (update_present_is_add (int 100) (int 7) 1 book1 clock0 H1).
  by_compute.
Defined.

Lemma sorted_length {A} (cmp : A -> A -> number) (l : list A) :
  length (Array_sort cmp l) = length l.
Proof. by rewrite Array_sort_perm. Qed.

(** A limit that is not positive does not mean "nothing": [0] is falsy, so
    the whole side is returned, and [-k] reaches [slice(0, -k)], which drops
    the last [k] levels. *)
Theorem limit_not_positive (ob : OrderBook.t) (n : Z) :
  n <= 0 ->
  OrderBook.getBids (Some n) ob
  = take (size (OrderBook.bids ob) - Z.to_nat (- n)) (OrderBook.getBids None ob) /\
  OrderBook.getAsks (Some n) ob
  = take (size (OrderBook.asks ob) - Z.to_nat (- n)) (OrderBook.getAsks None ob).
Proof.
  intros Hn. unfold OrderBook.getBids, OrderBook.getAsks, OrderBook.limit_truthy.
  rewrite !map_toJSON.
  destruct (n =? 0) eqn:E.
  - apply Z.eqb_eq in E as ->. cbn [Z.opp Z.to_nat]. rewrite !Nat.sub_0_r.
    rewrite !take_ge; [done|..]; rewrite sorted_length, Map_values_length; lia.
  - apply Z.eqb_neq in E. unfold Array_slice0.
    destruct (0 <=? n) eqn:E'; [apply Z.leb_le in E'; lia|].
    by rewrite !sorted_length, !Map_values_length, !map_toJSON.
Qed.

(** With limit [-1], the three asks of [book1] lose the worst one. *)
Lemma limit_not_positive_witness :
  -1 <= 0 /\
  map pq (OrderBook.getAsks (Some (-1)) book1)
  = [(int 100, int 2); (int 101, int 3)] /\
  OrderBook.getAsks (Some 0) book1 = OrderBook.getAsks None book1.
Proof.
  split; [lia|]. split.
  - rewrite (proj2 (limit_not_positive book1 (-1) ltac:(lia))). vm_compute. reflexivity.
  - vm_compute. reflexivity.
Defined.

(** In [getSnapshot(n)] with [n >= 1] only the two lists are cut to their
    first [n] levels: [totalBids] and [totalAsks] still count the whole
    side, and the spread and the mid price are those of the whole book. *)
Theorem snapshot_limit (ob : OrderBook.t) (n : Z) :
  1 <= n ->
  let s := OrderBook.getSnapshot (Some n) ob in
  let all := OrderBook.getSnapshot None ob in
  length (OrderBook.snap_bids s) = Nat.min (Z.to_nat n) (OrderBook.snap_totalBids s) /\
  length (OrderBook.snap_asks s) = Nat.min (Z.to_nat n) (OrderBook.snap_totalAsks s) /\
  OrderBook.snap_bids s = take (Z.to_nat n) (OrderBook.snap_bids all) /\
  OrderBook.snap_asks s = take (Z.to_nat n) (OrderBook.snap_asks all) /\
  OrderBook.snap_totalBids s = length (OrderBook.snap_bids all) /\
  OrderBook.snap_totalAsks s = length (OrderBook.snap_asks all) /\
  OrderBook.snap_spread s = OrderBook.snap_spread all /\
  OrderBook.snap_midPrice s = OrderBook.snap_midPrice all.
Proof.
  intros Hn. cbn zeta. cbn [OrderBook.getSnapshot OrderBook.snap_bids OrderBook.snap_asks
    OrderBook.snap_totalBids OrderBook.snap_totalAsks OrderBook.snap_spread
    OrderBook.snap_midPrice].
  assert (length (OrderBook.getBids None ob) = size (OrderBook.bids ob)) as Hb.
  { by rewrite getBids_all, sorted_length, Map_values_length. }
  assert (length (OrderBook.getAsks None ob) = size (OrderBook.asks ob)) as Ha.
  { by rewrite getAsks_all, sorted_length, Map_values_length. }
  rewrite (getBids_limit ob n Hn), (getAsks_limit ob n Hn), <- Hb, <- Ha.
  rewrite !take_min by lia. by rewrite !length_take.
Qed.

(** Two of the three bids of [book1]. *)
Lemma snapshot_limit_witness :
  1 <= 2 /\
  length (OrderBook.snap_bids (OrderBook.getSnapshot (Some 2) book1)) = 2%nat /\
  OrderBook.snap_totalBids (OrderBook.getSnapshot (Some 2) book1) = 3%nat.
Proof.
  split; [lia|].
  destruct (snapshot_limit book1 2 ltac:(lia)) as (H1 & _ & _ & _ & H2 & _).
  rewrite H1, H2. vm_compute. done.
Defined.

(** ** The liquidity profile *)

Lemma rungs_length l q c : length (OrderBook.rungs l q c) = length l.
Proof. revert q c. induction l as [|x l IH]; intros q c; cbn; [done|]. by rewrite IH. Qed.

Lemma rungs_lookup l q c i r :
  OrderBook.rungs l q c !! i = Some r ->
  exists x,
    l !! i = Some x /\
    OrderBook.r_price r = PriceLevel.price x /\
    OrderBook.r_quantity r = PriceLevel.quantity x /\
    OrderBook.r_count r = PriceLevel.count x /\
    OrderBook.r_timestamp r = PriceLevel.timestamp x /\
    OrderBook.r_accumulatedQuantity r
    = (q + sum (map PriceLevel.quantity (take (S i) l)))%num /\
    OrderBook.r_accumulatedCost r
    = (c + sum (map (fun x => PriceLevel.quantity x * PriceLevel.price x)%num (take (S i) l)))%num /\
    OrderBook.r_averagePrice r
    = if (OrderBook.r_accumulatedQuantity r >? int 0)%num
      then (OrderBook.r_accumulatedCost r / OrderBook.r_accumulatedQuantity r)%num
      else int 0.
Proof.
  revert q c i. induction l as [|x l IH]; intros q c i Hr; [done|].
  destruct i as [|i].
  - cbn in Hr. injection Hr as <-. cbn [OrderBook.r_price OrderBook.r_quantity
      OrderBook.r_count OrderBook.r_timestamp OrderBook.r_accumulatedQuantity
      OrderBook.r_accumulatedCost OrderBook.r_averagePrice].
    exists x. cbn [firstn map]. rewrite take_0. cbn [map].
    by rewrite !sum_cons, !sum_nil, !num_add_0_r.
  - cbn [OrderBook.rungs] in Hr. cbn zeta in Hr. rewrite lookup_cons in Hr.
    destruct (IH _ _ _ Hr) as (y & Hy & Hp & Hq & Hc & Ht & Hqty & Hcost & Havg).
    exists y. repeat split; try done.
    + rewrite Hqty. cbn [firstn map]. by rewrite sum_cons, num_add_assoc.
    + rewrite Hcost. cbn [firstn map]. by rewrite sum_cons, num_add_assoc.
Qed.

Lemma getBids_prefix lim ob :
  exists k, OrderBook.getBids lim ob = take k (OrderBook.getBids None ob).
Proof.
  unfold OrderBook.getBids.
  destruct (OrderBook.limit_truthy lim) as [n|]; cbn [OrderBook.limit_truthy];
    rewrite !map_toJSON.
  - unfold Array_slice0. destruct (0 <=? n); eexists; reflexivity.
  - exists (length (Array_sort OrderBook.descending (Map_values (OrderBook.bids ob)))).
    by rewrite firstn_all.
Qed.

Lemma getAsks_prefix lim ob :
  exists k, OrderBook.getAsks lim ob = take k (OrderBook.getAsks None ob).
Proof.
  unfold OrderBook.getAsks.
  destruct (OrderBook.limit_truthy lim) as [n|]; cbn [OrderBook.limit_truthy];
    rewrite !map_toJSON.
  - unfold Array_slice0. destruct (0 <=? n); eexists; reflexivity.
  - exists (length (Array_sort OrderBook.ascending (Map_values (OrderBook.asks ob)))).
    by rewrite firstn_all.
Qed.

Section accumulate_prefix.
Context (R : PriceLevel.t -> PriceLevel.t -> Prop) (Q : number -> PriceLevel.t -> bool).
Hypothesis Q_refl : forall x, PriceLevel.price x <> NaN -> Q (PriceLevel.price x) x = true.
Hypothesis Q_earlier : forall x y, R y x -> Q (PriceLevel.price x) y = true.
Hypothesis Q_later : forall x y, R x y -> Q (PriceLevel.price x) y = false.

Lemma accumulate_prefix l i x q c :
  StronglySorted R l ->
  Forall (fun x => PriceLevel.price x <> NaN) l ->
  l !! i = Some x ->
  OrderBook.accumulate (Q (PriceLevel.price x)) l q c
  = ((q + sum (map PriceLevel.quantity (take (S i) l)))%num,
     (c + sum (map (fun x => PriceLevel.quantity x * PriceLevel.price x)%num (take (S i) l)))%num).
Proof.
  intros Hs. revert i q c. induction Hs as [|y l Hs IH Hy]; intros i q c Hn Hi; [done|].
  apply Forall_cons in Hn as [Hny Hn].
  destruct i as [|i].
  - injection Hi as ->. cbn [OrderBook.accumulate]. rewrite Q_refl by done.
    cbn [firstn map]. rewrite take_0. cbn [map]. rewrite !sum_cons, !sum_nil, !num_add_0_r.
    destruct l as [|z l]; [done|]. cbn [OrderBook.accumulate].
    apply Forall_cons in Hy as [Hz _]. by rewrite (Q_later _ _ Hz).
  - cbn [lookup list_lookup] in Hi.
    cbn [OrderBook.accumulate].
    assert (R y x) as Hyx.
    { rewrite Forall_forall in Hy. apply Hy. apply list_elem_of_lookup. by exists i. }
    rewrite (Q_earlier _ _ Hyx), (IH i _ _ Hn Hi).
    cbn [firstn map]. by rewrite !sum_cons, !num_add_assoc.
Qed.

End accumulate_prefix.

Lemma accumulate_prefix_bids l i x :
  StronglySorted price_gt l ->
  Forall (fun x => PriceLevel.price x <> NaN) l ->
  l !! i = Some x ->
  OrderBook.accumulate (fun level => (PriceLevel.price level >=? PriceLevel.price x)%num)
    l (int 0) (int 0)
  = (sum (map PriceLevel.quantity (take (S i) l)),
     sum (map (fun x => PriceLevel.quantity x * PriceLevel.price x)%num (take (S i) l))).
Proof.
  intros Hs Hn Hi.
  pose proof (accumulate_prefix price_gt
                (fun t level => (PriceLevel.price level >=? t)%num)) as H.
  cbn beta in H.
  assert (forall a b', price_gt a b' ->
            (PriceLevel.price b' >=? PriceLevel.price a)%num = false) as Hlater.
  { intros a b' Hab. unfold price_gt in Hab. unfold num_geb.
    destruct (PriceLevel.price a <=? PriceLevel.price b')%num eqn:E; [|done].
    apply num_leb_ltb_false in E. congruence. }
  rewrite (H (fun a Ha => num_leb_refl _ Ha) (fun a b' Hab => num_ltb_leb _ _ Hab)
             Hlater l i x (int 0) (int 0) Hs Hn Hi).
  by rewrite !num_add_0_l.
Qed.

Lemma accumulate_prefix_asks l i x :
  StronglySorted price_lt l ->
  Forall (fun x => PriceLevel.price x <> NaN) l ->
  l !! i = Some x ->
  OrderBook.accumulate (fun level => (PriceLevel.price level <=? PriceLevel.price x)%num)
    l (int 0) (int 0)
  = (sum (map PriceLevel.quantity (take (S i) l)),
     sum (map (fun x => PriceLevel.quantity x * PriceLevel.price x)%num (take (S i) l))).
Proof.
  intros Hs Hn Hi.
  pose proof (accumulate_prefix price_lt
                (fun t level => (PriceLevel.price level <=? t)%num)) as H.
  cbn beta in H.
  assert (forall a b', price_lt a b' ->
            (PriceLevel.price b' <=? PriceLevel.price a)%num = false) as Hlater.
  { intros a b' Hab. unfold price_lt in Hab.
    destruct (PriceLevel.price b' <=? PriceLevel.price a)%num eqn:E; [|done].
    apply num_leb_ltb_false in E. congruence. }
  rewrite (H (fun a Ha => num_leb_refl _ Ha) (fun a b' Hab => num_ltb_leb _ _ Hab)
             Hlater l i x (int 0) (int 0) Hs Hn Hi).
  by rewrite !num_add_0_l.
Qed.


(** The two depth queries agree: in a well-formed book, the running totals
    of a rung of the liquidity profile are what
    [getAccumulatedQuantityToPrice] computes for that side at the price of
    the rung. *)
Theorem liquidity_profile_agrees_with_accumulated (ob : OrderBook.t) (levels : option Z)
    (c : Clock) (r : OrderBook.Rung) :
  book_ok ob ->
  let p := result (OrderBook.getLiquidityProfile levels ob) c in
  let acc := OrderBook.getAccumulatedQuantityToPrice (OrderBook.r_price r) None ob in
  let totals := {| OrderBook.acc_quantity := OrderBook.r_accumulatedQuantity r;
                   OrderBook.acc_cost := OrderBook.r_accumulatedCost r;
                   OrderBook.acc_averagePrice := OrderBook.r_averagePrice r |} in
  (r ∈ OrderBook.lp_bids p -> OrderBook.acc_bids acc = totals) /\
  (r ∈ OrderBook.lp_asks p -> OrderBook.acc_asks acc = totals).
Proof.
  intros [Hb Ha]. cbn zeta.
  unfold OrderBook.getLiquidityProfile, result, bind, ret, Date_now.
  cbn [fst snd OrderBook.lp_bids OrderBook.lp_asks].
  unfold OrderBook.getAccumulatedQuantityToPrice.
  change (default "both"%string None) with "both"%string.
  cbn [String.eqb Ascii.eqb Bool.eqb orb].
  split; intros Hr; apply list_elem_of_lookup in Hr as [i Hr];
    destruct (rungs_lookup _ _ _ _ _ Hr) as (x & Hx & Hp & _ & _ & _ & Hq & Hc & Havg);
    rewrite num_add_0_l in Hq, Hc.
  - destruct (getBids_prefix (Some (default 10 levels)) ob) as [k Hk].
    rewrite Hk, getBids_all in Hx, Hq, Hc.
    assert (i < k)%nat as Hik.
    { apply lookup_lt_Some in Hx. rewrite length_take in Hx. lia. }
    rewrite lookup_take_lt in Hx by done.
    rewrite take_take, Nat.min_l in Hq, Hc by lia.
    destruct (side_ok_values _ Hb) as [Hn _].
    rewrite Hp, (accumulate_prefix_bids _ i x (sorted_bids_strict _ Hb)); [| |done].
    + destruct (OrderBook.accumulate _ _ _ _). cbn [OrderBook.acc_bids].
      unfold OrderBook.mkAccSide. by rewrite Havg, Hq, Hc.
    + by rewrite Array_sort_perm.
  - destruct (getAsks_prefix (Some (default 10 levels)) ob) as [k Hk].
    rewrite Hk, getAsks_all in Hx, Hq, Hc.
    assert (i < k)%nat as Hik.
    { apply lookup_lt_Some in Hx. rewrite length_take in Hx. lia. }
    rewrite lookup_take_lt in Hx by done.
    rewrite take_take, Nat.min_l in Hq, Hc by lia.
    destruct (side_ok_values _ Ha) as [Hn _].
    rewrite Hp, (accumulate_prefix_asks _ i x (sorted_asks_strict _ Ha)); [| |done].
    + destruct (OrderBook.accumulate _ _ _ _). cbn [OrderBook.acc_asks].
      unfold OrderBook.mkAccSide. by rewrite Havg, Hq, Hc.
    + by rewrite Array_sort_perm.
Qed.

(** The second ask rung of [book1]: 2 + 3 up to the price 101. *)
Lemma liquidity_profile_agrees_with_accumulated_witness :
  book_ok book1 /\
  exists r,
    OrderBook.lp_asks (result (OrderBook.getLiquidityProfile (Some 2) book1) clock0) !! 1%nat
    = Some r /\
    OrderBook.r_price r = int 101 /\
    OrderBook.r_accumulatedQuantity r = int 5 /\
    OrderBook.acc_quantity
      (OrderBook.acc_asks (OrderBook.getAccumulatedQuantityToPrice (int 101) None book1))
    = int 5.
Proof.
  assert (book_ok book1) as H1 by by_compute.
  split; [exact H1|].
  destruct (OrderBook.lp_asks (result (OrderBook.getLiquidityProfile (Some 2) book1) clock0)
              !! 1%nat) as [r|] eqn:E; [|by vm_compute in E].
  exists r. split; [done|].
  assert (OrderBook.r_price r = int 101) as Hp.
  { vm_compute in E. injection E as <-. vm_compute. reflexivity. }
  assert (OrderBook.r_accumulatedQuantity r = int 5) as Hq.
  { vm_compute in E. injection E as <-. vm_compute. reflexivity. }
  split; [exact Hp|]. split; [exact Hq|].
  destruct (liquidity_profile_agrees_with_accumulated book1 (Some 2) clock0 r H1) as [_ Hasks].
  rewrite <- Hp, Hasks; [exact Hq|].
  apply list_elem_of_lookup. by exists 1%nat.
Defined.

(** ** The side selector of the accumulated quantity *)

(** The side selector of [getAccumulatedQuantityToPrice]: the default is
    ['both']; ['bids'] gives the bid side of ['both'], zeroes for the asks,
    and the bid side again as the total; ['asks'] likewise. *)
Theorem accumulated_selector (ob : OrderBook.t) (target : number) :
  let acc sd := OrderBook.getAccumulatedQuantityToPrice target sd ob in
  let zero := {| OrderBook.acc_quantity := int 0; OrderBook.acc_cost := int 0;
                 OrderBook.acc_averagePrice := int 0 |} in
  acc None = acc (Some "both"%string) /\
  OrderBook.acc_bids (acc (Some "bids"%string)) = OrderBook.acc_bids (acc None) /\
  OrderBook.acc_asks (acc (Some "bids"%string)) = zero /\
  OrderBook.acc_total (acc (Some "bids"%string)) = OrderBook.acc_bids (acc None) /\
  OrderBook.acc_asks (acc (Some "asks"%string)) = OrderBook.acc_asks (acc None) /\
  OrderBook.acc_bids (acc (Some "asks"%string)) = zero /\
  OrderBook.acc_total (acc (Some "asks"%string)) = OrderBook.acc_asks (acc None).
Proof.
  cbn zeta. unfold OrderBook.getAccumulatedQuantityToPrice.
  change (default "both"%string None) with "both"%string.
  change (default "both"%string (Some ?s)) with s.
  cbn [String.eqb Ascii.eqb Bool.eqb orb].
  destruct (OrderBook.accumulate _ (Array_sort OrderBook.descending _) _ _) as [bq bc].
  destruct (OrderBook.accumulate _ (Array_sort OrderBook.ascending _) _ _) as [aq ac].
  cbn [OrderBook.acc_bids OrderBook.acc_asks OrderBook.acc_total].
  rewrite !num_add_0_l, !num_add_0_r.
  repeat split; unfold OrderBook.mkAccSide; by rewrite zero_not_positive.
Qed.

(** Any other selector is not an error: both loops are skipped, and the
    result holds the target price and zeroes. *)
Theorem accumulated_unknown_selector (ob : OrderBook.t) (target : number) (sd : string) :
  sd <> "both"%string -> sd <> "bids"%string -> sd <> "asks"%string ->
  let zero := {| OrderBook.acc_quantity := int 0; OrderBook.acc_cost := int 0;
                 OrderBook.acc_averagePrice := int 0 |} in
  OrderBook.getAccumulatedQuantityToPrice target (Some sd) ob
  = {| OrderBook.acc_targetPrice := target; OrderBook.acc_bids := zero;
       OrderBook.acc_asks := zero; OrderBook.acc_total := zero |}.
Proof.
  intros H1 H2 H3. cbn zeta. unfold OrderBook.getAccumulatedQuantityToPrice.
  change (default "both"%string (Some sd)) with sd.
  apply String.eqb_neq in H1, H2, H3. rewrite H1, H2, H3. cbn [orb].
  unfold OrderBook.mkAccSide. by rewrite num_add_0_l, zero_not_positive.
Qed.

(** The selector ['bid']. *)
Lemma accumulated_unknown_selector_witness :
  "bid"%string <> "both"%string /\ "bid"%string <> "bids"%string /\
  "bid"%string <> "asks"%string /\
  OrderBook.acc_quantity
    (OrderBook.acc_bids (OrderBook.getAccumulatedQuantityToPrice (int 98) (Some "bid"%string) book1))
  = int 0.
Proof.
  assert ("bid"%string <> "both"%string) as H1 by discriminate.
  assert ("bid"%string <> "bids"%string) as H2 by discriminate.
  assert ("bid"%string <> "asks"%string) as H3 by discriminate.
  split; [exact H1|]. split; [exact H2|]. split; [exact H3|].
  by rewrite (accumulated_unknown_selector book1 (int 98) "bid" H1 H2 H3).
Defined.

(** ** Market impact: what an order takes from a side *)

Lemma remaining_after r q :
  finite r -> (r <=? int 0)%num = false -> (q >? int 0)%num = true ->
  let r' := (r - Math_min r q)%num in
  finite r' /\ (int 0 <=? r')%num = true /\ (r' <=? r)%num = true /\
  (Math_min r q = q \/ r' = int 0).
Proof.
  change (int 0) with (Fin 0%Qc).
  destruct r as [| | |x]; try done. intros _ Hr Hq. cbn zeta.
  cbn in Hr. rewrite bool_decide_eq_false in Hr. apply Qcnot_le_lt in Hr.
  destruct q as [| | |y]; try done.
  - cbn. replace (x + - x)%Qc with 0%Qc by ring.
    split; [done|]. split; [done|]. split; [|by right].
    apply bool_decide_eq_true_2. by apply Qclt_le_weak.
  - unfold num_gtb in Hq. cbn in Hq. rewrite bool_decide_eq_true in Hq.
    unfold Math_min, num_leb. destruct (bool_decide (x <= y)%Qc) eqn:E.
    + cbn. replace (x + - x)%Qc with 0%Qc by ring.
      split; [done|]. split; [done|]. split; [|by right].
      apply bool_decide_eq_true_2. by apply Qclt_le_weak.
    + apply bool_decide_eq_false in E. apply Qcnot_le_lt in E. cbn.
      split; [done|]. split; [|split; [|by left]].
      * apply bool_decide_eq_true_2. apply Qclt_le_weak.
        by apply (Qclt_minus_iff y x).
      * apply bool_decide_eq_true_2.
        apply Qcle_minus_iff. replace (x + - (x + - y))%Qc with y by ring.
        by apply Qclt_le_weak.
Qed.

Lemma consume_takes levels st :
  finite (OrderBook.w_remainingSize st) ->
  (int 0 <=? OrderBook.w_remainingSize st)%num = true ->
  Forall (fun l => (PriceLevel.quantity l >? int 0)%num = true) levels ->
  let final := OrderBook.consume levels st in
  exists cs,
    OrderBook.w_levelsConsumed final = OrderBook.w_levelsConsumed st ++ cs /\
    (int 0 <=? OrderBook.w_remainingSize final)%num = true /\
    (OrderBook.w_remainingSize final <=? OrderBook.w_remainingSize st)%num = true /\
    map OrderBook.c_price cs = take (length cs) (map PriceLevel.price levels) /\
    ((OrderBook.w_remainingSize final === int 0)%num = false ->
     map OrderBook.c_quantity cs = map PriceLevel.quantity levels).
Proof.
  intros Hfin Hpos Hq. revert st Hfin Hpos. cbn zeta.
  induction Hq as [|level levels Hl Hq IH]; intros st Hfin Hpos.
  - exists []. cbn [OrderBook.consume]. rewrite app_nil_r.
    split; [done|]. split; [done|]. split; [|done].
    apply num_leb_refl. by destruct (OrderBook.w_remainingSize st).
  - cbn [OrderBook.consume].
    destruct (OrderBook.w_remainingSize st <=? int 0)%num eqn:E.
    + exists []. rewrite app_nil_r. split; [done|]. split; [done|].
      split; [apply num_leb_refl; by destruct (OrderBook.w_remainingSize st)|].
      split; [done|]. intros Hne.
      assert (OrderBook.w_remainingSize st = int 0) as H0 by by apply num_leb_antisym.
      rewrite H0 in Hne. by vm_compute in Hne.
    + destruct (remaining_after _ _ Hfin E Hl) as (Hf' & Hp' & Hle & Hwhole).
      match goal with |- context [OrderBook.consume levels ?s] => specialize (IH s) end.
      cbn [OrderBook.w_remainingSize OrderBook.w_levelsConsumed] in IH.
      destruct (IH Hf' Hp') as (cs & H1 & H2 & H3 & H4 & H5).
      eexists (_ :: cs). split; [rewrite H1, <- app_assoc; reflexivity|].
      split; [done|]. split; [by eapply num_leb_trans|].
      split; [cbn [map length firstn OrderBook.c_price]; by rewrite H4|].
      intros Hne. cbn [map OrderBook.c_quantity]. rewrite (H5 Hne). f_equal.
      destruct Hwhole as [Hw|Hzero]; [done|]. exfalso.
      revert H2 H3 Hne.
      match goal with |- context [OrderBook.w_remainingSize (OrderBook.consume levels ?s)] =>
        generalize (OrderBook.w_remainingSize (OrderBook.consume levels s)) end.
      intros left H2 H3 Hne. rewrite Hzero in H3.
      assert (left = int 0) as H0 by by apply num_leb_antisym.
      rewrite H0 in Hne. by vm_compute in Hne.
Qed.

(** In a well-formed book, for an order of finite size [> 0]: what remains
    is never negative and never more than the size; the prices of the levels
    consumed are a prefix of the prices of the side in its order (asks for
    ['buy'], bids for any other side); and an order that cannot be filled has
    taken every level of the side whole. *)
Theorem unfilled_order_takes_every_level (ob : OrderBook.t) (size : number) (sd : string) :
  book_ok ob -> finite size -> (size >? int 0)%num = true ->
  exists r,
    OrderBook.getMarketImpact size (Some sd) ob = Some r /\
    let levels := if String.eqb sd "buy" then OrderBook.getAsks None ob
                  else OrderBook.getBids None ob in
    (int 0 <=? OrderBook.remainingSize r)%num = true /\
    (OrderBook.remainingSize r <=? size)%num = true /\
    map OrderBook.c_price (OrderBook.levelsConsumed r)
    = take (length (OrderBook.levelsConsumed r)) (map PriceLevel.price levels) /\
    (OrderBook.canFill r = false ->
     map OrderBook.c_quantity (OrderBook.levelsConsumed r) = map PriceLevel.quantity levels).
Proof.
  intros [Hb Ha] Hfin Hpos. unfold OrderBook.getMarketImpact.
  change (default "buy"%string (Some sd)) with sd.
  assert ((size <=? int 0)%num = false) as ->.
  { unfold num_gtb in Hpos. destruct (size <=? int 0)%num eqn:E; [|done].
    apply num_leb_ltb_false in E. congruence. }
  eexists. split; [reflexivity|].
  cbn [OrderBook.canFill OrderBook.remainingSize OrderBook.levelsConsumed]. fold (start size).
  assert ((int 0 <=? OrderBook.w_remainingSize (start size))%num = true) as H0.
  { by apply num_ltb_leb. }
  rewrite getAsks_all, getBids_all.
  destruct (String.eqb sd "buy").
  - destruct (consume_takes (Array_sort OrderBook.ascending (Map_values (OrderBook.asks ob)))
                (start size) Hfin H0) as (cs & H1 & H2 & H3 & H4 & H5).
    { rewrite Array_sort_perm. by apply side_ok_quantities. }
    cbn [start OrderBook.w_levelsConsumed app] in H1. by rewrite H1.
  - destruct (consume_takes (Array_sort OrderBook.descending (Map_values (OrderBook.bids ob)))
                (start size) Hfin H0) as (cs & H1 & H2 & H3 & H4 & H5).
    { rewrite Array_sort_perm. by apply side_ok_quantities. }
    cbn [start OrderBook.w_levelsConsumed app] in H1. by rewrite H1.
Qed.

(** A buy of 16 takes the 2, 3 and 10 on the ask side of [book1]. *)
Lemma unfilled_order_takes_every_level_witness :
  book_ok book1 /\ finite (int 16) /\ (int 16 >? int 0)%num = true /\
  exists r,
    OrderBook.getMarketImpact (int 16) (Some "buy"%string) book1 = Some r /\
    OrderBook.canFill r = false /\
    map OrderBook.c_quantity (OrderBook.levelsConsumed r) = [int 2; int 3; int 10].
Proof.
  assert (book_ok book1) as H1 by by_compute.
  assert ((int 16 >? int 0)%num = true) as H2 by (vm_compute; reflexivity).
  split; [exact H1|]. split; [exact I|]. split; [exact H2|].
  destruct (unfilled_order_takes_every_level book1 (int 16) "buy" H1 I H2)
    as (r & Hr & _ & _ & _ & Hwhole).
  exists r. split; [exact Hr|].
  assert (OrderBook.canFill r = false) as Hc.
  { clear -Hr. vm_compute in Hr. by injection Hr as <-. }
  split; [exact Hc|]. rewrite (Hwhole Hc). vm_compute. reflexivity.
Defined.

(** Against an empty side nothing is consumed: the whole size remains, the
    cost and the final price are [0], the average price is [0 / 0 = NaN],
    and the slippage, [NaN] as well, becomes [0] through [|| 0]. *)
Theorem market_impact_empty_side (ob : OrderBook.t) (size : number) (sd : string) :
  (size >? int 0)%num = true ->
  (if String.eqb sd "buy" then OrderBook.asks ob else OrderBook.bids ob) = ∅ ->
  OrderBook.getMarketImpact size (Some sd) ob
  = Some {| OrderBook.orderSize := size;
            OrderBook.side := sd;
            OrderBook.totalCost := int 0;
            OrderBook.averagePrice := NaN;
            OrderBook.finalPrice := int 0;
            OrderBook.remainingSize := size;
            OrderBook.filledSize := (size - size)%num;
            OrderBook.levelsConsumed := [];
            OrderBook.slippage := int 0;
            OrderBook.canFill := false |}.
Proof.
  intros Hpos Hempty. unfold OrderBook.getMarketImpact.
  change (default "buy"%string (Some sd)) with sd.
  assert ((size <=? int 0)%num = false) as ->.
  { unfold num_gtb in Hpos. destruct (size <=? int 0)%num eqn:E; [|done].
    apply num_leb_ltb_false in E. congruence. }
  assert ((int 0 / (size - size))%num = NaN) as Havg.
  { destruct size as [| | |x]; try done. cbn.
    replace (x + - x)%Qc with 0%Qc by ring. reflexivity. }
  assert ((size === int 0)%num = false) as Hne.
  { destruct size as [| | |x]; try done. cbn. apply bool_decide_eq_false.
    intros [= ->]. by vm_compute in Hpos. }
  unfold OrderBook.getAsks, OrderBook.getBids.
  assert (forall cmp, Array_sort cmp (Map_values (∅ : gmap number PriceLevel.t)) = []) as Hnil.
  { intros cmp. by apply Array_sort_nil, Map_values_nil. }
  destruct (String.eqb sd "buy"); rewrite Hempty, !Hnil;
    cbn [OrderBook.consume OrderBook.w_remainingSize OrderBook.w_totalCost
         OrderBook.w_levelsConsumed OrderBook.w_finalPrice];
    rewrite Havg, Hne; reflexivity.
Qed.

(** A buy of 3 in a fresh book. *)
Lemma market_impact_empty_side_witness :
  (int 3 >? int 0)%num = true /\
  (if String.eqb "buy" "buy" then OrderBook.asks (result (OrderBook.new "btcusdt") clock0)
   else OrderBook.bids (result (OrderBook.new "btcusdt") clock0)) = ∅ /\
  OrderBook.averagePrice
  <$> OrderBook.getMarketImpact (int 3) (Some "buy"%string) (result (OrderBook.new "btcusdt") clock0)
  = Some NaN.
Proof.
  assert ((int 3 >? int 0)%num = true) as H1 by (vm_compute; reflexivity).
  assert ((if String.eqb "buy" "buy" then OrderBook.asks (result (OrderBook.new "btcusdt") clock0)
           else OrderBook.bids (result (OrderBook.new "btcusdt") clock0)) = ∅) as H2
    by reflexivity.
  split; [exact H1|]. split; [exact H2|].
  by rewrite (market_impact_empty_side (result (OrderBook.new "btcusdt") clock0)
                (int 3) "buy" H1 H2).
Defined.

(** ** What a broadcast does to the subscribers *)

Lemma filter_all {A} (P : A -> Prop) `{forall x, Decision (P x)} (l : list A) :
  Forall P l -> filter P l = l.
Proof.
  induction 1 as [|x l Hx _ IH]; [done|]. by rewrite filter_cons_True, IH.
Qed.

Lemma send_to_step message ws this sent c :
  OrderBookManager.send_to message ws (this, sent) c
  = (if live ws then (this, sent ++ [(OrderBookManager.ws_id ws, message)])
     else (OrderBookManager.removeSubscriber ws this, sent), c).
Proof.
  unfold OrderBookManager.send_to, live.
  destruct (OrderBookManager.readyState ws =? OrderBookManager.OPEN);
    [destruct (OrderBookManager.send_throws ws)|]; done.
Qed.

Lemma broadcast_loop message subs this sent c :
  for_of subs (OrderBookManager.send_to message) (this, sent) c
  = ({| OrderBookManager.orderbooks := OrderBookManager.orderbooks this;
        OrderBookManager.subscribers :=
          filter (fun w => OrderBookManager.ws_id w
                           ∉ map OrderBookManager.ws_id (filter (fun w => live w = false) subs))
            (OrderBookManager.subscribers this) |},
     sent ++ map (fun w => (OrderBookManager.ws_id w, message))
                 (filter (fun w => live w = true) subs),
     c).
Proof.
  revert this sent. induction subs as [|ws subs IH]; intros this sent.
  - cbn. rewrite app_nil_r. unfold ret. do 2 f_equal. destruct this as [obs ss]. cbn. f_equal.
    symmetry. apply filter_all, Forall_forall. intros w _. apply not_elem_of_nil.
  - cbn [for_of]. unfold bind. rewrite send_to_step, !filter_cons.
    destruct (live ws) eqn:E.
    + rewrite IH. repeat case_decide; try done.
      cbn [map]. by rewrite <- app_assoc.
    + rewrite IH. repeat case_decide; try done.
      cbn [map OrderBookManager.removeSubscriber OrderBookManager.orderbooks
           OrderBookManager.subscribers].
      do 3 f_equal. rewrite list_filter_filter. apply list_filter_iff.
      intros w. rewrite not_elem_of_cons. tauto.
Qed.

Lemma filter_ext_in {A} (P Q : A -> Prop) `{forall x, Decision (P x)}
    `{forall x, Decision (Q x)} (l : list A) :
  (forall x, x ∈ l -> P x <-> Q x) -> filter P l = filter Q l.
Proof.
  induction l as [|x l IH]; intros HPQ; [done|].
  rewrite !filter_cons.
  rewrite IH by (intros y Hy; apply HPQ; by right).
  destruct (decide (P x)) as [HP|HP], (decide (Q x)) as [HQ|HQ]; try done.
  - destruct HQ. apply HPQ; [left|done].
  - destruct HP. apply HPQ; [left|done].
Qed.

Lemma NoDup_fmap_inj_on {A B} (f : A -> B) (l : list A) x y :
  NoDup (map f l) -> x ∈ l -> y ∈ l -> f x = f y -> x = y.
Proof.
  induction l as [|z l IH]; intros Hnd Hx Hy Hf; [by apply elem_of_nil in Hx|].
  cbn [map] in Hnd. apply NoDup_cons in Hnd as [Hz Hnd].
  apply elem_of_cons in Hx as [->|Hx], Hy as [->|Hy]; try done.
  - destruct Hz. rewrite Hf. by apply (list_elem_of_fmap_2 f).
  - destruct Hz. rewrite <- Hf. by apply (list_elem_of_fmap_2 f).
  - by apply IH.
Qed.

Lemma live_filter subs :
  NoDup (map OrderBookManager.ws_id subs) ->
  filter (fun w => OrderBookManager.ws_id w
                   ∉ map OrderBookManager.ws_id (filter (fun w => live w = false) subs)) subs
  = filter (fun w => live w = true) subs.
Proof.
  intros Hnd. apply filter_ext_in. intros w Hw. split.
  - intros Hid. destruct (live w) eqn:E; [done|]. destruct Hid.
    apply (list_elem_of_fmap_2 OrderBookManager.ws_id). by apply list_elem_of_filter.
  - intros Hlive Hid. apply list_elem_of_fmap in Hid as (w' & Hid & Hw').
    apply list_elem_of_filter in Hw' as [Hdead Hw'].
    assert (w = w') as <- by by eapply NoDup_fmap_inj_on.
    congruence.
Qed.

(** [broadcastUpdate] sends one message, stamped with one reading of the
    clock, to the subscribers whose socket is open and does not throw, in
    their order; the others are no longer subscribed afterwards; the books
    are untouched. *)
Theorem broadcast_reaches_live_subscribers (symbol : string)
    (snapshot : OrderBook.Snapshot) (this : OrderBookManager.t) (c : Clock) :
  NoDup (map OrderBookManager.ws_id (OrderBookManager.subscribers this)) ->
  let r := result (OrderBookManager.broadcastUpdate symbol snapshot this) c in
  let message := {| OrderBookManager.msg_type := "orderbook_update";
                    OrderBookManager.msg_symbol := symbol;
                    OrderBookManager.msg_data := snapshot;
                    OrderBookManager.msg_timestamp := readings c (reads c) |} in
  r.2 = map (fun w => (OrderBookManager.ws_id w, message))
            (filter (fun w => live w = true) (OrderBookManager.subscribers this)) /\
  OrderBookManager.subscribers r.1
  = filter (fun w => live w = true) (OrderBookManager.subscribers this) /\
  OrderBookManager.orderbooks r.1 = OrderBookManager.orderbooks this /\
  reads (clock_after (OrderBookManager.broadcastUpdate symbol snapshot this) c) = S (reads c).
Proof.
  intros Hnd. cbn zeta.
  unfold OrderBookManager.broadcastUpdate, result, clock_after, bind, Date_now.
  rewrite broadcast_loop. cbn [fst snd OrderBookManager.subscribers
    OrderBookManager.orderbooks reads app].
  by rewrite live_filter.
Qed.

(** ** What [updateOrderBook] and [setSnapshot] leave behind *)

Lemma apply_update_outcome symbol d ob0 mgr c :
  exists ob' now,
    result (OrderBookManager.apply_update symbol d ob0 mgr) c
    = (true,
       {| OrderBookManager.orderbooks := <[symbol := ob']> (OrderBookManager.orderbooks mgr);
          OrderBookManager.subscribers := pruned (OrderBookManager.subscribers mgr) |},
       map (fun w => (OrderBookManager.ws_id w,
                      {| OrderBookManager.msg_type := "orderbook_update";
                         OrderBookManager.msg_symbol := symbol;
                         OrderBookManager.msg_data := OrderBook.getSnapshot None ob';
                         OrderBookManager.msg_timestamp := now |}))
           (filter (fun w => live w = true) (OrderBookManager.subscribers mgr))) /\
    applied d ob0 ob' /\
    OrderBook.symbol ob' = OrderBook.symbol ob0.
Proof.
  unfold OrderBookManager.apply_update.
  repeat (rewrite result_bind; cbn beta). rewrite result_ret.
  set (c1 := clock_after (OrderBookManager.apply_bids (DepthData.b d) ob0) c).
  set (ob1 := result (OrderBookManager.apply_bids (DepthData.b d) ob0) c).
  set (c2 := clock_after (OrderBookManager.apply_asks (DepthData.a d) ob1) c1).
  set (ob2 := result (OrderBookManager.apply_asks (DepthData.a d) ob1) c1).
  set (c3 := clock_after (OrderBook.updateLastUpdateId (DepthData.u d) ob2) c2).
  set (ob3 := result (OrderBook.updateLastUpdateId (DepthData.u d) ob2) c2).
  exists ob3, (readings c3 (reads c3)). split; [|split].
  - unfold OrderBookManager.broadcastUpdate, result, bind, Date_now.
    rewrite broadcast_loop. reflexivity.
  - destruct (apply_bids_spec (DepthData.b d) ob0 c) as (Hb1 & Ha1 & _).
    destruct (apply_asks_spec (DepthData.a d) ob1 c1) as (Ha2 & Hb2 & _).
    fold ob1 in Hb1, Ha1. fold ob2 in Ha2, Hb2.
    unfold applied. subst ob3. cbn. rewrite Hb2. rewrite <- Ha1. done.
  - destruct (apply_bids_spec (DepthData.b d) ob0 c) as (_ & _ & _ & _ & Hs1).
    destruct (apply_asks_spec (DepthData.a d) ob1 c1) as (_ & _ & _ & _ & Hs2).
    fold ob1 in Hs1. fold ob2 in Hs2. subst ob3. cbn. congruence.
Qed.

Lemma lookup_or_create symbol mgr c :
  result (match OrderBookManager.getOrderBook symbol mgr with
          | Some orderbook => ret (orderbook, mgr)
          | None => OrderBookManager.createOrderBook symbol mgr
          end) c
  = (book_before symbol mgr c,
     match OrderBookManager.getOrderBook symbol mgr with
     | Some _ => mgr
     | None => OrderBookManager.store symbol (book_before symbol mgr c) mgr
     end).
Proof.
  unfold book_before. destruct (OrderBookManager.getOrderBook symbol mgr); reflexivity.
Qed.

Lemma store_store symbol ob ob' mgr :
  <[symbol := ob']> (OrderBookManager.orderbooks (OrderBookManager.store symbol ob mgr))
  = <[symbol := ob']> (OrderBookManager.orderbooks mgr).
Proof. cbn. apply insert_insert_eq. Qed.

Lemma updateOrderBook_outcome symbol d mgr c :
  let r := result (OrderBookManager.updateOrderBook symbol d mgr) c in
  let ob0 := book_before symbol mgr c in
  (r = (false, mgr, []) /\
   OrderBookManager.getOrderBook symbol mgr = Some ob0 /\
   OrderBook.lastUpdateId ob0 <> 0 /\
   DepthData.U d - OrderBook.lastUpdateId ob0 <= 1000 /\
   ~ (DepthData.U d <= round_int (OrderBook.lastUpdateId ob0 + 1) /\
      DepthData.u d >= round_int (OrderBook.lastUpdateId ob0 + 1))) \/
  (exists ob' now,
     r = (true,
          {| OrderBookManager.orderbooks := <[symbol := ob']> (OrderBookManager.orderbooks mgr);
             OrderBookManager.subscribers := pruned (OrderBookManager.subscribers mgr) |},
          map (fun w => (OrderBookManager.ws_id w,
                         {| OrderBookManager.msg_type := "orderbook_update";
                            OrderBookManager.msg_symbol := symbol;
                            OrderBookManager.msg_data := OrderBook.getSnapshot None ob';
                            OrderBookManager.msg_timestamp := now |}))
              (filter (fun w => live w = true) (OrderBookManager.subscribers mgr))) /\
     applied d ob0 ob' /\
     OrderBook.symbol ob' = OrderBook.symbol ob0 /\
     (OrderBook.lastUpdateId ob0 = 0 \/
      DepthData.U d - OrderBook.lastUpdateId ob0 > 1000 \/
      (DepthData.U d <= round_int (OrderBook.lastUpdateId ob0 + 1) /\
       DepthData.u d >= round_int (OrderBook.lastUpdateId ob0 + 1)))).
Proof.
  cbn zeta. unfold OrderBookManager.updateOrderBook.
  rewrite result_bind, lookup_or_create. cbn beta iota.
  set (ob0 := book_before symbol mgr c).
  set (mgr0 := match OrderBookManager.getOrderBook symbol mgr with
               | Some _ => mgr | None => OrderBookManager.store symbol ob0 mgr end).
  set (c0 := clock_after _ c).
  assert (<[symbol := ob0]> (OrderBookManager.orderbooks mgr0)
          = <[symbol := ob0]> (OrderBookManager.orderbooks mgr)
          /\ OrderBookManager.subscribers mgr0 = OrderBookManager.subscribers mgr
          /\ forall ob', <[symbol := ob']> (OrderBookManager.orderbooks mgr0)
                         = <[symbol := ob']> (OrderBookManager.orderbooks mgr))
    as (_ & Hsubs & Hstore).
  { subst mgr0. destruct (OrderBookManager.getOrderBook symbol mgr); [done|].
    split; [apply store_store|]. split; [done|]. intros. apply store_store. }
  assert (forall ob1 c1, OrderBook.symbol ob1 = OrderBook.symbol ob0 ->
            OrderBook.bids ob1 = OrderBook.bids ob0 ->
            OrderBook.asks ob1 = OrderBook.asks ob0 ->
            exists ob' now,
              result (OrderBookManager.apply_update symbol d ob1 mgr0) c1
              = (true,
                 {| OrderBookManager.orderbooks :=
                      <[symbol := ob']> (OrderBookManager.orderbooks mgr);
                    OrderBookManager.subscribers :=
                      pruned (OrderBookManager.subscribers mgr) |},
                 map (fun w => (OrderBookManager.ws_id w,
                                {| OrderBookManager.msg_type := "orderbook_update";
                                   OrderBookManager.msg_symbol := symbol;
                                   OrderBookManager.msg_data := OrderBook.getSnapshot None ob';
                                   OrderBookManager.msg_timestamp := now |}))
                     (filter (fun w => live w = true) (OrderBookManager.subscribers mgr))) /\
              applied d ob0 ob' /\
              OrderBook.symbol ob' = OrderBook.symbol ob0) as Happly.
  { intros ob1 c1 Hs1 Hb1 Ha1.
    destruct (apply_update_outcome symbol d ob1 mgr0 c1) as (ob' & now & Hr & Happ & Hsym).
    exists ob', now. rewrite Hr, Hstore, Hsubs. split; [done|]. split; [|congruence].
    unfold applied in *. by rewrite <- Hb1, <- Ha1. }
  cbv zeta. rewrite round_int_gtb.
  destruct (Z.eqb_spec (OrderBook.lastUpdateId ob0) 0) as [E0|E0].
  { right. rewrite result_bind.
    destruct (Happly (result (OrderBook.updateLastUpdateId (DepthData.u d) ob0) c0)
                (clock_after (OrderBook.updateLastUpdateId (DepthData.u d) ob0) c0))
      as (ob' & now & Hr & Happ & Hsym); [done..|].
    exists ob', now. eauto. }
  destruct (Z.gtb_spec (DepthData.U d - OrderBook.lastUpdateId ob0) 1000) as [E1|E1].
  { right. rewrite result_bind.
    destruct (Happly (result (OrderBook.updateLastUpdateId (DepthData.u d) ob0) c0)
                (clock_after (OrderBook.updateLastUpdateId (DepthData.u d) ob0) c0))
      as (ob' & now & Hr & Happ & Hsym); [done..|].
    exists ob', now. split; [done|]. split; [done|]. split; [done|]. right. left. lia. }
  destruct (Validators.validateSequenceNumber _ _ _) eqn:Hseq; cbn [negb].
  - right. destruct (Happly ob0 c0) as (ob' & now & Hr & Happ & Hsym); [done..|].
    exists ob', now. split; [done|]. split; [done|]. split; [done|]. right. right.
    by apply validateSequenceNumber_iff.
  - left. subst mgr0 ob0. unfold book_before in *.
    destruct (OrderBookManager.getOrderBook symbol mgr) as [ob|] eqn:Hget.
    + cbn [default] in *. rewrite result_ret. split; [done|]. split; [done|].
      split; [done|]. split; [lia|]. rewrite <- validateSequenceNumber_iff, Hseq. done.
    + cbn [default] in E0. by destruct E0.
Qed.

Lemma setSnapshot_outcome symbol sd mgr c :
  let r := result (OrderBookManager.setSnapshot symbol sd mgr) c in
  (Validators.isValidSnapshot (SnapshotData.to_value sd) = false /\
   OrderBookManager.setSnapshot symbol sd mgr c = (false, mgr, c)) \/
  (Validators.isValidSnapshot (SnapshotData.to_value sd) = true /\
   exists ob',
     r = (true,
          {| OrderBookManager.orderbooks := <[symbol := ob']> (OrderBookManager.orderbooks mgr);
             OrderBookManager.subscribers := OrderBookManager.subscribers mgr |}) /\
     OrderBook.symbol ob' = OrderBook.symbol (book_before symbol mgr c) /\
     side_after (changes_of (SnapshotData.bids sd)) ∅ (OrderBook.bids ob') /\
     side_after (changes_of (SnapshotData.asks sd)) ∅ (OrderBook.asks ob') /\
     OrderBook.lastUpdateId ob' = SnapshotData.lastUpdateId sd).
Proof.
  cbn zeta. unfold OrderBookManager.setSnapshot.
  destruct (Validators.isValidSnapshot _) eqn:Hvalid; cbn [negb]; [right|left; done].
  split; [done|].
  rewrite result_bind, lookup_or_create. cbn beta iota.
  set (ob0 := book_before symbol mgr c).
  set (mgr0 := match OrderBookManager.getOrderBook symbol mgr with
               | Some _ => mgr | None => OrderBookManager.store symbol ob0 mgr end).
  set (c0 := clock_after _ c).
  assert (OrderBookManager.subscribers mgr0 = OrderBookManager.subscribers mgr
          /\ forall ob', <[symbol := ob']> (OrderBookManager.orderbooks mgr0)
                         = <[symbol := ob']> (OrderBookManager.orderbooks mgr))
    as (Hsubs & Hstore).
  { subst mgr0. destruct (OrderBookManager.getOrderBook symbol mgr); [done|].
    split; [done|]. intros. apply store_store. }
  repeat (rewrite result_bind; cbn beta). rewrite result_ret.
  set (ob1 := result (OrderBook.clear ob0) c0).
  set (c1 := clock_after (OrderBook.clear ob0) c0).
  set (ob2 := result (OrderBookManager.apply_bids (SnapshotData.bids sd) ob1) c1).
  set (c2 := clock_after (OrderBookManager.apply_bids (SnapshotData.bids sd) ob1) c1).
  set (ob3 := result (OrderBookManager.apply_asks (SnapshotData.asks sd) ob2) c2).
  set (c3 := clock_after (OrderBookManager.apply_asks (SnapshotData.asks sd) ob2) c2).
  eexists. split.
  { unfold OrderBookManager.store. rewrite Hstore, Hsubs. reflexivity. }
  destruct (apply_bids_spec (SnapshotData.bids sd) ob1 c1) as (Hb1 & Ha1 & _ & _ & Hs1).
  destruct (apply_asks_spec (SnapshotData.asks sd) ob2 c2) as (Ha2 & Hb2 & _ & _ & Hs2).
  fold ob2 in Hb1, Ha1, Hs1. fold ob3 in Ha2, Hb2, Hs2.
  cbn. rewrite Hb2, Hs2, Hs1. rewrite Ha1 in Ha2. done.
Qed.

(** ** The invariant of the registry *)

Lemma changes_of_positive levels :
  Forall (fun ch => (ch.1 >? int 0)%num = true) (changes_of levels).
Proof.
  unfold changes_of. apply Forall_fmap, Forall_forall. intros level Hl.
  apply list_elem_of_filter in Hl as [Hv _].
  unfold Validators.isValidPriceLevel in Hv. rewrite !andb_true_iff in Hv.
  by destruct Hv as [[_ Hp] _].
Qed.

Lemma side_after_keys_positive changes before after :
  side_after changes before after ->
  Forall (fun ch => (ch.1 >? int 0)%num = true) changes ->
  keys_positive before -> keys_positive after.
Proof.
  intros Hafter Hch Hbefore p l Hl. specialize (Hafter p).
  destruct (last_change changes p) as [q|] eqn:E.
  - apply last_change_elem in E. rewrite Forall_forall in Hch. by apply (Hch _ E).
  - rewrite Hafter in Hl. by apply (Hbefore p l).
Qed.

Lemma book_before_strict symbol mgr c :
  map_Forall book_strict (OrderBookManager.orderbooks mgr) ->
  book_strict symbol (book_before symbol mgr c).
Proof.
  intros Hmgr. unfold book_before, OrderBookManager.getOrderBook.
  destruct (OrderBookManager.orderbooks mgr !! symbol) as [ob|] eqn:E.
  - by apply (Hmgr symbol ob).
  - split; [done|]. split; apply map_Forall_empty.
Qed.

Lemma pruned_NoDup subs :
  NoDup (map OrderBookManager.ws_id subs) ->
  NoDup (map OrderBookManager.ws_id (pruned subs)).
Proof.
  intros Hnd. eapply sublist_NoDup; [exact Hnd|].
  apply fmap_sublist, sublist_filter.
Qed.

Lemma applied_strict d key ob0 ob' :
  applied d ob0 ob' -> OrderBook.symbol ob' = OrderBook.symbol ob0 ->
  book_strict key ob0 -> book_strict key ob'.
Proof.
  intros (Hb & Ha & _) Hsym (Hs & Hkb & Hka).
  split; [congruence|].
  split; eapply side_after_keys_positive; eauto using changes_of_positive.
Qed.

Lemma strict_snapshots mgr key snap :
  manager_strict mgr ->
  OrderBookManager.getAllOrderBooks mgr !! key = Some snap ->
  OrderBook.snap_symbol snap = key /\
  Forall positive_level (OrderBook.snap_bids snap ++ OrderBook.snap_asks snap).
Proof.
  intros (Hok & Hstrict & _) Hsnap. unfold OrderBookManager.getAllOrderBooks in Hsnap.
  rewrite lookup_fmap in Hsnap.
  destruct (OrderBookManager.orderbooks mgr !! key) as [ob|] eqn:E; [|done].
  injection Hsnap as <-. destruct (Hstrict key ob E) as (Hsym & Hkb & Hka).
  destruct (Hok key ob E) as [Hb Ha]. split; [done|].
  cbn [OrderBook.getSnapshot OrderBook.snap_bids OrderBook.snap_asks].
  rewrite getBids_all, getAsks_all. apply Forall_app. split.
  - rewrite Array_sort_perm. apply Forall_forall. intros l Hl.
    apply elem_of_Map_values in Hl as [k Hl].
    destruct (Hb k l Hl) as (Hp & _ & Hq). split; [|done]. rewrite Hp. by apply (Hkb k l).
  - rewrite Array_sort_perm. apply Forall_forall. intros l Hl.
    apply elem_of_Map_values in Hl as [k Hl].
    destruct (Ha k l Hl) as (Hp & _ & Hq). split; [|done]. rewrite Hp. by apply (Hka k l).
Qed.

(** Whatever sequence of [createOrderBook], [updateOrderBook],
    [setSnapshot], [addSubscriber] and [removeSubscriber] built a registry,
    every book is well formed, sits under the key of its own symbol and
    holds positive prices only, and no socket is subscribed twice.  So each
    snapshot of [getAllOrderBooks] carries the symbol it is listed under, and
    every level in it has a positive price and a positive quantity. *)
Theorem reachable_strict (mgr : OrderBookManager.t) :
  reachable mgr ->
  manager_strict mgr /\
  forall key snap,
    OrderBookManager.getAllOrderBooks mgr !! key = Some snap ->
    OrderBook.snap_symbol snap = key /\
    Forall positive_level (OrderBook.snap_bids snap ++ OrderBook.snap_asks snap).
Proof.
  intros Hreach.
  assert (manager_strict mgr) as Hstrict; [|by eauto using strict_snapshots].
  split; [by apply reachable_ok|].
  induction Hreach as [|symbol mgr c _ [IH1 IH2]|symbol d mgr c _ [IH1 IH2]
                       |symbol sd mgr c _ [IH1 IH2]|ws mgr _ [IH1 IH2]|ws mgr _ [IH1 IH2]].
  - split; [apply map_Forall_empty|constructor].
  - split; [|done]. unfold OrderBookManager.createOrderBook.
    rewrite result_bind, result_ret. cbn [snd OrderBookManager.orderbooks].
    apply map_Forall_insert_2; [|done].
    split; [done|]. split; apply map_Forall_empty.
  - destruct (updateOrderBook_outcome symbol d mgr c)
      as [(-> & _)|(ob' & now & -> & Happ & Hsym & _)]; [done|].
    cbn [fst snd OrderBookManager.orderbooks OrderBookManager.subscribers].
    split; [|by apply pruned_NoDup].
    apply map_Forall_insert_2; [|done].
    eapply applied_strict; [done..|]. by apply book_before_strict.
  - destruct (setSnapshot_outcome symbol sd mgr c)
      as [(_ & Hr)|(_ & ob' & -> & Hsym & Hb & Ha & _)].
    + unfold result. by rewrite Hr.
    + cbn [fst snd OrderBookManager.orderbooks OrderBookManager.subscribers].
      split; [|done]. apply map_Forall_insert_2; [|done].
      destruct (book_before_strict symbol mgr c IH1) as (Hs & _).
      split; [congruence|].
      split; eapply side_after_keys_positive; eauto using changes_of_positive;
        apply map_Forall_empty.
  - split; [done|]. cbn [OrderBookManager.addSubscriber OrderBookManager.subscribers].
    case_bool_decide as Hin; [done|].
    rewrite map_app. cbn [map]. apply NoDup_app. split; [done|].
    split; [|apply NoDup_singleton].
    intros n Hn Hn'. apply list_elem_of_singleton in Hn' as ->. done.
  - split; [done|]. cbn [OrderBookManager.removeSubscriber OrderBookManager.subscribers].
    eapply sublist_NoDup; [exact IH2|]. apply fmap_sublist, sublist_filter.
Qed.

(** A diff for a symbol the registry does not hold is never rejected: the
    book is created under that symbol, its id becomes the final id of the
    diff, and its sides hold exactly the prices whose last change in the
    diff has a positive quantity. *)
Theorem update_unknown_symbol (symbol : string) (d : DepthData.t)
    (mgr : OrderBookManager.t) (c : Clock) :
  OrderBookManager.getOrderBook symbol mgr = None ->
  exists mgr' sent ob',
    result (OrderBookManager.updateOrderBook symbol d mgr) c = (true, mgr', sent) /\
    OrderBookManager.getOrderBook symbol mgr' = Some ob' /\
    OrderBook.symbol ob' = symbol /\
    OrderBook.lastUpdateId ob' = DepthData.u d /\
    (forall p, is_Some (OrderBook.bids ob' !! p)
       <-> exists q, last_change (changes_of (DepthData.b d)) p = Some q
                     /\ (q >? int 0)%num = true) /\
    (forall p, is_Some (OrderBook.asks ob' !! p)
       <-> exists q, last_change (changes_of (DepthData.a d)) p = Some q
                     /\ (q >? int 0)%num = true).
Proof.
  intros Hnone.
  destruct (updateOrderBook_outcome symbol d mgr c)
    as [(_ & Hsome & _)|(ob' & now & Hr & (Hb & Ha & Hid) & Hsym & _)].
  { unfold book_before in Hsome. by rewrite Hnone in Hsome. }
  unfold book_before in Hb, Ha, Hsym. rewrite Hnone in Hb, Ha, Hsym. cbn in Hb, Ha, Hsym.
  eexists _, _, ob'. split; [exact Hr|].
  split; [apply lookup_insert_eq|]. split; [done|]. split; [done|].
  split; intros p; by apply side_after_empty.
Qed.

(** [diff_next] sent for a symbol [mgr100] does not hold. *)
Lemma update_unknown_symbol_witness :
  OrderBookManager.getOrderBook "ethusdt" mgr100 = None /\
  exists mgr' sent ob',
    result (OrderBookManager.updateOrderBook "ethusdt" diff_next mgr100) clock0
    = (true, mgr', sent) /\
    OrderBookManager.getOrderBook "ethusdt" mgr' = Some ob' /\
    OrderBook.lastUpdateId ob' = 105.
Proof.
  assert (OrderBookManager.getOrderBook "ethusdt" mgr100 = None) as H1
    by (vm_compute; reflexivity).
  split; [exact H1|].
  destruct (update_unknown_symbol "ethusdt" diff_next mgr100 clock0 H1)
    as (mgr' & sent & ob' & Hr & Hget & _ & Hid & _).
  by exists mgr', sent, ob'.
Defined.

(** [updateOrderBook], [setSnapshot] and [createOrderBook] for one symbol
    leave the book of every other symbol as it was. *)
Theorem other_books_untouched (symbol other : string) (mgr : OrderBookManager.t) :
  other <> symbol ->
  (forall d c,
     OrderBookManager.getOrderBook other
       (result (OrderBookManager.updateOrderBook symbol d mgr) c).1.2
     = OrderBookManager.getOrderBook other mgr) /\
  (forall sd c,
     OrderBookManager.getOrderBook other
       (result (OrderBookManager.setSnapshot symbol sd mgr) c).2
     = OrderBookManager.getOrderBook other mgr) /\
  (forall c,
     OrderBookManager.getOrderBook other
       (result (OrderBookManager.createOrderBook symbol mgr) c).2
     = OrderBookManager.getOrderBook other mgr).
Proof.
  intros Hne. split; [|split].
  - intros d c. destruct (updateOrderBook_outcome symbol d mgr c)
      as [(-> & _)|(ob' & now & -> & _)]; [done|].
    by apply lookup_insert_ne.
  - intros sd c. destruct (setSnapshot_outcome symbol sd mgr c)
      as [(_ & Hr)|(_ & ob' & -> & _)].
    + unfold result. by rewrite Hr.
    + by apply lookup_insert_ne.
  - intros c. by apply lookup_insert_ne.
Qed.

(** A diff for ["ethusdt"] and the book of ["btcusdt"]. *)
Lemma other_books_untouched_witness :
  "btcusdt"%string <> "ethusdt"%string /\
  OrderBookManager.getOrderBook "btcusdt"
    (result (OrderBookManager.updateOrderBook "ethusdt" diff_next mgr100) clock0).1.2
  = Some ob100.
Proof.
  assert ("btcusdt"%string <> "ethusdt"%string) as H1 by discriminate.
  split; [exact H1|].
  rewrite (proj1 (other_books_untouched "ethusdt" "btcusdt" mgr100 H1)).
  apply lookup_insert_eq.
Defined.

(** A diff that was applied is dropped when it arrives again: with a final
    id other than [0], below [2 ^ 53] in magnitude (where the next id is
    computed exactly), and a first id at most 1000 above it, the second
    [updateOrderBook] returns [false], sends nothing, and leaves the registry
    and the clock as they were. *)
Theorem replayed_diff_is_dropped (symbol : string) (d : DepthData.t)
    (mgr : OrderBookManager.t) (c c' : Clock) :
  DepthData.u d <> 0 ->
  - 2 ^ 53 <= DepthData.u d < 2 ^ 53 ->
  DepthData.U d - DepthData.u d <= 1000 ->
  let r := result (OrderBookManager.updateOrderBook symbol d mgr) c in
  r.1.1 = true ->
  OrderBookManager.updateOrderBook symbol d r.1.2 c' = (false, r.1.2, [], c').
Proof.
  intros Hu Hsafe Hgap. cbn zeta.
  destruct (updateOrderBook_outcome symbol d mgr c)
    as [(-> & _)|(ob' & now & -> & (_ & _ & Hid) & _)]; [done|].
  intros _. cbn [fst snd].
  rewrite (updateOrderBook_known symbol d _ ob') by apply lookup_insert_eq.
  rewrite Hid.
  destruct (Z.eqb_spec (DepthData.u d) 0) as [E|_]; [done|].
  destruct (Z.gtb_spec (DepthData.U d - DepthData.u d) 1000) as [E|_]; [lia|].
  destruct (Validators.validateSequenceNumber _ _ _) eqn:Hseq; [|done].
  apply validateSequenceNumber_iff in Hseq. rewrite next_id_exact in Hseq by done. lia.
Qed.

(** [diff_next] twice. *)
Lemma replayed_diff_is_dropped_witness :
  DepthData.u diff_next <> 0 /\
  - 2 ^ 53 <= DepthData.u diff_next < 2 ^ 53 /\
  DepthData.U diff_next - DepthData.u diff_next <= 1000 /\
  (result (OrderBookManager.updateOrderBook "btcusdt" diff_next mgr100) clock0).1.1 = true /\
  (result (OrderBookManager.updateOrderBook "btcusdt" diff_next
             (result (OrderBookManager.updateOrderBook "btcusdt" diff_next mgr100) clock0).1.2)
     clock0).1.1 = false.
Proof.
  assert (DepthData.u diff_next <> 0) as H1 by (vm_compute; discriminate).
  assert (- 2 ^ 53 <= DepthData.u diff_next < 2 ^ 53) as Hs
    by (split; vm_compute; [discriminate|reflexivity]).
  assert (DepthData.U diff_next - DepthData.u diff_next <= 1000) as H2
    by (vm_compute; discriminate).
  assert ((result (OrderBookManager.updateOrderBook "btcusdt" diff_next mgr100) clock0).1.1
          = true) as H3 by (vm_compute; reflexivity).
  split; [exact H1|]. split; [exact Hs|]. split; [exact H2|]. split; [exact H3|].
  unfold result at 1.
  by rewrite (replayed_diff_is_dropped "btcusdt" diff_next mgr100 clock0 clock0 H1 Hs H2 H3).
Defined.

(** Once the id of a book is positive, and below [2 ^ 53] so that the next
    id is computed exactly, a diff whose first id does not exceed its final
    id cannot move it backwards: an applied diff raises the id strictly, a
    dropped one leaves the book as it was. *)
Theorem update_id_never_decreases (symbol : string) (d : DepthData.t)
    (mgr : OrderBookManager.t) (ob : OrderBook.t) (c : Clock) :
  OrderBookManager.getOrderBook symbol mgr = Some ob ->
  0 < OrderBook.lastUpdateId ob < 2 ^ 53 ->
  DepthData.U d <= DepthData.u d ->
  let r := result (OrderBookManager.updateOrderBook symbol d mgr) c in
  exists ob',
    OrderBookManager.getOrderBook symbol r.1.2 = Some ob' /\
    OrderBook.lastUpdateId ob <= OrderBook.lastUpdateId ob' /\
    (r.1.1 = true -> OrderBook.lastUpdateId ob < OrderBook.lastUpdateId ob') /\
    (r.1.1 = false -> ob' = ob).
Proof.
  intros Hget Hpos Hwf. cbn zeta.
  destruct (updateOrderBook_outcome symbol d mgr c)
    as [(-> & _)|(ob' & now & -> & (_ & _ & Hid) & _ & Hwhy)].
  - exists ob. cbn [fst snd]. split; [done|]. split; [lia|]. done.
  - unfold book_before in Hwhy. rewrite Hget in Hwhy.
    change (default _ (Some ob)) with ob in Hwhy.
    rewrite next_id_exact in Hwhy by lia.
    exists ob'. cbn [fst snd]. split; [apply lookup_insert_eq|].
    split; [lia|]. split; [lia|done].
Qed.

(** [diff_jump] on the book at id 100. *)
Lemma update_id_never_decreases_witness :
  OrderBookManager.getOrderBook "btcusdt" mgr100 = Some ob100 /\
  0 < OrderBook.lastUpdateId ob100 < 2 ^ 53 /\
  DepthData.U diff_jump <= DepthData.u diff_jump /\
  exists ob',
    OrderBookManager.getOrderBook "btcusdt"
      (result (OrderBookManager.updateOrderBook "btcusdt" diff_jump mgr100) clock0).1.2
    = Some ob' /\
    OrderBook.lastUpdateId ob100 <= OrderBook.lastUpdateId ob'.
Proof.
  assert (OrderBookManager.getOrderBook "btcusdt" mgr100 = Some ob100) as H1
    by apply lookup_insert_eq.
  assert (0 < OrderBook.lastUpdateId ob100 < 2 ^ 53) as H2
    by (split; vm_compute; reflexivity).
  assert (DepthData.U diff_jump <= DepthData.u diff_jump) as H3 by (vm_compute; discriminate).
  split; [exact H1|]. split; [exact H2|]. split; [exact H3|].
  destruct (update_id_never_decreases "btcusdt" diff_jump mgr100 ob100 clock0 H1 H2 H3)
    as (ob' & Hget & Hle & _).
  by exists ob'.
Defined.

(** A subscriber, then a diff for a symbol the registry does not know. *)
Lemma reachable_strict_witness :
  reachable (result (OrderBookManager.updateOrderBook "btcusdt" diff_next
                       (OrderBookManager.addSubscriber ws_open OrderBookManager.new))
               clock0).1.2 /\
  manager_strict (result (OrderBookManager.updateOrderBook "btcusdt" diff_next
                            (OrderBookManager.addSubscriber ws_open OrderBookManager.new))
                    clock0).1.2.
Proof.
  assert (reachable (result (OrderBookManager.updateOrderBook "btcusdt" diff_next
                               (OrderBookManager.addSubscriber ws_open OrderBookManager.new))
                       clock0).1.2) as H1
    by apply reach_update, reach_subscribe, reach_new.
  split; [exact H1|]. exact (proj1 (reachable_strict _ H1)).
Defined.

(** ** Subscribers *)

(** The subscribers behave as the [Set] they are: adding keeps sockets
    distinct and is idempotent, removing makes the socket absent and is
    idempotent, removing a socket that is not subscribed changes nothing,
    adding a new socket and removing it gives back the registry, and neither
    touches the membership of any other socket. *)
Theorem subscribers_are_a_set (ws : OrderBookManager.WebSocket) (mgr : OrderBookManager.t) :
  NoDup (map OrderBookManager.ws_id (OrderBookManager.subscribers mgr)) ->
  let ids m := map OrderBookManager.ws_id (OrderBookManager.subscribers m) in
  let added := OrderBookManager.addSubscriber ws mgr in
  let removed := OrderBookManager.removeSubscriber ws mgr in
  NoDup (ids added) /\
  OrderBookManager.ws_id ws ∈ ids added /\
  OrderBookManager.addSubscriber ws added = added /\
  NoDup (ids removed) /\
  (OrderBookManager.ws_id ws ∉ ids removed) /\
  OrderBookManager.removeSubscriber ws removed = removed /\
  (OrderBookManager.ws_id ws ∉ ids mgr ->
     removed = mgr /\ OrderBookManager.removeSubscriber ws added = mgr) /\
  (forall n, n <> OrderBookManager.ws_id ws ->
     (n ∈ ids added <-> n ∈ ids mgr) /\ (n ∈ ids removed <-> n ∈ ids mgr)).
Proof.
  intros Hnd. cbn zeta. destruct mgr as [obs subs].
  unfold OrderBookManager.addSubscriber, OrderBookManager.removeSubscriber.
  cbn [OrderBookManager.subscribers OrderBookManager.orderbooks] in *.
  assert (forall l, OrderBookManager.ws_id ws ∉ map OrderBookManager.ws_id l ->
            filter (fun w => OrderBookManager.ws_id w <> OrderBookManager.ws_id ws) l = l)
    as Hfresh.
  { intros l Hl. apply filter_all, Forall_forall. intros w Hw Heq. apply Hl.
    rewrite <- Heq. by apply (list_elem_of_fmap_2 OrderBookManager.ws_id). }
  assert (OrderBookManager.ws_id ws
          ∉ map OrderBookManager.ws_id
              (filter (fun w => OrderBookManager.ws_id w <> OrderBookManager.ws_id ws) subs))
    as Hgone.
  { intros (w & Hid & Hw)%list_elem_of_fmap. apply list_elem_of_filter in Hw as [Hw _].
    by destruct Hw. }
  assert (NoDup (map OrderBookManager.ws_id
                   (if bool_decide (OrderBookManager.ws_id ws ∈ map OrderBookManager.ws_id subs)
                    then subs else subs ++ [ws])) /\
          OrderBookManager.ws_id ws
          ∈ map OrderBookManager.ws_id
              (if bool_decide (OrderBookManager.ws_id ws ∈ map OrderBookManager.ws_id subs)
               then subs else subs ++ [ws])) as [Hnd' Hin'].
  { case_bool_decide as Hin; [done|]. rewrite map_app. cbn [map]. split.
    - apply NoDup_app. split; [done|]. split; [|apply NoDup_singleton].
      intros n Hn Hn'. apply list_elem_of_singleton in Hn' as ->. done.
    - apply elem_of_app. right. apply list_elem_of_singleton. done. }
  split; [done|]. split; [done|].
  split; [by rewrite bool_decide_eq_true_2|].
  split; [eapply sublist_NoDup; [exact Hnd|]; apply fmap_sublist, sublist_filter|].
  split; [done|].
  split; [by rewrite Hfresh|].
  split.
  - intros Hnew. rewrite (Hfresh _ Hnew). split; [done|].
    rewrite bool_decide_eq_false_2 by done. rewrite filter_app, (Hfresh _ Hnew).
    rewrite filter_cons_False, filter_nil by (intros Hne; by apply Hne).
    by rewrite app_nil_r.
  - intros n Hn. split.
    + case_bool_decide as Hin; [done|]. rewrite map_app, elem_of_app. cbn [map].
      rewrite list_elem_of_singleton. tauto.
    + rewrite !list_elem_of_fmap. split.
      * intros (w & -> & Hw). apply list_elem_of_filter in Hw as [_ Hw]. eauto.
      * intros (w & -> & Hw). exists w. split; [done|]. by apply list_elem_of_filter.
Qed.

(** The open subscriber of [mgr100]. *)
Lemma subscribers_are_a_set_witness :
  NoDup (map OrderBookManager.ws_id (OrderBookManager.subscribers mgr100)) /\
  OrderBookManager.addSubscriber ws_open (OrderBookManager.addSubscriber ws_open mgr100)
  = OrderBookManager.addSubscriber ws_open mgr100 /\
  OrderBookManager.ws_id ws_open
  ∉ map OrderBookManager.ws_id
      (OrderBookManager.subscribers (OrderBookManager.removeSubscriber ws_open mgr100)).
Proof.
  assert (NoDup (map OrderBookManager.ws_id (OrderBookManager.subscribers mgr100))) as H1.
  { apply (bool_decide_unpack _). vm_compute. exact I. }
  split; [exact H1|].
  destruct (subscribers_are_a_set ws_open mgr100 H1) as (_ & _ & Hidem & _ & Hgone & _).
  split; [exact Hidem|exact Hgone].
Defined.

(** ** Messages off the wire *)

Lemma int_truthy z : num_truthy (int z) = negb (z =? 0).
Proof.
  unfold int, num_truthy. destruct (Z.eqb_spec z 0) as [->|Hz]; cbn [negb].
  - by rewrite bool_decide_eq_true_2.
  - rewrite bool_decide_eq_false_2; [done|]. intros Heq. apply Hz.
    apply Q2Qc_eq_iff in Heq. unfold Qeq in Heq. cbn in Heq. lia.
Qed.

(** A depth update passes [isValidDepthUpdate] exactly when its event is
    ['depthUpdate'], its symbol is not empty, neither id is [0], and every
    level of both sides is valid.  [handleDepthUpdate] drops any other
    message whole, leaving registry, subscribers and clock alone; for the
    messages it lets through, no level is skipped by [updateOrderBook]. *)
Theorem depth_update_valid_iff (d : DepthData.t) :
  (Validators.isValidDepthUpdate (DepthData.to_value d) = true
   <-> DepthData.e d = "depthUpdate"%string /\ DepthData.s d <> ""%string /\
       DepthData.u d <> 0 /\ DepthData.U d <> 0 /\
       Forall (fun l => Validators.isValidPriceLevel l = true) (DepthData.b d) /\
       Forall (fun l => Validators.isValidPriceLevel l = true) (DepthData.a d)) /\
  (Validators.isValidDepthUpdate (DepthData.to_value d) = true ->
   changes_of (DepthData.b d) = map Validators.sanitizePriceLevel (DepthData.b d) /\
   changes_of (DepthData.a d) = map Validators.sanitizePriceLevel (DepthData.a d)) /\
  (Validators.isValidDepthUpdate (DepthData.to_value d) = false ->
   forall mgr c, BinanceWebSocket.handleDepthUpdate d mgr c = (mgr, [], c)).
Proof.
  assert (Validators.isValidDepthUpdate (DepthData.to_value d) = false ->
          forall mgr c, BinanceWebSocket.handleDepthUpdate d mgr c = (mgr, [], c)) as Hdrop.
  { intros Hinvalid mgr c. unfold BinanceWebSocket.handleDepthUpdate. by rewrite Hinvalid. }
  revert Hdrop.
  assert (Validators.isValidDepthUpdate (DepthData.to_value d)
          = (String.eqb (DepthData.e d) "depthUpdate"
             && negb (String.eqb (DepthData.s d) "")
             && negb (DepthData.u d =? 0) && negb (DepthData.U d =? 0)
             && forallb Validators.isValidPriceLevel (DepthData.b d)
             && forallb Validators.isValidPriceLevel (DepthData.a d))%bool) as Heq.
  { unfold Validators.isValidDepthUpdate, DepthData.to_value.
    cbn [truthy get_prop assoc String.eqb Ascii.eqb Bool.eqb str_eqb Array_isArray
         Validators.every andb].
    by rewrite !int_truthy, !andb_true_r. }
  rewrite Heq, !andb_true_iff, !negb_true_iff, !forallb_Forall, String.eqb_eq,
    String.eqb_neq, !Z.eqb_neq.
  intros Hdrop. split; [tauto|]. split; [|done].
  intros [[_ Hb] Ha]. split; apply changes_of_all_valid; by apply forallb_Forall.
Qed.

(** A snapshot passes [isValidSnapshot] exactly when its id is not [0] and
    every level of both sides is valid; one invalid level is enough for
    [setSnapshot] to leave the registry and the clock as they were.  In no
    case does [setSnapshot] touch the subscribers. *)
Theorem snapshot_all_or_nothing (symbol : string) (sd : SnapshotData.t)
    (mgr : OrderBookManager.t) (c : Clock) :
  (Validators.isValidSnapshot (SnapshotData.to_value sd) = true
   <-> SnapshotData.lastUpdateId sd <> 0 /\
       Forall (fun l => Validators.isValidPriceLevel l = true) (SnapshotData.bids sd) /\
       Forall (fun l => Validators.isValidPriceLevel l = true) (SnapshotData.asks sd)) /\
  (Validators.isValidSnapshot (SnapshotData.to_value sd) = false ->
   OrderBookManager.setSnapshot symbol sd mgr c = (false, mgr, c)) /\
  OrderBookManager.subscribers (result (OrderBookManager.setSnapshot symbol sd mgr) c).2
  = OrderBookManager.subscribers mgr.
Proof.
  split; [|split].
  - unfold Validators.isValidSnapshot, SnapshotData.to_value.
    cbn [truthy get_prop assoc String.eqb Ascii.eqb Bool.eqb Array_isArray
         Validators.every andb].
    rewrite int_truthy, !andb_true_r, !andb_true_iff, negb_true_iff, !forallb_Forall,
      Z.eqb_neq. tauto.
  - intros Hinvalid. unfold OrderBookManager.setSnapshot. by rewrite Hinvalid.
  - destruct (setSnapshot_outcome symbol sd mgr c) as [(_ & Hr)|(_ & ob' & -> & _)]; [|done].
    unfold result. by rewrite Hr.
Qed.

(** What a valid snapshot leaves under its symbol does not depend on what
    the registry held before: the same id, and at every price the same
    price and quantity, on both sides. *)
Theorem snapshot_forgets_the_past (symbol : string) (sd : SnapshotData.t)
    (mgr1 mgr2 : OrderBookManager.t) (c1 c2 : Clock) :
  Validators.isValidSnapshot (SnapshotData.to_value sd) = true ->
  exists ob1 ob2,
    OrderBookManager.getOrderBook symbol
      (result (OrderBookManager.setSnapshot symbol sd mgr1) c1).2 = Some ob1 /\
    OrderBookManager.getOrderBook symbol
      (result (OrderBookManager.setSnapshot symbol sd mgr2) c2).2 = Some ob2 /\
    OrderBook.lastUpdateId ob1 = OrderBook.lastUpdateId ob2 /\
    forall p,
      pq <$> OrderBook.bids ob1 !! p = pq <$> OrderBook.bids ob2 !! p /\
      pq <$> OrderBook.asks ob1 !! p = pq <$> OrderBook.asks ob2 !! p.
Proof.
  intros Hvalid.
  destruct (setSnapshot_outcome symbol sd mgr1 c1)
    as [(Hno & _)|(_ & ob1 & -> & _ & Hb1 & Ha1 & Hid1)]; [congruence|].
  destruct (setSnapshot_outcome symbol sd mgr2 c2)
    as [(Hno & _)|(_ & ob2 & -> & _ & Hb2 & Ha2 & Hid2)]; [congruence|].
  exists ob1, ob2. cbn [snd]. split; [apply lookup_insert_eq|].
  split; [apply lookup_insert_eq|]. split; [congruence|].
  intros p. specialize (Hb1 p). specialize (Hb2 p). specialize (Ha1 p). specialize (Ha2 p).
  split.
  - destruct (last_change (changes_of (SnapshotData.bids sd)) p); [congruence|].
    by rewrite Hb1, Hb2.
  - destruct (last_change (changes_of (SnapshotData.asks sd)) p); [congruence|].
    by rewrite Ha1, Ha2.
Qed.

(** [snapshot_ok] applied to [mgr100] and to [mgr1]. *)
Lemma snapshot_forgets_the_past_witness :
  Validators.isValidSnapshot (SnapshotData.to_value snapshot_ok) = true /\
  exists ob1 ob2,
    OrderBookManager.getOrderBook "btcusdt"
      (result (OrderBookManager.setSnapshot "btcusdt" snapshot_ok mgr100) clock0).2 = Some ob1 /\
    OrderBookManager.getOrderBook "btcusdt"
      (result (OrderBookManager.setSnapshot "btcusdt" snapshot_ok mgr1) clock0).2 = Some ob2 /\
    pq <$> OrderBook.bids ob1 !! int 50000 = pq <$> OrderBook.bids ob2 !! int 50000.
Proof.
  assert (Validators.isValidSnapshot (SnapshotData.to_value snapshot_ok) = true) as H1
    by (vm_compute; reflexivity).
  split; [exact H1|].
  destruct (snapshot_forgets_the_past "btcusdt" snapshot_ok mgr100 mgr1 clock0 clock0 H1)
    as (ob1 & ob2 & Hg1 & Hg2 & _ & Hsame).
  exists ob1, ob2. split; [exact Hg1|]. split; [exact Hg2|]. apply Hsame.
Defined.

(** Of the two subscribers of [mgr100] the open one is served and kept. *)
Lemma broadcast_reaches_live_subscribers_witness :
  NoDup (map OrderBookManager.ws_id (OrderBookManager.subscribers mgr100)) /\
  map fst (result (OrderBookManager.broadcastUpdate "btcusdt"
                     (OrderBook.getSnapshot None ob100) mgr100) clock0).2 = [1%nat] /\
  map OrderBookManager.ws_id
    (OrderBookManager.subscribers
       (result (OrderBookManager.broadcastUpdate "btcusdt"
                  (OrderBook.getSnapshot None ob100) mgr100) clock0).1) = [1%nat].
Proof.
  assert (NoDup (map OrderBookManager.ws_id (OrderBookManager.subscribers mgr100))) as H1.
  { apply (bool_decide_unpack _). vm_compute. exact I. }
  split; [exact H1|].
  destruct (broadcast_reaches_live_subscribers "btcusdt" (OrderBook.getSnapshot None ob100)
              mgr100 clock0 H1) as (Hsent & Hsubs & _).
  rewrite Hsent, Hsubs. split; reflexivity.
Defined.

(** A diff that is dropped reaches no subscriber.  A diff that is applied
    reaches every subscriber that takes messages, with the snapshot of the
    book as the registry now holds it, and only those stay subscribed. *)
Theorem update_notifies_live_subscribers (symbol : string) (d : DepthData.t)
    (mgr : OrderBookManager.t) (c : Clock) :
  NoDup (map OrderBookManager.ws_id (OrderBookManager.subscribers mgr)) ->
  let r := result (OrderBookManager.updateOrderBook symbol d mgr) c in
  (r.1.1 = false -> r.2 = [] /\ r.1.2 = mgr) /\
  (r.1.1 = true ->
   exists ob' now,
     OrderBookManager.getOrderBook symbol r.1.2 = Some ob' /\
     r.2 = map (fun w => (OrderBookManager.ws_id w,
                          {| OrderBookManager.msg_type := "orderbook_update";
                             OrderBookManager.msg_symbol := symbol;
                             OrderBookManager.msg_data := OrderBook.getSnapshot None ob';
                             OrderBookManager.msg_timestamp := now |}))
               (filter (fun w => live w = true) (OrderBookManager.subscribers mgr)) /\
     OrderBookManager.subscribers r.1.2
     = filter (fun w => live w = true) (OrderBookManager.subscribers mgr)).
Proof.
  intros Hnd. cbn zeta.
  destruct (updateOrderBook_outcome symbol d mgr c)
    as [(-> & _)|(ob' & now & -> & _)]; cbn [fst snd].
  - split; [done|]. intros [=].
  - split; [intros [=]|]. intros _. exists ob', now.
    split; [apply lookup_insert_eq|]. split; [done|].
    cbn [OrderBookManager.subscribers]. by apply live_filter.
Qed.

(** [diff_next] reaches the open subscriber of [mgr100]; [diff_stale]
    reaches no one. *)
Lemma update_notifies_live_subscribers_witness :
  NoDup (map OrderBookManager.ws_id (OrderBookManager.subscribers mgr100)) /\
  map fst (result (OrderBookManager.updateOrderBook "btcusdt" diff_next mgr100) clock0).2
  = [1%nat] /\
  (result (OrderBookManager.updateOrderBook "btcusdt" diff_stale mgr100) clock0).2 = [].
Proof.
  assert (NoDup (map OrderBookManager.ws_id (OrderBookManager.subscribers mgr100))) as H1.
  { apply (bool_decide_unpack _). vm_compute. exact I. }
  split; [exact H1|].
  destruct (update_notifies_live_subscribers "btcusdt" diff_next mgr100 clock0 H1)
    as [_ Hyes].
  destruct (update_notifies_live_subscribers "btcusdt" diff_stale mgr100 clock0 H1)
    as [Hno _].
  split.
  - destruct (Hyes ltac:(vm_compute; reflexivity)) as (ob' & now & _ & -> & _).
    vm_compute. reflexivity.
  - apply Hno. vm_compute. reflexivity.
Defined.

(** ** Reconnection *)

Lemma closes_state k s :
  (BinanceWebSocket.reconnectAttempts s <= BinanceWebSocket.maxReconnectAttempts s)%nat ->
  BinanceWebSocket.reconnectAttempts (closes k s)
  = Nat.min (BinanceWebSocket.reconnectAttempts s + k) (BinanceWebSocket.maxReconnectAttempts s) /\
  BinanceWebSocket.maxReconnectAttempts (closes k s) = BinanceWebSocket.maxReconnectAttempts s /\
  BinanceWebSocket.reconnectDelay (closes k s) = BinanceWebSocket.reconnectDelay s.
Proof.
  intros Hle. induction k as [|k (IH1 & IH2 & IH3)].
  - cbn. split; [lia|done].
  - change (closes (S k) s) with (BinanceWebSocket.on_close (closes k s)).1.
    set (sk := closes k s) in *.
    unfold BinanceWebSocket.on_close, BinanceWebSocket.handleReconnect.
    cbn [BinanceWebSocket.reconnectAttempts BinanceWebSocket.maxReconnectAttempts
         BinanceWebSocket.reconnectDelay BinanceWebSocket.isConnected].
    destruct (Nat.leb_spec (BinanceWebSocket.maxReconnectAttempts sk)
                (BinanceWebSocket.reconnectAttempts sk));
      cbn [fst BinanceWebSocket.reconnectAttempts BinanceWebSocket.maxReconnectAttempts
           BinanceWebSocket.reconnectDelay]; (split; [lia|done]).
Qed.

(** Reconnection backs off exponentially and gives up: the ['close'] that
    follows [n] attempts schedules the next one after
    [reconnectDelay * 2 ^ n] milliseconds while [n] is below
    [maxReconnectAttempts], and schedules nothing from then on; the count
    never passes the maximum; an ['open'] resets it, so that the delay is
    [reconnectDelay] again. *)
Theorem reconnect_backoff (s : BinanceWebSocket.t) (k : nat) :
  (BinanceWebSocket.reconnectAttempts s <= BinanceWebSocket.maxReconnectAttempts s)%nat ->
  let n := (BinanceWebSocket.reconnectAttempts s + k)%nat in
  (BinanceWebSocket.on_close (closes k s)).2
  = (if (n <? BinanceWebSocket.maxReconnectAttempts s)%nat
     then Some (BinanceWebSocket.reconnectDelay s * 2 ^ Z.of_nat n) else None) /\
  (BinanceWebSocket.reconnectAttempts (closes k s)
   <= BinanceWebSocket.maxReconnectAttempts s)%nat /\
  BinanceWebSocket.reconnectAttempts (BinanceWebSocket.on_open (closes k s)) = 0%nat /\
  (BinanceWebSocket.on_close (BinanceWebSocket.on_open (closes k s))).2
  = (if (0 <? BinanceWebSocket.maxReconnectAttempts s)%nat
     then Some (BinanceWebSocket.reconnectDelay s) else None).
Proof.
  intros Hle. cbn zeta. destruct (closes_state k s Hle) as (H1 & H2 & H3).
  split; [|split; [lia|split; [done|]]].
  - unfold BinanceWebSocket.on_close, BinanceWebSocket.handleReconnect.
    cbn [BinanceWebSocket.reconnectAttempts BinanceWebSocket.maxReconnectAttempts
         BinanceWebSocket.reconnectDelay]. rewrite H1, H2, H3.
    destruct (Nat.ltb_spec (BinanceWebSocket.reconnectAttempts s + k)
                (BinanceWebSocket.maxReconnectAttempts s)) as [Hlt|Hge].
    + rewrite (proj2 (Nat.leb_gt _ _)) by lia. cbn [snd]. do 2 f_equal. f_equal. lia.
    + by rewrite (proj2 (Nat.leb_le _ _)) by lia.
  - unfold BinanceWebSocket.on_close, BinanceWebSocket.handleReconnect,
      BinanceWebSocket.on_open.
    cbn [BinanceWebSocket.reconnectAttempts BinanceWebSocket.maxReconnectAttempts
         BinanceWebSocket.reconnectDelay]. rewrite H2, H3.
    destruct (BinanceWebSocket.maxReconnectAttempts s) as [|m]; [done|].
    cbn [Nat.leb Nat.ltb snd]. f_equal. change (2 ^ (Z.of_nat 1 - 1)) with 1. lia.
Qed.

(** From the initial state: 8 seconds after the third failure, nothing
    after the tenth. *)
Lemma reconnect_backoff_witness :
  (BinanceWebSocket.reconnectAttempts BinanceWebSocket.new
   <= BinanceWebSocket.maxReconnectAttempts BinanceWebSocket.new)%nat /\
  (BinanceWebSocket.on_close (closes 3 BinanceWebSocket.new)).2 = Some 8000 /\
  (BinanceWebSocket.on_close (closes 10 BinanceWebSocket.new)).2 = None.
Proof.
  assert (BinanceWebSocket.reconnectAttempts BinanceWebSocket.new
          <= BinanceWebSocket.maxReconnectAttempts BinanceWebSocket.new)%nat as H1
    by (vm_compute; lia).
  split; [exact H1|]. split.
  - rewrite (proj1 (reconnect_backoff BinanceWebSocket.new 3 H1)). reflexivity.
  - rewrite (proj1 (reconnect_backoff BinanceWebSocket.new 10 H1)). reflexivity.
Defined.

(** ** From the feed to the routes *)

(** A valid depth update makes its symbol available to the REST route,
    whatever the case of the letters on either side: after
    [handleDepthUpdate] the route answers 200 with the snapshot of the book
    held under the lower-cased symbol, and if the symbol was new that book
    is at the final id of the update. *)
Theorem feed_then_route (d : DepthData.t) (mgr : OrderBookManager.t)
    (symbol : string) (c c' : Clock) :
  Validators.isValidDepthUpdate (DepthData.to_value d) = true ->
  Server.toLowerCase symbol = Server.toLowerCase (DepthData.s d) ->
  let mgr' := (result (BinanceWebSocket.handleDepthUpdate d mgr) c).1 in
  exists ob',
    OrderBookManager.getOrderBook (Server.toLowerCase (DepthData.s d)) mgr' = Some ob' /\
    Server.orderbook symbol mgr' c'
    = (Server.Reply200 (OrderBook.getSnapshot None ob') (readings c' (reads c')),
       {| readings := readings c'; reads := S (reads c') |}) /\
    (OrderBookManager.getOrderBook (Server.toLowerCase (DepthData.s d)) mgr = None ->
     OrderBook.lastUpdateId ob' = DepthData.u d).
Proof.
  intros Hvalid Hsym. cbn zeta. unfold BinanceWebSocket.handleDepthUpdate.
  rewrite Hvalid. cbn [negb]. rewrite result_bind, result_ret. cbn [fst].
  unfold Server.orderbook. rewrite Hsym.
  destruct (updateOrderBook_outcome (Server.toLowerCase (DepthData.s d)) d mgr c)
    as [(-> & Hsome & _)|(ob' & now & -> & (_ & _ & Hid) & _)]; cbn [fst snd].
  - eexists. split; [exact Hsome|]. rewrite Hsome. split; [reflexivity|].
    intros Hnone. congruence.
  - exists ob'.
    assert (OrderBookManager.getOrderBook (Server.toLowerCase (DepthData.s d))
              {| OrderBookManager.orderbooks :=
                   <[Server.toLowerCase (DepthData.s d) := ob']>
                     (OrderBookManager.orderbooks mgr);
                 OrderBookManager.subscribers :=
                   pruned (OrderBookManager.subscribers mgr) |} = Some ob') as Hget
      by apply lookup_insert_eq.
    split; [exact Hget|]. rewrite Hget. split; [reflexivity|done].
Qed.

(** [diff_next] for ["BTCUSDT"], then a request for ["BtcUsdt"]. *)
Lemma feed_then_route_witness :
  Validators.isValidDepthUpdate (DepthData.to_value diff_next) = true /\
  Server.toLowerCase "BtcUsdt" = Server.toLowerCase (DepthData.s diff_next) /\
  exists ob',
    (result (Server.orderbook "BtcUsdt"
               (result (BinanceWebSocket.handleDepthUpdate diff_next OrderBookManager.new)
                  clock0).1) clock0)
    = Server.Reply200 (OrderBook.getSnapshot None ob') 1700000000000 /\
    OrderBook.lastUpdateId ob' = 105.
Proof.
  assert (Validators.isValidDepthUpdate (DepthData.to_value diff_next) = true) as H1
    by (vm_compute; reflexivity).
  assert (Server.toLowerCase "BtcUsdt" = Server.toLowerCase (DepthData.s diff_next)) as H2
    by (vm_compute; reflexivity).
  split; [exact H1|]. split; [exact H2|].
  destruct (feed_then_route diff_next OrderBookManager.new "BtcUsdt" clock0 clock0 H1 H2)
    as (ob' & _ & Hr & Hid).
  exists ob'. unfold result at 1. rewrite Hr. split; [reflexivity|].
  apply Hid. vm_compute. reflexivity.
Defined.

(** ** The routes *)

(** Every route checks the symbol first: for a symbol the registry does not
    hold, all five answer 404 with the same message, whatever their other
    parameters, and without reading the clock. *)
Theorem routes_unknown_symbol (symbol : string) (mgr : OrderBookManager.t) (c : Clock) :
  OrderBookManager.getOrderBook (Server.toLowerCase symbol) mgr = None ->
  let error := ("Orderbook not found for symbol: " ++ Server.toLowerCase symbol)%string in
  Server.orderbook symbol mgr c = (Server.Reply404 error, c) /\
  (forall limit, Server.orderbookLimit symbol limit mgr c = (Server.Reply404 error, c)) /\
  (forall price side, Server.accQty symbol price side mgr c = (Server.Reply404 error, c)) /\
  (forall size side, Server.marketImpact symbol size side mgr c = (Server.Status404 error, c)) /\
  (forall levels, Server.liquidityProfile symbol levels mgr c = (Server.Reply404 error, c)).
Proof.
  intros Hnone. cbn zeta.
  unfold Server.orderbook, Server.orderbookLimit, Server.accQty, Server.marketImpact,
    Server.liquidityProfile.
  rewrite Hnone. done.
Qed.

(** An unknown symbol with a limit that is not a number: 404, not 400. *)
Lemma routes_unknown_symbol_witness :
  OrderBookManager.getOrderBook (Server.toLowerCase "ETHUSDT") mgr1 = None /\
  result (Server.orderbookLimit "ETHUSDT" "abc" mgr1) clock0
  = Server.Reply404 "Orderbook not found for symbol: ethusdt".
Proof.
  assert (OrderBookManager.getOrderBook (Server.toLowerCase "ETHUSDT") mgr1 = None) as H1
    by (vm_compute; reflexivity).
  split; [exact H1|].
  destruct (routes_unknown_symbol "ETHUSDT" mgr1 clock0 H1) as (_ & Hlimit & _).
  unfold result. by rewrite Hlimit.
Defined.

(** The limit route serves a prefix of what the full route serves: with a
    limit that parses to [n >= 1], both answer 200 at the same timestamp,
    the lists of the first are the first [n] levels of the lists of the
    second, and the totals, the spread and the mid price are the same. *)
Theorem limit_route_serves_a_prefix (symbol limit : string) (n : Z)
    (mgr : OrderBookManager.t) (ob : OrderBook.t) (c : Clock) :
  OrderBookManager.getOrderBook (Server.toLowerCase symbol) mgr = Some ob ->
  parseInt_string limit = Some n ->
  1 <= n ->
  exists data full now,
    result (Server.orderbookLimit symbol limit mgr) c = Server.Reply200 data now /\
    result (Server.orderbook symbol mgr) c = Server.Reply200 full now /\
    OrderBook.snap_bids data = take (Z.to_nat n) (OrderBook.snap_bids full) /\
    OrderBook.snap_asks data = take (Z.to_nat n) (OrderBook.snap_asks full) /\
    OrderBook.snap_totalBids data = length (OrderBook.snap_bids full) /\
    OrderBook.snap_totalAsks data = length (OrderBook.snap_asks full) /\
    OrderBook.snap_spread data = OrderBook.snap_spread full /\
    OrderBook.snap_midPrice data = OrderBook.snap_midPrice full.
Proof.
  intros Hget Hparse Hn. unfold Server.orderbookLimit, Server.orderbook.
  rewrite Hget, Hparse. destruct (Z.ltb_spec n 1) as [|_]; [lia|].
  eexists _, _, _. split; [reflexivity|]. split; [reflexivity|].
  cbn [OrderBook.getSnapshot OrderBook.snap_bids OrderBook.snap_asks
       OrderBook.snap_totalBids OrderBook.snap_totalAsks OrderBook.snap_spread
       OrderBook.snap_midPrice].
  assert (length (OrderBook.getBids None ob) = size (OrderBook.bids ob)) as Hb.
  { by rewrite getBids_all, Array_sort_perm, Map_values_length. }
  assert (length (OrderBook.getAsks None ob) = size (OrderBook.asks ob)) as Ha.
  { by rewrite getAsks_all, Array_sort_perm, Map_values_length. }
  rewrite (getBids_limit ob n Hn), (getAsks_limit ob n Hn), <- Hb, <- Ha.
  by rewrite !take_min by lia.
Qed.

(** Limit 2 on [book1]. *)
Lemma limit_route_serves_a_prefix_witness :
  OrderBookManager.getOrderBook (Server.toLowerCase "BTCUSDT") mgr1 = Some book1 /\
  parseInt_string "2" = Some 2 /\ 1 <= 2 /\
  exists data now,
    result (Server.orderbookLimit "BTCUSDT" "2" mgr1) clock0 = Server.Reply200 data now /\
    map pq (OrderBook.snap_asks data) = [(int 100, int 2); (int 101, int 3)] /\
    OrderBook.snap_totalAsks data = 3%nat.
Proof.
  assert (OrderBookManager.getOrderBook (Server.toLowerCase "BTCUSDT") mgr1 = Some book1)
    as H1 by apply lookup_insert_eq.
  assert (parseInt_string "2" = Some 2) as H2 by reflexivity.
  split; [exact H1|]. split; [exact H2|]. split; [lia|].
  destruct (limit_route_serves_a_prefix "BTCUSDT" "2" 2 mgr1 book1 clock0 H1 H2 ltac:(lia))
    as (data & full & now & Hr & Hfull & _ & Hasks & _ & Htotal & _).
  exists data, now. split; [exact Hr|].
  unfold Server.orderbook in Hfull. rewrite H1 in Hfull.
  injection Hfull as <- _. rewrite Hasks, Htotal. vm_compute. done.
Defined.

(** The market-impact route never answers 200 with [null] data: the size
    it checked is positive, so [getMarketImpact] returns a result, for the
    parsed size and for the requested side (['buy'] when the parameter is
    absent or empty). *)
Theorem market_impact_route_data (symbol size : string) (side : option string)
    (mgr : OrderBookManager.t) (c : Clock) (data : option OrderBook.MarketImpact) (now : Z) :
  result (Server.marketImpact symbol size side mgr) c = Server.Json200 data now ->
  exists ob r,
    OrderBookManager.getOrderBook (Server.toLowerCase symbol) mgr = Some ob /\
    data = Some r /\
    OrderBook.orderSize r = parseFloat_string size /\
    (OrderBook.orderSize r >? int 0)%num = true /\
    OrderBook.side r = match side with
                       | Some s => if String.eqb s "" then "buy"%string else s
                       | None => "buy"%string
                       end /\
    now = readings c (reads c).
Proof.
  unfold Server.marketImpact.
  destruct (OrderBookManager.getOrderBook _ mgr) as [ob|]; [|done].
  rewrite not_positive_iff. cbn [parseFloat].
  destruct (parseFloat_string size >? int 0)%num eqn:Hpos; cbn [negb]; [|done].
  unfold result, bind, ret, Date_now. cbn [fst]. intros [= <- <-].
  unfold OrderBook.getMarketImpact.
  assert ((parseFloat_string size <=? int 0)%num = false) as ->.
  { unfold num_gtb in Hpos. destruct (parseFloat_string size <=? int 0)%num eqn:E; [|done].
    apply num_leb_ltb_false in E. congruence. }
  eexists ob, _. split; [done|]. split; [reflexivity|].
  cbn [OrderBook.orderSize OrderBook.side]. split; [done|]. split; [done|].
  split; [|done]. destruct side as [s|]; [|done]. cbn [truthy].
  by destruct (String.eqb s "").
Qed.

(** A size of 4 with no side given. *)
Lemma market_impact_route_data_witness :
  exists data now,
    result (Server.marketImpact "BTCUSDT" "4" None mgr1) clock0 = Server.Json200 data now /\
    OrderBook.side <$> data = Some "buy"%string.
Proof.
  destruct (result (Server.marketImpact "BTCUSDT" "4" None mgr1) clock0)
    as [e|e|data now] eqn:E; [by vm_compute in E..|].
  exists data, now. split; [reflexivity|].
  destruct (market_impact_route_data "BTCUSDT" "4" None mgr1 clock0 data now E)
    as (ob & r & _ & -> & _ & _ & Hside & _).
  cbn. by rewrite Hside.
Defined.

Lemma acc_targetPrice_eq target sd ob :
  OrderBook.acc_targetPrice (OrderBook.getAccumulatedQuantityToPrice target sd ob) = target.
Proof.
  unfold OrderBook.getAccumulatedQuantityToPrice.
  destruct (if (String.eqb _ "both" || String.eqb _ "bids")%bool then _ else _).
  destruct (if (String.eqb _ "both" || String.eqb _ "asks")%bool then _ else _).
  done.
Qed.

(** The accumulated-quantity route, for a symbol the registry holds: the
    answer is 400 exactly when the parsed price is not a positive number
    ([NaN] included), and otherwise 200 with the accumulated quantities at
    that price, for both sides when the side parameter is absent or empty
    and for the given selector otherwise. *)
Theorem acc_qty_route (symbol price : string) (side : option string)
    (mgr : OrderBookManager.t) (ob : OrderBook.t) (c : Clock) :
  OrderBookManager.getOrderBook (Server.toLowerCase symbol) mgr = Some ob ->
  let target := parseFloat_string price in
  let reply := result (Server.accQty symbol price side mgr) c in
  ((target >? int 0)%num = false -> reply = Server.Reply400 "Invalid price parameter") /\
  ((target >? int 0)%num = true ->
   exists data,
     reply = Server.Reply200 data (readings c (reads c)) /\
     OrderBook.acc_targetPrice data = target /\
     (side = None \/ side = Some ""%string ->
      data = OrderBook.getAccumulatedQuantityToPrice target (Some "both"%string) ob) /\
     (forall sd, side = Some sd -> sd <> ""%string ->
      data = OrderBook.getAccumulatedQuantityToPrice target (Some sd) ob)).
Proof.
  intros Hget. cbn zeta. unfold Server.accQty. rewrite Hget, not_positive_iff.
  cbn [parseFloat]. split; intros ->; cbn [negb]; [reflexivity|].
  unfold result, bind, ret, Date_now. cbn [fst].
  eexists. split; [reflexivity|]. split; [apply acc_targetPrice_eq|]. split.
  - intros [->| ->]; reflexivity.
  - intros sd -> Hsd. cbn [truthy]. apply String.eqb_neq in Hsd. by rewrite Hsd.
Qed.

(** A negative price. *)
Lemma acc_qty_route_witness :
  OrderBookManager.getOrderBook (Server.toLowerCase "BTCUSDT") mgr1 = Some book1 /\
  result (Server.accQty "BTCUSDT" "-5" None mgr1) clock0
  = Server.Reply400 "Invalid price parameter".
Proof.
  assert (OrderBookManager.getOrderBook (Server.toLowerCase "BTCUSDT") mgr1 = Some book1)
    as H1 by apply lookup_insert_eq.
  split; [exact H1|].
  apply (acc_qty_route "BTCUSDT" "-5" None mgr1 book1 clock0 H1).
  vm_compute. reflexivity.
Defined.

(** The liquidity-profile route, for a symbol the registry holds: a
    [levels] parameter that is absent, does not parse, or is [0] means ten
    levels (so [levels=0] is not rejected), and a 200 answer never holds
    more than 100 rungs per side. *)
Theorem liquidity_route_levels (symbol : string) (levels : option string)
    (mgr : OrderBookManager.t) (ob : OrderBook.t) (c : Clock) :
  OrderBookManager.getOrderBook (Server.toLowerCase symbol) mgr = Some ob ->
  (levels ≫= parseInt_string = None \/ levels ≫= parseInt_string = Some 0 ->
   Server.liquidityProfile symbol levels mgr c = Server.liquidityProfile symbol (Some "10"%string) mgr c /\
   exists data now,
     result (Server.liquidityProfile symbol levels mgr) c = Server.Reply200 data now /\
     length (OrderBook.lp_bids data) = Nat.min 10 (size (OrderBook.bids ob)) /\
     length (OrderBook.lp_asks data) = Nat.min 10 (size (OrderBook.asks ob))) /\
  (forall data now,
     result (Server.liquidityProfile symbol levels mgr) c = Server.Reply200 data now ->
     (length (OrderBook.lp_bids data) <= 100)%nat /\
     (length (OrderBook.lp_asks data) <= 100)%nat).
Proof.
  intros Hget.
  assert (forall n, 1 <= n ->
            length (OrderBook.getBids (Some n) ob)
            = Nat.min (Z.to_nat n) (size (OrderBook.bids ob)) /\
            length (OrderBook.getAsks (Some n) ob)
            = Nat.min (Z.to_nat n) (size (OrderBook.asks ob))) as Hlen.
  { intros n Hn.
    assert (length (OrderBook.getBids None ob) = size (OrderBook.bids ob)) as Hb.
    { by rewrite getBids_all, Array_sort_perm, Map_values_length. }
    assert (length (OrderBook.getAsks None ob) = size (OrderBook.asks ob)) as Ha.
    { by rewrite getAsks_all, Array_sort_perm, Map_values_length. }
    rewrite (getBids_limit ob n Hn), (getAsks_limit ob n Hn), <- Hb, <- Ha.
    rewrite !take_min by lia. by rewrite !length_take. }
  unfold Server.liquidityProfile. rewrite Hget. split.
  - intros Hdefault.
    assert (match levels ≫= parseInt_string with
            | Some n => if n =? 0 then 10 else n | None => 10 end = 10) as ->.
    { by destruct Hdefault as [-> | ->]. }
    split; [reflexivity|].
    change ((10 <? 1) || (10 >? 100))%bool with false. cbv iota.
    unfold OrderBook.getLiquidityProfile, result, bind, ret, Date_now. cbn [fst].
    eexists _, _. split; [reflexivity|].
    cbn [OrderBook.lp_bids OrderBook.lp_asks]. rewrite !rungs_length.
    change (default 10 (Some 10)) with 10.
    destruct (Hlen 10 ltac:(lia)) as [-> ->]. done.
  - intros data now.
    set (n := match levels ≫= parseInt_string with
              | Some n => if n =? 0 then 10 else n | None => 10 end).
    destruct (Z.ltb_spec n 1) as [|H1]; [done|].
    destruct (Z.gtb_spec n 100) as [|H2]; [done|]. cbn [orb].
    unfold OrderBook.getLiquidityProfile, result, bind, ret, Date_now. cbn [fst].
    intros [= <- _]. cbn [OrderBook.lp_bids OrderBook.lp_asks]. rewrite !rungs_length.
    change (default 10 (Some n)) with n.
    destruct (Hlen n ltac:(lia)) as [-> ->]. lia.
Qed.

(** [levels=0] is served as [levels=10]. *)
Lemma liquidity_route_levels_witness :
  OrderBookManager.getOrderBook (Server.toLowerCase "BTCUSDT") mgr1 = Some book1 /\
  Server.liquidityProfile "BTCUSDT" (Some "0"%string) mgr1 clock0
  = Server.liquidityProfile "BTCUSDT" (Some "10"%string) mgr1 clock0.
Proof.
  assert (OrderBookManager.getOrderBook (Server.toLowerCase "BTCUSDT") mgr1 = Some book1)
    as H1 by apply lookup_insert_eq.
  split; [exact H1|].
  apply (liquidity_route_levels "BTCUSDT" (Some "0"%string) mgr1 book1 clock0 H1).
  right. reflexivity.
Defined.
